(** * TEF ESP32 memory-channel manager: protocol client and CSV import/export

    A shallow embedding of [tef_radio_comms.py] (class [TEF_ESP32_Radio]) and of
    the CSV export / differential import workers, the batch write and erase
    workers and the band classifiers of [tef_memory_manager.py], followed by
    the properties of the memory-channel protocol client.

    Conventions of the embedding.
    - Python [int] is [Z]; [str] is [string], read as ASCII text: the case
      mapping and the white-space class are the ASCII ones, and the bytes
      received are taken for the text they decode to. On text outside ASCII
      Python does more ([upper] turns one letter into two, [strip] removes
      U+0085 and U+00A0, decoding joins bytes), so the statements whose
      truth depends on it, the round trip of a CSV file and the dump read
      back, are made for ASCII text, by the hypotheses [Py.isascii] and
      [Py.isprintable_ascii].
    - A channel [dict] is the record [ChannelData]; a key that is missing or
      holds [None] is the field value [None], so [d.get(k)] is the projection.
    - The serial port is a record holding what was written so far and what
      successive [readline] calls are going to return; once that list is
      exhausted every further read times out.
    - [time.sleep] and the per-read timeout values have no counterpart. *)

From Stdlib Require Import ZArith List String Ascii Bool Lia Sorted.
From Stdlib Require Import Decimal DecimalString DecimalZ.
From stdpp Require Import base gmap list strings.

Local Open Scope string_scope.
Local Open Scope list_scope.
Local Open Scope Z_scope.

(** ** Python primitives used by the two source files *)

Module Py.

(** [str.isspace] on ASCII: TAB..CR, FS..US and the blank. *)
Definition is_space (c : ascii) : bool :=
  let n := nat_of_ascii c in
  (Nat.leb 9 n && Nat.leb n 13) || (Nat.leb 28 n && Nat.leb n 32).

Definition is_digit (c : ascii) : bool :=
  let n := nat_of_ascii c in Nat.leb 48 n && Nat.leb n 57.

Fixpoint lstrip (s : string) : string :=
  match s with
  | EmptyString => EmptyString
  | String c r => if is_space c then lstrip r else s
  end.

Fixpoint rstrip (s : string) : string :=
  match s with
  | EmptyString => EmptyString
  | String c r =>
      match rstrip r with
      | EmptyString => if is_space c then EmptyString else String c EmptyString
      | r' => String c r'
      end
  end.

(** [s.strip()], for ASCII text. *)
Definition strip (s : string) : string := rstrip (lstrip s).

(** [s.split(sep)] for a one-character separator: never the empty list. *)
Fixpoint split (sep : ascii) (s : string) : list string :=
  match s with
  | EmptyString => [EmptyString]
  | String c r =>
      if Ascii.eqb c sep then EmptyString :: split sep r
      else match split sep r with
           | p :: ps => String c p :: ps
           | [] => [String c EmptyString]
           end
  end.

Definition upper_char (c : ascii) : ascii :=
  let n := nat_of_ascii c in
  if Nat.leb 97 n && Nat.leb n 122 then ascii_of_nat (n - 32) else c.

(** [s.upper()], for ASCII text: the letters a..z only, one for one. *)
Fixpoint upper (s : string) : string :=
  match s with
  | EmptyString => EmptyString
  | String c r => String (upper_char c) (upper r)
  end.

(** [s[n:]] and [s[:n]] *)
Fixpoint drop (n : nat) (s : string) : string :=
  match n, s with
  | O, _ => s
  | S n', String _ r => drop n' r
  | S _, EmptyString => EmptyString
  end.

Fixpoint take (n : nat) (s : string) : string :=
  match n, s with
  | S n', String c r => String c (take n' r)
  | _, _ => EmptyString
  end.

(** [s.startswith(p)] *)
Definition startswith (s p : string) : bool := String.prefix p s.

Fixpoint endswith_char (s : string) (c : ascii) : bool :=
  match s with
  | EmptyString => false
  | String a EmptyString => Ascii.eqb a c
  | String _ r => endswith_char r c
  end.

Definition nl : ascii := ascii_of_nat 10.

(** [sep.join(l)] *)
Fixpoint join (sep : string) (l : list string) : string :=
  match l with
  | [] => ""
  | [x] => x
  | x :: r => x +:+ sep +:+ join sep r
  end.

(** [str(n)] for an [int] *)
Definition str (n : Z) : string := NilZero.string_of_int (Z.to_int n).

(** The digit part of an [int(...)] literal: digits with single
    underscores between them. *)
Fixpoint underscores_ok (after_digit : bool) (s : string) : bool :=
  match s with
  | EmptyString => after_digit
  | String c r =>
      if is_digit c then underscores_ok true r
      else if Ascii.eqb c "_" then after_digit && underscores_ok false r
      else false
  end.

Fixpoint drop_underscores (s : string) : string :=
  match s with
  | EmptyString => EmptyString
  | String c r =>
      if Ascii.eqb c "_" then drop_underscores r else String c (drop_underscores r)
  end.

Definition int_magnitude (s : string) : option Z :=
  if underscores_ok false s
  then option_map Z.of_uint (NilEmpty.uint_of_string (drop_underscores s))
  else None.

(** [int(s)]: [None] stands for [ValueError]. Surrounding white space, one
    sign, leading zeros and single underscores are accepted, as in Python. *)
Definition int (s : string) : option Z :=
  match strip s with
  | String "-" r => option_map Z.opp (int_magnitude r)
  | String "+" r => int_magnitude r
  | t => int_magnitude t
  end.

Fixpoint bin_pos (p : positive) (acc : string) : string :=
  match p with
  | xH => String "1" acc
  | xO q => bin_pos q (String "0" acc)
  | xI q => bin_pos q (String "1" acc)
  end.

Fixpoint zeros (n : nat) : string :=
  match n with O => "" | S k => String "0" (zeros k) end.

(** [format(n, '08b')]: sign-aware zero padding to eight characters. *)
Definition format_08b (n : Z) : string :=
  match n with
  | Z0 => "00000000"
  | Zpos p => let d := bin_pos p "" in zeros (8 - String.length d) +:+ d
  | Zneg p => let d := bin_pos p "" in String "-" (zeros (7 - String.length d) +:+ d)
  end.

(** Truthiness of an optional integer: [None] and [0] are false. *)
Definition truthy (o : option Z) : bool :=
  match o with Some v => negb (v =? 0) | None => false end.

(** [x or '?'] inside an f-string *)
Definition or_question (o : option Z) : string :=
  match o with
  | Some v => if v =? 0 then "?" else str v
  | None => "?"
  end.

(** [x or ''] for an optional string *)
Definition or_empty (o : option string) : string :=
  match o with Some s => s | None => "" end.

(** Two properties of a text used to state facts about the primitives:
    made of digits only; free of white space. *)
Fixpoint all_digits (s : string) : bool :=
  match s with
  | EmptyString => true
  | String c r => is_digit c && all_digits r
  end.

Fixpoint no_space (s : string) : bool :=
  match s with
  | EmptyString => true
  | String c r => negb (is_space c) && no_space r
  end.

(** [s.isascii()] *)
Fixpoint isascii (s : string) : bool :=
  match s with
  | EmptyString => true
  | String c r => Nat.ltb (nat_of_ascii c) 128 && isascii r
  end.

(** [s.isascii() and s.isprintable()]: the characters from the blank to the
    tilde only. *)
Fixpoint isprintable_ascii (s : string) : bool :=
  match s with
  | EmptyString => true
  | String c r =>
      Nat.leb 32 (nat_of_ascii c) && Nat.leb (nat_of_ascii c) 126 && isprintable_ascii r
  end.

End Py.

(** ** tef_radio_comms.py *)

Module Comms.

Definition S_RETURN_CODES : gmap Z string :=
  list_to_map
    [ (0, "Frequency out of range");
      (1, "Memory channel out of range");
      (2, "Bandwidth out of range");
      (3, "Mono/auto stereo out of range");
      (4, "Memory channel 1 can't be set to skip");
      (5, "Incorrect PI code");
      (6, "Reserved (X)");
      (7, "All ok, channel stored") ].

Definition CSV_HEADER : list string :=
  [ "Channel"; "Frequency kHz"; "Bandwidth Code";
    "Mono/Stereo Code"; "PI Code"; "PS Text" ].

(** One channel [dict]. *)
Record ChannelData := mkChannel {
  channel : option Z;
  freq_khz : option Z;
  bandwidth_code : option Z;
  mono_stereo_code : option Z;
  pi : option string;
  ps : option string
}.

(** The [config_data] dict of [read_configuration]. *)
Record ConfigData := mkConfig {
  radio_model_id : option string;
  version : option string;
  memory_positions : option Z;
  skip_frequency_value : option Z;
  fm_offset_khz : option Z;
  am_range_khz : option (Z * Z);
  fm_range_khz : option (Z * Z);
  channels : list ChannelData
}.

(** What one [readline] call on the port yields: the bytes received (the
    empty string when the timeout expired) or a [SerialException]. *)
Inductive rx_event :=
| RxBytes (raw : string)
| RxFault (e : string).

(** The [serial.Serial] object: [tx] is everything written so far, one entry
    per [write]; [tx_fault] makes [write] raise. *)
Record Serial := mkSerial {
  is_open : bool;
  tx : list string;
  rx : list rx_event;
  tx_fault : option string
}.

(** The [TEF_ESP32_Radio] instance. The two callbacks are modelled by the
    logs of what they were called with. *)
Record Radio := mkRadio {
  serial_conn : option Serial;
  config : option ConfigData;
  max_channels : option Z;
  skip_freq_value : option Z;
  status_log : list string;
  progress_log : list (Z * Z)
}.

Definition _update_status (self : Radio) (message : string) : Radio :=
  mkRadio (serial_conn self) (config self) (max_channels self)
          (skip_freq_value self) (status_log self ++ [message]) (progress_log self).

Definition set_serial (self : Radio) (s : option Serial) : Radio :=
  mkRadio s (config self) (max_channels self)
          (skip_freq_value self) (status_log self) (progress_log self).

(** [self.serial_conn and self.serial_conn.is_open] *)
Definition connected (self : Radio) : bool :=
  match serial_conn self with
  | Some s => is_open s
  | None => false
  end.

Definition _send_command (self : Radio) (command : string) : bool * Radio :=
  match serial_conn self with
  | Some s =>
      if is_open s then
        let command :=
          if Py.endswith_char command Py.nl then command
          else command +:+ String Py.nl "" in
        match tx_fault s with
        | None =>
            (true, set_serial self
                     (Some (mkSerial (is_open s) (tx s ++ [command]) (rx s) (tx_fault s))))
        | Some e =>
            (false, _update_status self
                      ("ERROR sending command '" +:+ Py.strip command +:+ "': " +:+ e))
        end
      else (false, _update_status self "ERROR: Not connected to send command.")
  | None => (false, _update_status self "ERROR: Not connected to send command.")
  end.

(** The outcome of one [readline]: the decoded, stripped line, or [None] on
    timeout or error, with the status messages it causes. The bytes are taken
    for the text: what [decode('utf-8', errors='replace')] gives for ASCII. *)
Definition decode_rx (ev : rx_event) : option string * list string :=
  match ev with
  | RxBytes raw =>
      match raw with
      | EmptyString => (None, [])
      | _ => (Some (Py.strip raw), [])
      end
  | RxFault e => (None, ["ERROR reading line: " +:+ e])
  end.

Definition log_all (self : Radio) (msgs : list string) : Radio :=
  fold_left _update_status msgs self.

Definition _read_line (self : Radio) : option string * Radio :=
  match serial_conn self with
  | Some s =>
      if is_open s then
        match rx s with
        | [] => (None, self)
        | ev :: rest =>
            let self' :=
              set_serial self (Some (mkSerial (is_open s) (tx s) rest (tx_fault s))) in
            (fst (decode_rx ev), log_all self' (snd (decode_rx ev)))
        end
      else (None, _update_status self "ERROR: Not connected to read line.")
  | None => (None, _update_status self "ERROR: Not connected to read line.")
  end.

(** [code & (1 << i)] as a truth value *)
Definition bit_set (code i : Z) : bool :=
  negb (Z.land code (Z.shiftl 1 i) =? 0).

Definition interpret_s_response (code : Z) : list string :=
  let messages :=
    if bit_set code 7 then [default "" (S_RETURN_CODES !! 7)] else [] in
  let messages :=
    fold_left
      (fun (messages : list string) (i : Z) =>
         if bit_set code i then
           match S_RETURN_CODES !! i with
           | Some m =>
               if negb ((i =? 7) && bit_set code 7) then messages ++ [m] else messages
           | None => messages ++ ["Unknown error bit " +:+ Py.str i +:+ " set."]
           end
         else messages)
      (seqZ 0 7) messages in
  match messages with
  | [] =>
      if code =? 0 then ["No status bits set (Code 0)"]
      else ["Unknown response code: " +:+ Py.str code +:+
            " (Binary: " +:+ Py.format_08b code +:+ ")"]
  | _ => messages
  end.

(** *** read_configuration *)

Definition empty_config : ConfigData :=
  mkConfig None None None None None None None [].

(** The local variables of the read loop together with the attributes of
    [self] that the loop assigns. *)
Record ReadState := mkRead {
  config_data : ConfigData;
  lines_read : nat;
  expected_channels : option Z;
  rd_max_channels : option Z;
  rd_skip_freq_value : option Z;
  rd_status : list string;
  rd_progress : list (Z * Z)
}.

Definition rd_log (st : ReadState) (msg : string) : ReadState :=
  mkRead (config_data st) (lines_read st) (expected_channels st)
         (rd_max_channels st) (rd_skip_freq_value st)
         (rd_status st ++ [msg]) (rd_progress st).

Definition rd_set_config (st : ReadState) (c : ConfigData) : ReadState :=
  mkRead c (lines_read st) (expected_channels st)
         (rd_max_channels st) (rd_skip_freq_value st)
         (rd_status st) (rd_progress st).

Definition with_model (c : ConfigData) (v : string) : ConfigData :=
  mkConfig (Some v) (version c) (memory_positions c) (skip_frequency_value c)
           (fm_offset_khz c) (am_range_khz c) (fm_range_khz c) (channels c).
Definition with_version (c : ConfigData) (v : string) : ConfigData :=
  mkConfig (radio_model_id c) (Some v) (memory_positions c) (skip_frequency_value c)
           (fm_offset_khz c) (am_range_khz c) (fm_range_khz c) (channels c).
Definition with_memory (c : ConfigData) (v : Z) : ConfigData :=
  mkConfig (radio_model_id c) (version c) (Some v) (skip_frequency_value c)
           (fm_offset_khz c) (am_range_khz c) (fm_range_khz c) (channels c).
Definition with_skip (c : ConfigData) (v : Z) : ConfigData :=
  mkConfig (radio_model_id c) (version c) (memory_positions c) (Some v)
           (fm_offset_khz c) (am_range_khz c) (fm_range_khz c) (channels c).
Definition with_fm_offset (c : ConfigData) (v : Z) : ConfigData :=
  mkConfig (radio_model_id c) (version c) (memory_positions c) (skip_frequency_value c)
           (Some v) (am_range_khz c) (fm_range_khz c) (channels c).
Definition with_am_range (c : ConfigData) (v : Z * Z) : ConfigData :=
  mkConfig (radio_model_id c) (version c) (memory_positions c) (skip_frequency_value c)
           (fm_offset_khz c) (Some v) (fm_range_khz c) (channels c).
Definition with_fm_range (c : ConfigData) (v : Z * Z) : ConfigData :=
  mkConfig (radio_model_id c) (version c) (memory_positions c) (skip_frequency_value c)
           (fm_offset_khz c) (am_range_khz c) (Some v) (channels c).
Definition append_channel (c : ConfigData) (d : ChannelData) : ConfigData :=
  mkConfig (radio_model_id c) (version c) (memory_positions c) (skip_frequency_value c)
           (fm_offset_khz c) (am_range_khz c) (fm_range_khz c) (channels c ++ [d]).

(** [(int(parts[0]), int(parts[1]))]; [None] is [ValueError] or [IndexError]. *)
Definition parse_range (parts : list string) : option (Z * Z) :=
  match parts with
  | p0 :: p1 :: _ =>
      match Py.int p0, Py.int p1 with
      | Some a, Some b => Some (a, b)
      | _, _ => None
      end
  | _ => None
  end.

(** The [channel_info] dict built from the six fields of a channel row;
    [None] is the [ValueError] of one of the four [int] conversions. *)
Definition parse_channel_fields (p0 p1 p2 p3 p4 p5 : string) : option ChannelData :=
  let pi_val := match p4 with EmptyString => None | _ => Some p4 end in
  let ps_val := match p5 with EmptyString => None | _ => Some p5 end in
  match Py.int p0, Py.int p1, Py.int p2, Py.int p3 with
  | Some ch, Some f, Some bw, Some ms =>
      Some (mkChannel (Some ch) (Some f) (Some bw) (Some ms) pi_val ps_val)
  | _, _, _, _ => None
  end.

(** The body of the loop after a line was received: count it, then dispatch
    on its prefix. *)
Definition process_line (st0 : ReadState) (line : string) : ReadState :=
  let st := mkRead (config_data st0) (S (lines_read st0)) (expected_channels st0)
                   (rd_max_channels st0) (rd_skip_freq_value st0)
                   (rd_status st0) (rd_progress st0) in
  let cfg := config_data st in
  if Py.startswith line "r:" then
    rd_set_config st (with_model cfg (Py.strip (Py.drop 2 line)))
  else if Py.startswith line "v:" then
    rd_set_config st (with_version cfg (Py.strip (Py.drop 2 line)))
  else if Py.startswith line "m:" then
    match Py.int (Py.strip (Py.drop 2 line)) with
    | Some val =>
        mkRead (with_memory cfg val) (lines_read st) (Some val) (Some val)
               (rd_skip_freq_value st) (rd_status st) (rd_progress st)
    | None => rd_log st ("Warning: Could not parse memory positions: " +:+ line)
    end
  else if Py.startswith line "s:" then
    match Py.int (Py.strip (Py.drop 2 line)) with
    | Some val =>
        mkRead (with_skip cfg val) (lines_read st) (expected_channels st)
               (rd_max_channels st) (Some val) (rd_status st) (rd_progress st)
    | None => rd_log st ("Warning: Could not parse skip frequency: " +:+ line)
    end
  else if Py.startswith line "o:" then
    match Py.split ":" (Py.strip (Py.drop 2 line)) with
    | p0 :: _ =>
        match Py.int p0 with
        | Some v => rd_set_config st (with_fm_offset cfg v)
        | None => rd_log st ("Warning: Could not parse FM offset: " +:+ line)
        end
    | [] => rd_log st ("Warning: Could not parse FM offset: " +:+ line)
    end
  else if Py.startswith line "a:" then
    match parse_range (Py.split "," (Py.strip (Py.drop 2 line))) with
    | Some v => rd_set_config st (with_am_range cfg v)
    | None => rd_log st ("Warning: Could not parse AM range: " +:+ line)
    end
  else if Py.startswith line "f:" then
    match parse_range (Py.split "," (Py.strip (Py.drop 2 line))) with
    | Some v => rd_set_config st (with_fm_range cfg v)
    | None => rd_log st ("Warning: Could not parse FM range: " +:+ line)
    end
  else
    match Py.split "," line with
    | [p0; p1; p2; p3; p4; p5] =>
        match parse_channel_fields p0 p1 p2 p3 p4 p5 with
        | Some channel_info =>
            let cfg' := append_channel cfg channel_info in
            mkRead cfg' (lines_read st) (expected_channels st)
                   (rd_max_channels st) (rd_skip_freq_value st) (rd_status st)
                   (if Py.truthy (expected_channels st)
                    then rd_progress st ++
                           [(Z.of_nat (length (channels cfg')),
                             default 0 (expected_channels st))]
                    else rd_progress st)
        | None => rd_log st ("Warning: Could not parse channel data: " +:+ line)
        end
    | _ =>
        if Nat.ltb 7 (lines_read st)
        then rd_log st ("Warning: Ignoring unexpected line: " +:+ line)
        else st
    end.

(** [expected_channels is not None and len(channels) >= expected_channels] *)
Definition completed (st : ReadState) : bool :=
  match expected_channels st with
  | Some n => n <=? Z.of_nat (length (channels (config_data st)))
  | None => false
  end.

(** The branch taken when [_read_line] returned [None]: [None] is the
    critical failure, otherwise the loop is left. *)
Definition on_timeout (st : ReadState) : option ReadState :=
  match expected_channels st with
  | Some n =>
      if Z.of_nat (length (channels (config_data st))) <? n then
        Some (rd_log st
                ("Warning: Read timeout before receiving all expected channels (" +:+
                 Py.str (Z.of_nat (length (channels (config_data st)))) +:+ "/" +:+
                 Py.str n +:+ ")."))
      else if Nat.eqb (lines_read st) 0 then None else Some st
  | None => if Nat.eqb (lines_read st) 0 then None else Some st
  end.

(** The [while True] loop, by recursion on what the port is going to
    deliver. The result is the state at loop exit ([None] for the critical
    failure, with the state in which it was detected) and the unread rest. *)
Fixpoint read_loop (pending : list rx_event) (st : ReadState)
  : (option ReadState * ReadState) * list rx_event :=
  match pending with
  | [] => (on_timeout st, st, [])
  | ev :: rest =>
      match decode_rx ev with
      | (None, msgs) =>
          let st := fold_left rd_log msgs st in
          (on_timeout st, st, rest)
      | (Some line, _) =>
          let st := process_line st line in
          if completed st then
            (* the final quick read *)
            match rest with
            | [] => (Some st, st, [])
            | ev' :: rest' =>
                let st := fold_left rd_log (snd (decode_rx ev')) st in
                (Some st, st, rest')
            end
          else read_loop rest st
      end
  end.

(** The state in which the loop is entered: the fresh [config_data], the
    attributes of [self] reset, and the status reported just before. *)
Definition initial_read_state (self : Radio) : ReadState :=
  mkRead empty_config 0 None None None
         (status_log self ++ ["Reading configuration from radio..."])
         (progress_log self).

Definition read_configuration (self : Radio) : option ConfigData * Radio :=
  let (sent, self) := _send_command self "s" in
  if negb sent then
    (None, _update_status self "Failed to send configuration read command ('s').")
  else
    match serial_conn self with
    | None => (None, self)
    | Some s =>
        let '(res, st_fail, rest) := read_loop (rx s) (initial_read_state self) in
        let s' := Some (mkSerial (is_open s) (tx s) rest (tx_fault s)) in
        match res with
        | None =>
            (None, mkRadio s' None (rd_max_channels st_fail) (rd_skip_freq_value st_fail)
                           (rd_status st_fail ++
                              ["ERROR: No response received from radio for 's' command."])
                           (rd_progress st_fail))
        | Some st =>
            (Some (config_data st),
             mkRadio s' (Some (config_data st)) (rd_max_channels st)
                     (rd_skip_freq_value st)
                     (rd_status st ++
                        ["Configuration read complete. Found " +:+
                         Py.or_question (rd_max_channels st) +:+ " channels."])
                     (rd_progress st))
        end
    end.

(** *** is_channel_skipped *)

Definition is_channel_skipped (self : Radio) (ch_num : Z)
           (channel_data : option ChannelData) : bool :=
  match config self with
  | None => false
  | Some cfg =>
      match channels cfg with
      | [] => false
      | _ =>
          let channel_data :=
            match channel_data with
            | Some d => Some d
            | None =>
                List.find (fun c => bool_decide (channel c = Some ch_num)) (channels cfg)
            end in
          match channel_data with
          | None => false
          | Some d =>
              match freq_khz d with
              | None => false
              | Some current_freq_khz =>
                  match skip_freq_value self with
                  | Some v => current_freq_khz =? v
                  | None => current_freq_khz =? 0
                  end
              end
          end
      end
  end.

(** *** write_channel *)

(** [(freq_khz == 0) or (skip_freq_value is not None and freq_khz == skip_freq_value)] *)
Definition is_skip_freq (skip : option Z) (freq_khz : Z) : bool :=
  (freq_khz =? 0) ||
  match skip with Some v => freq_khz =? v | None => false end.

(** The part of [write_channel] under the comment "Prepare Command": the
    command text, and [self] after the truncation warnings. *)
Definition prepare_command (self : Radio)
           (ch_num freq_khz bandwidth_code mono_stereo_code : Z)
           (pi ps : string) : string * Radio :=
  let pi_upper := Py.upper pi in
  let '(pi_upper, self) :=
    if Nat.ltb 4 (String.length pi_upper)
    then (Py.take 4 pi_upper, _update_status self "Warning: PI code truncated.")
    else (pi_upper, self) in
  let '(ps, self) :=
    if Nat.ltb 8 (String.length ps)
    then (Py.take 8 ps, _update_status self "Warning: PS text truncated.")
    else (ps, self) in
  let command :=
    "S" +:+ Py.str ch_num +:+ "," +:+ Py.str freq_khz +:+ "," +:+
    Py.str bandwidth_code +:+ "," +:+ Py.str mono_stereo_code +:+ "," +:+
    pi_upper +:+ "," +:+ ps in
  (command, self).

(** The part of [write_channel] under the comment "Send and Handle
    Response". *)
Definition send_and_handle (self : Radio) (ch_num : Z) (command : string)
  : (bool * list string) * Radio :=
  let self := _update_status self ("Sending: " +:+ command) in
  let (sent, self) := _send_command self command in
  if negb sent then (false, ["Failed to send 'S' command."], self)
  else
    let (response_line, self) := _read_line self in
    match response_line with
    | None => (false, ["No response received after 'S' command."], self)
    | Some response_line =>
        if Py.startswith response_line "S:" then
          match Py.int (Py.strip (Py.drop 2 response_line)) with
          | Some return_code =>
              let messages := interpret_s_response return_code in
              let success := bit_set return_code 7 in
              (success, messages,
               _update_status self
                 ("Write Ch " +:+ Py.str ch_num +:+ " Response: " +:+
                  Py.join ", " messages))
          | None =>
              let msg := "Could not parse return code: " +:+ response_line in
              (false, [msg], _update_status self ("ERROR: " +:+ msg))
          end
        else
          let msg := "Unexpected response format: " +:+ response_line in
          (false, [msg], _update_status self ("ERROR: " +:+ msg))
    end.

(** The informational status of the validation part. *)
Definition skip_info (self : Radio) (freq_khz : Z) : Radio :=
  match skip_freq_value self with
  | Some v =>
      if (freq_khz =? 0) && negb (v =? 0) then
        _update_status self
          ("Info: Sending frequency 0 for skip, but radio uses " +:+ Py.str v +:+ " kHz.")
      else self
  | None => self
  end.

Definition write_channel (self : Radio) (ch_num freq_khz bandwidth_code mono_stereo_code : Z)
           (pi ps : string) : (bool * list string) * Radio :=
  (* Validation *)
  if negb (connected self) then
    (false, ["ERROR: Not connected."], self)
  else if (ch_num <? 1) ||
          (Py.truthy (max_channels self) && (default 0 (max_channels self) <? ch_num)) then
    (false, ["Invalid channel number (1-" +:+ Py.or_question (max_channels self) +:+ ")."],
     self)
  else if freq_khz <? 0 then
    (false, ["Invalid frequency (must be >= 0 kHz)."], self)
  else if (ch_num =? 1) && is_skip_freq (skip_freq_value self) freq_khz then
    (false, ["ERROR: Channel 1 cannot be set to skip."], self)
  else
    let self := skip_info self freq_khz in
    if bandwidth_code <? 0 then
      (false, ["Invalid bandwidth code."], self)
    else if negb ((mono_stereo_code =? 0) || (mono_stereo_code =? 1)) then
      (false, ["Invalid mono/stereo code (must be 0 or 1)."], self)
    else
      let '(command, self) :=
        prepare_command self ch_num freq_khz bandwidth_code mono_stereo_code pi ps in
      send_and_handle self ch_num command.

(** *** skip_channel *)

Definition skip_channel (self : Radio) (ch_num : Z) : (bool * list string) * Radio :=
  if ch_num =? 1 then (false, ["Error: Channel 1 cannot be skipped."], self)
  else
    let freq_to_send := default 0 (skip_freq_value self) in
    let self :=
      _update_status self
        ("Attempting skip for Ch " +:+ Py.str ch_num +:+ " using freq " +:+
         Py.str freq_to_send +:+ "...") in
    write_channel self ch_num freq_to_send 0 1 "" "".

(** *** connect, disconnect *)

(** What happens between [serial.Serial(port, baudrate, timeout=...)] and the
    second buffer reset: the port is there, [Opened] with the port as it is
    after the resets, or the constructor or a reset raised. The flag tells a
    [SerialException] from another exception. *)
Inductive open_outcome :=
| Opened (port : Serial)
| OpenFailed (serial_exception : bool) (e : string)
| ResetFailed (serial_exception : bool) (e : string).

(** The status reported by the two [except] clauses of [connect]. *)
Definition connect_error (port_name : string) (serial_exception : bool) (e : string)
  : string :=
  if serial_exception then "ERROR connecting to " +:+ port_name +:+ ": " +:+ e
  else "ERROR: An unexpected error occurred during connection: " +:+ e.

Definition connect (self : Radio) (port_name : string) (baudrate : Z)
           (outcome : open_outcome) : bool * Radio :=
  if connected self then (true, _update_status self "Already connected.")
  else
    let self := mkRadio (serial_conn self) None None None
                        (status_log self) (progress_log self) in
    let self := _update_status self ("Attempting to connect to " +:+ port_name +:+ "...") in
    match outcome with
    | Opened port =>
        let self := set_serial self (Some port) in
        let self := _update_status self "Waiting for device initialization..." in
        (true, _update_status self
                 ("Connected to " +:+ port_name +:+ " at " +:+ Py.str baudrate +:+ " baud."))
    | OpenFailed serial_exception e =>
        (false, set_serial
                  (_update_status self (connect_error port_name serial_exception e))
                  None)
    | ResetFailed serial_exception e =>
        let self := _update_status self "Waiting for device initialization..." in
        (false, set_serial
                  (_update_status self (connect_error port_name serial_exception e))
                  None)
    end.

(** [close_error] is the exception raised by [serial_conn.close()], if any. *)
Definition disconnect (self : Radio) (close_error : option string) : Radio :=
  let self :=
    if connected self then
      match close_error with
      | None => _update_status self "Disconnected."
      | Some e => _update_status self ("Error during disconnect: " +:+ e)
      end
    else _update_status self "Already disconnected or not connected." in
  set_serial self None.

Definition _update_progress (self : Radio) (value maximum : Z) : Radio :=
  mkRadio (serial_conn self) (config self) (max_channels self)
          (skip_freq_value self) (status_log self)
          (progress_log self ++ [(value, maximum)]).

End Comms.

(** ** tef_memory_manager.py: CSV export and differential import

    A CSV file is the list of its records, each the list of its fields as
    text: [csv.writer] renders an integer cell with [str] and [csv.reader]
    gives back the fields that were written. *)

Module Manager.
Import Comms.

(** The attributes of the application object that the two workers read. The
    import worker is only started with a radio present, so [radio] is not
    optional. *)
Record App := mkApp {
  radio : Radio;
  radio_config : option ConfigData
}.

(** *** _export_csv_worker *)

(** The sort key [x.get('channel', float('inf'))]: [None] is infinity. *)
Definition key_le (a b : option Z) : bool :=
  match a, b with
  | Some x, Some y => x <=? y
  | _, None => true
  | None, Some _ => false
  end.

Fixpoint insert_sorted (x : ChannelData) (l : list ChannelData) : list ChannelData :=
  match l with
  | [] => [x]
  | y :: r =>
      if key_le (channel x) (channel y) then x :: l else y :: insert_sorted x r
  end.

(** [sorted(channels, key=...)]: the stable sort. *)
Definition sorted (l : list ChannelData) : list ChannelData :=
  fold_right insert_sorted [] l.

Definition cell_int (value : option Z) : string :=
  match value with None => "" | Some n => Py.str n end.

Definition cell_str (value : option string) : string :=
  match value with None => "" | Some s => s end.

Definition export_row (chan_data : ChannelData) : list string :=
  [ cell_int (channel chan_data); cell_int (freq_khz chan_data);
    cell_int (bandwidth_code chan_data); cell_int (mono_stereo_code chan_data);
    cell_str (pi chan_data); cell_str (ps chan_data) ].

(** The file written ([None] when it was never opened), [export_count] and
    [error_msg]. *)
Definition _export_csv_worker (self : App)
  : option (list (list string)) * nat * option string :=
  match radio_config self with
  | None => (None, O, Some "No channel data found in configuration.")
  | Some cfg =>
      let sorted_channels := sorted (channels cfg) in
      (Some (CSV_HEADER :: map export_row sorted_channels),
       length sorted_channels, None)
  end.

(** *** _import_csv_thread_worker *)

(** The entries of [parse_warnings], by the values interpolated in them. *)
Inductive ParseWarning :=
| WrongColumnCount (line_num : nat) (found : nat)
| ChannelOutOfRange (line_num : nat) (ch : Z) (max_channels : option Z)
| NegativeFrequency (line_num : nat) (freq : Z)
| NegativeBandwidth (line_num : nat) (bw : Z)
| InvalidMonoStereo (line_num : nat) (ms : Z)
| PiTruncated (line_num : nat) (original_pi pi : string)
| PsTruncated (line_num : nat) (original_ps ps : string)
| ChannelOneSkip (line_num : nat) (freq : Z)
| InvalidNumberFormat (line_num : nat) (fields : list string).

(** The entries of [parse_errors]. *)
Inductive ParseError :=
| EmptyCsv
| InvalidHeader (found : list string)
| UnexpectedParsingError (e : string).

(** What the body of the row loop does with one row. *)
Inductive RowResult :=
| RowSkipped (warnings : list ParseWarning)
| RowStored (ch : Z) (data : ChannelData) (warnings : list ParseWarning)
| RowRaised (warnings : list ParseWarning) (e : string).

Definition nonblank (field : string) : bool :=
  match Py.strip field with EmptyString => false | _ => true end.

Definition import_row (self : App) (line_num : nat) (row : list string) : RowResult :=
  if negb (existsb nonblank row) then RowSkipped []
  else
    match row with
    | [r0; r1; r2; r3; r4; r5] =>
        let ch_str := Py.strip r0 in
        let freq_str := Py.strip r1 in
        let bw_str := Py.strip r2 in
        let ms_str := Py.strip r3 in
        let pi := Py.upper (Py.strip r4) in
        let ps := Py.strip r5 in
        match Py.int ch_str, Py.int freq_str, Py.int bw_str, Py.int ms_str with
        | Some ch, Some freq, Some bw, Some ms =>
            if negb (1 <=? ch) then
              RowSkipped [ChannelOutOfRange line_num ch (max_channels (radio self))]
            else
              match max_channels (radio self) with
              | None =>
                  RowRaised []
                    "'<=' not supported between instances of 'int' and 'NoneType'"
              | Some maxc =>
                  if negb (ch <=? maxc) then
                    RowSkipped [ChannelOutOfRange line_num ch (Some maxc)]
                  else if freq <? 0 then RowSkipped [NegativeFrequency line_num freq]
                  else if bw <? 0 then RowSkipped [NegativeBandwidth line_num bw]
                  else if negb ((ms =? 0) || (ms =? 1)) then
                    RowSkipped [InvalidMonoStereo line_num ms]
                  else
                    let '(pi, w1) :=
                      if Nat.ltb 4 (String.length pi)
                      then (Py.take 4 pi, [PiTruncated line_num pi (Py.take 4 pi)])
                      else (pi, []) in
                    let '(ps, w2) :=
                      if Nat.ltb 8 (String.length ps)
                      then (Py.take 8 ps, [PsTruncated line_num ps (Py.take 8 ps)])
                      else (ps, []) in
                    let is_skip_freq_csv :=
                      is_skip_freq (skip_freq_value (radio self)) freq in
                    if (ch =? 1) && is_skip_freq_csv then
                      RowSkipped (w1 ++ w2 ++ [ChannelOneSkip line_num freq])
                    else
                      RowStored ch
                        (mkChannel (Some ch) (Some freq) (Some bw) (Some ms)
                                   (Some pi) (Some ps))
                        (w1 ++ w2)
              end
        | _, _, _, _ => RowSkipped [InvalidNumberFormat line_num (firstn 4 row)]
        end
    | _ => RowSkipped [WrongColumnCount line_num (length row)]
    end.

(** [imported_channels[ch] = data] on an insertion-ordered dict. *)
Fixpoint dict_set (ch : Z) (data : ChannelData) (d : list (Z * ChannelData))
  : list (Z * ChannelData) :=
  match d with
  | [] => [(ch, data)]
  | (k, v) :: r => if k =? ch then (ch, data) :: r else (k, v) :: dict_set ch data r
  end.

(** The three accumulators of the parsing phase. *)
Record Parsed := mkParsed {
  imported_channels : list (Z * ChannelData);
  parse_errors : list ParseError;
  parse_warnings : list ParseWarning
}.

(** The [for row in reader] loop; [line_num] is the number of the previous
    line. An exception that leaves the loop ends up in [parse_errors]. *)
Fixpoint import_rows (self : App) (line_num : nat) (rows : list (list string))
         (acc : Parsed) : Parsed :=
  match rows with
  | [] => acc
  | row :: rest =>
      let line_num := S line_num in
      match import_row self line_num row with
      | RowSkipped ws =>
          import_rows self line_num rest
            (mkParsed (imported_channels acc) (parse_errors acc) (parse_warnings acc ++ ws))
      | RowStored ch data ws =>
          import_rows self line_num rest
            (mkParsed (dict_set ch data (imported_channels acc)) (parse_errors acc)
                      (parse_warnings acc ++ ws))
      | RowRaised ws e =>
          mkParsed (imported_channels acc)
                   (parse_errors acc ++ [UnexpectedParsingError e])
                   (parse_warnings acc ++ ws)
      end
  end.

Definition parse_csv (self : App) (file : list (list string)) : Parsed :=
  match file with
  | [] => mkParsed [] [EmptyCsv] []
  | header :: rows =>
      if bool_decide (header = CSV_HEADER)
      then import_rows self 1 rows (mkParsed [] [] [])
      else mkParsed [] [InvalidHeader header] []
  end.

(** [{c.get('channel'): c for c in channels if c.get('channel') is not None}] *)
Definition current_channels_dict (cfg : ConfigData) : gmap Z ChannelData :=
  fold_left
    (fun (d : gmap Z ChannelData) (c : ChannelData) =>
       match channel c with
       | Some k => <[k := c]> d
       | None => d
       end)
    (channels cfg) ∅.

(** [is_skip_in_csv] *)
Definition is_skip_in_csv (self : App) (imp_data : ChannelData) : bool :=
  bool_decide (freq_khz imp_data = Some 0) ||
  match skip_freq_value (radio self) with
  | Some v => bool_decide (freq_khz imp_data = Some v)
  | None => false
  end.

(** The value of [needs_write] at the end of the body of the comparison
    loop. *)
Definition needs_write (self : App) (ch_num : Z) (imp_data : ChannelData)
           (curr_data : option ChannelData) : bool :=
  let curr_pi := match curr_data with Some c => Py.or_empty (pi c) | None => "" end in
  let curr_ps := match curr_data with Some c => Py.or_empty (ps c) | None => "" end in
  let imp_pi := default "" (pi imp_data) in
  let imp_ps := default "" (ps imp_data) in
  match curr_data with
  | None => negb (is_skip_in_csv self imp_data)
  | Some curr_data =>
      let diffs :=
        (if negb (bool_decide (freq_khz imp_data = freq_khz curr_data))
         then ["Freq"] else []) ++
        (if negb (bool_decide (bandwidth_code imp_data = bandwidth_code curr_data))
         then ["BW"] else []) ++
        (if negb (bool_decide (mono_stereo_code imp_data = mono_stereo_code curr_data))
         then ["Mode"] else []) ++
        (if negb (bool_decide (imp_pi = Py.upper curr_pi)) then ["PI"] else []) ++
        (if negb (bool_decide (imp_ps = curr_ps)) then ["PS"] else []) in
      match diffs with
      | [] => false
      | _ =>
          let is_skipped_on_radio :=
            is_channel_skipped (radio self) ch_num (Some curr_data) in
          if is_skip_in_csv self imp_data && is_skipped_on_radio &&
             bool_decide (bandwidth_code imp_data = bandwidth_code curr_data) &&
             bool_decide (mono_stereo_code imp_data = mono_stereo_code curr_data) &&
             bool_decide (imp_pi = Py.upper curr_pi) &&
             bool_decide (imp_ps = curr_ps)
          then false else true
      end
  end.

(** The comparison loop over [imported_channels.items()]. *)
Definition diff_channels (self : App) (cfg : ConfigData)
           (imported : list (Z * ChannelData)) : list ChannelData :=
  let current := current_channels_dict cfg in
  map snd
      (List.filter (fun '(ch_num, imp_data) =>
                      needs_write self ch_num imp_data (current !! ch_num))
                   imported).

(** [channels_to_write_data], [parse_errors] and [parse_warnings] as handed
    to [_post_import_parse]; [None] when the comparison dereferences a
    missing [radio_config] and the worker dies. *)
Definition _import_csv_thread_worker (self : App) (file : list (list string))
  : option (list ChannelData * list ParseError * list ParseWarning) :=
  let p := parse_csv self file in
  match parse_errors p, imported_channels p with
  | [], _ :: _ =>
      match radio_config self with
      | Some cfg =>
          Some (diff_channels self cfg (imported_channels p), [], parse_warnings p)
      | None => None
      end
  | errs, _ => Some ([], errs, parse_warnings p)
  end.

(** *** _get_band_from_freq *)

(** [rng and rng[0] <= freq_khz <= rng[1]] *)
Definition in_range (range : option (Z * Z)) (freq_khz : Z) : bool :=
  match range with
  | Some (lo, hi) => (lo <=? freq_khz) && (freq_khz <=? hi)
  | None => false
  end.

(** [RadioApp._get_band_from_freq], on the attributes [radio] and
    [radio_config] of the application. *)
Definition _get_band_from_freq (radio : option Radio) (radio_config : option ConfigData)
           (freq_khz : option Z) : string :=
  match freq_khz with
  | None => "Unknown"
  | Some freq_khz =>
      if freq_khz <=? 0 then "Unknown"
      else if match radio with
              | Some r =>
                  match skip_freq_value r with
                  | Some v => freq_khz =? v
                  | None => false
                  end
              | None => false
              end then "Unknown"
      else
        match radio_config with
        | Some cfg =>
            if in_range (am_range_khz cfg) freq_khz then "AM"
            else if in_range (fm_range_khz cfg) freq_khz then "FM"
            else "Unknown"
        | None => "Unknown"
        end
  end.

(** [WriteChannelDialog._get_band_from_freq], on the radio instance the
    dialog was given. *)
Definition dialog_get_band_from_freq (radio : option Radio) (freq_khz : option Z)
  : string :=
  match freq_khz with
  | None => "Unknown"
  | Some freq_khz =>
      if freq_khz <=? 0 then "Unknown"
      else
        match radio with
        | Some r =>
            match config r with
            | Some cfg =>
                if in_range (am_range_khz cfg) freq_khz then "AM"
                else if in_range (fm_range_khz cfg) freq_khz then "FM"
                else "Unknown"
            | None => "Unknown"
            end
        | None => "Unknown"
        end
  end.

(** [enumerate(l)] *)
Definition enumerate {A : Type} (l : list A) : list (nat * A) :=
  combine (seq 0 (length l)) l.

(** *** _erase_all_thread_worker *)

(** The counters of the worker, the radio it drives and the error handed to
    [_post_erase_refresh]. *)
Record EraseResult := mkErase {
  success_count : nat;
  fail_count : nat;
  already_skipped_count : nat;
  changes_made : bool;
  erase_radio : Radio;
  erase_error : option string
}.

(** The body of the loop over [enumerate(range(2, max_ch + 1))]. *)
Definition erase_step (max_ch : Z) (current : gmap Z ChannelData)
           (acc : EraseResult) (item : nat * Z) : EraseResult :=
  let '(i, ch) := item in
  let r := _update_progress (erase_radio acc) (Z.of_nat i + 1) (max_ch - 1) in
  let current_data := current !! ch in
  if is_channel_skipped r ch current_data then
    mkErase (success_count acc) (fail_count acc) (S (already_skipped_count acc))
            (changes_made acc) r (erase_error acc)
  else
    let '(success, messages, r) := skip_channel r ch in
    if success then
      mkErase (S (success_count acc)) (fail_count acc) (already_skipped_count acc)
              true r (erase_error acc)
    else
      mkErase (success_count acc) (S (fail_count acc)) (already_skipped_count acc)
              true r (erase_error acc).

Definition _erase_all_thread_worker (self : App) : EraseResult :=
  match radio_config self with
  | Some cfg =>
      if Py.truthy (max_channels (radio self)) then
        let max_ch := default 0 (max_channels (radio self)) in
        let current := current_channels_dict cfg in
        fold_left (erase_step max_ch current)
                  (enumerate (seqZ 2 (max_ch - 1)))
                  (mkErase 0 0 0 false (radio self) None)
      else mkErase 0 0 0 false (radio self) (Some "Radio/Config became unavailable.")
  | None => mkErase 0 0 0 false (radio self) (Some "Radio/Config became unavailable.")
  end.

(** *** _import_write_thread_worker *)

(** The counters of the worker and the radio it drives. The write list is
    built by the import, which stores a value under every key, so an absent
    field of an entry is a missing key: the subscript raises [KeyError] and
    the thread ends, [write_died]. *)
Record WriteResult := mkWrite {
  write_success_count : nat;
  write_fail_count : nat;
  changes_attempted : bool;
  write_radio : Radio;
  write_died : bool
}.

(** The body of the loop over [enumerate(channels_to_write)]. *)
Definition write_step (total_writes : nat) (acc : WriteResult)
           (item : nat * ChannelData) : WriteResult :=
  let '(i, chan_data) := item in
  if write_died acc then acc
  else
    match channel chan_data with
    | None => mkWrite (write_success_count acc) (write_fail_count acc) true
                      (write_radio acc) true
    | Some ch =>
        let r :=
          _update_status (write_radio acc)
            ("Import: Writing Ch " +:+ Py.str ch +:+ " (" +:+
             Py.str (Z.of_nat i + 1) +:+ "/" +:+
             Py.str (Z.of_nat total_writes) +:+ ")...") in
        match freq_khz chan_data, bandwidth_code chan_data,
              mono_stereo_code chan_data with
        | Some f, Some bw, Some ms =>
            let '(success, messages, r) :=
              write_channel r ch f bw ms (default "" (pi chan_data))
                            (default "" (ps chan_data)) in
            let r := _update_progress r (Z.of_nat i + 1) (Z.of_nat total_writes) in
            if success then
              mkWrite (S (write_success_count acc)) (write_fail_count acc) true r false
            else
              mkWrite (write_success_count acc) (S (write_fail_count acc)) true r false
        | _, _, _ => mkWrite (write_success_count acc) (write_fail_count acc) true r true
        end
    end.

Definition _import_write_thread_worker (self : App) (channels_to_write : list ChannelData)
  : WriteResult :=
  let channels_to_write := sorted channels_to_write in
  let total_writes := length channels_to_write in
  fold_left (write_step total_writes)
            (enumerate channels_to_write)
            (mkWrite 0 0 false (radio self) false).

End Manager.

(** ** The properties, in the terms of the specification *)

Module Spec.
Import Comms Manager.

(** *** Response interpreter *)

(** A message that is reported exactly when its status bit is set. *)
Definition flag (b : bool) (m : string) : list string := if b then [m] else [].

(** The documented condition of every set bit: the success flag first, then
    the failure bits in ascending order. *)
Definition status_messages (code : Z) : list string :=
  flag (Z.testbit code 7) "All ok, channel stored" ++
  flag (Z.testbit code 0) "Frequency out of range" ++
  flag (Z.testbit code 1) "Memory channel out of range" ++
  flag (Z.testbit code 2) "Bandwidth out of range" ++
  flag (Z.testbit code 3) "Mono/auto stereo out of range" ++
  flag (Z.testbit code 4) "Memory channel 1 can't be set to skip" ++
  flag (Z.testbit code 5) "Incorrect PI code" ++
  flag (Z.testbit code 6) "Reserved (X)".

(** *** Channel writer *)

(** [S<channel>,<freqKhz>,<bandwidthCode>,<monoStereoCode>,<PI>,<PS>] with the
    PI code in upper case, PI and PS cut to 4 and 8 characters. *)
Definition s_command (ch_num freq_khz bandwidth_code mono_stereo_code : Z)
           (pi ps : string) : string :=
  "S" +:+ Py.str ch_num +:+ "," +:+ Py.str freq_khz +:+ "," +:+
  Py.str bandwidth_code +:+ "," +:+ Py.str mono_stereo_code +:+ "," +:+
  Py.take 4 (Py.upper pi) +:+ "," +:+ Py.take 8 ps.

(** A line as the transport writes it: newline-terminated. *)
Definition wire_line (text : string) : string :=
  if Py.endswith_char text Py.nl then text else text +:+ String Py.nl "".

(** The channel number lies in [[1, memoryPositions]], the upper bound
    applying when the number of memory positions is known and not zero. *)
Definition channel_in_range (self : Radio) (ch_num : Z) : Prop :=
  1 <= ch_num /\ forall m, max_channels self = Some m -> m <> 0 -> ch_num <= m.

(** A skip frequency: 0 or the skip value the device reported. *)
Definition skip_frequency (self : Radio) (freq_khz : Z) : Prop :=
  freq_khz = 0 \/ skip_freq_value self = Some freq_khz.

(** Two sessions with the same port, port contents and cached
    configuration. *)
Definition same_session (a b : Radio) : Prop :=
  serial_conn a = serial_conn b /\ config a = config b /\
  max_channels a = max_channels b /\ skip_freq_value a = skip_freq_value b.

(** The six validation failures, the channel range being
    [[1, memoryPositions]] whenever the number of positions is known. *)
Definition validation_failure_as_claimed (self : Radio) (ch freq bw ms : Z) : Prop :=
  connected self = false \/
  (ch < 1 \/ exists m, max_channels self = Some m /\ m < ch) \/
  freq < 0 \/
  (ch = 1 /\ skip_frequency self freq) \/
  bw < 0 \/
  (ms <> 0 /\ ms <> 1).

(** The six validation failures, with the channel range of
    [channel_in_range]. *)
Definition validation_failure (self : Radio) (ch freq bw ms : Z) : Prop :=
  connected self = false \/
  ~ channel_in_range self ch \/
  freq < 0 \/
  (ch = 1 /\ skip_frequency self freq) \/
  bw < 0 \/
  (ms <> 0 /\ ms <> 1).

Definition validation_messages (self : Radio) : list string :=
  [ "ERROR: Not connected.";
    "Invalid channel number (1-" +:+ Py.or_question (max_channels self) +:+ ").";
    "Invalid frequency (must be >= 0 kHz).";
    "ERROR: Channel 1 cannot be set to skip.";
    "Invalid bandwidth code.";
    "Invalid mono/stereo code (must be 0 or 1)." ].

Definition skip_info_text (v : Z) : string :=
  "Info: Sending frequency 0 for skip, but radio uses " +:+ Py.str v +:+ " kHz.".

(** *** Skip-state resolver *)

(** The record the resolver decides on: the one passed in, else the first
    one of the loaded configuration with that channel number. *)
Definition resolve_record (self : Radio) (ch_num : Z) (record : option ChannelData)
  : option ChannelData :=
  match record with
  | Some d => Some d
  | None =>
      match config self with
      | Some cfg => List.find (fun c => bool_decide (channel c = Some ch_num)) (channels cfg)
      | None => None
      end
  end.

(** The comparison rule: against the skip value if known, else against 0. *)
Definition skip_rule (self : Radio) (freq : Z) : bool :=
  match skip_freq_value self with
  | Some v => freq =? v
  | None => freq =? 0
  end.

Definition is_skipped_as_claimed (self : Radio) (ch_num : Z) (record : option ChannelData)
  : bool :=
  match config self with
  | None => false
  | Some _ =>
      match resolve_record self ch_num record with
      | None => false
      | Some d =>
          match freq_khz d with
          | None => false
          | Some f => skip_rule self f
          end
      end
  end.

(** A configuration is loaded and it holds no channel record. *)
Definition no_channel_records (self : Radio) : bool :=
  match config self with
  | Some cfg => match channels cfg with [] => true | _ => false end
  | None => false
  end.

(** *** Configuration reader *)

(** The lines the loop is handed before the first timeout or read error. *)
Fixpoint lines_received (pending : list rx_event) : list string :=
  match pending with
  | [] => []
  | ev :: rest =>
      match fst (decode_rx ev) with
      | Some line => line :: lines_received rest
      | None => []
      end
  end.

(** The loop body run over successive lines, as long as the declared channel
    count is not reached: [None] once it is. *)
Fixpoint feed (st : ReadState) (lines : list string) : option ReadState :=
  match lines with
  | [] => Some st
  | line :: rest =>
      let st' := process_line st line in
      if completed st' then None else feed st' rest
  end.

(** The port stays silent: nothing pending, or a read that times out or
    fails. *)
Definition silent (pending : list rx_event) : Prop :=
  match pending with
  | [] => True
  | ev :: _ => fst (decode_rx ev) = None
  end.

Definition timeout_warning (received expected : Z) : string :=
  "Warning: Read timeout before receiving all expected channels (" +:+
  Py.str received +:+ "/" +:+ Py.str expected +:+ ").".

Definition has_header_prefix (line : string) : bool :=
  Py.startswith line "r:" || Py.startswith line "v:" || Py.startswith line "m:" ||
  Py.startswith line "s:" || Py.startswith line "o:" || Py.startswith line "a:" ||
  Py.startswith line "f:".

(** The channel record a dump line contributes, if any. *)
Definition channel_of_line (line : string) : option ChannelData :=
  if has_header_prefix line then None
  else match Py.split "," line with
       | [p0; p1; p2; p3; p4; p5] => parse_channel_fields p0 p1 p2 p3 p4 p5
       | _ => None
       end.

(** The invariant of the data model on the channel numbers of a
    configuration: 1-based, at most [memoryPositions], pairwise distinct. *)
Definition channel_numbers_valid (cfg : ConfigData) : Prop :=
  (forall c, In c (channels cfg) ->
     exists n, channel c = Some n /\ 1 <= n /\
               forall m, memory_positions cfg = Some m -> n <= m) /\
  NoDup (map channel (channels cfg)).

(** The integer in the first comma-separated field of the remainder of an
    [o:] line. *)
Definition first_comma_int (line : string) : option Z :=
  match Py.split "," (Py.drop 2 line) with
  | p0 :: _ => Py.int p0
  | [] => None
  end.

(** The integer in the first colon-separated field of the stripped
    remainder. *)
Definition first_colon_int (line : string) : option Z :=
  match Py.split ":" (Py.strip (Py.drop 2 line)) with
  | p0 :: _ => Py.int p0
  | [] => None
  end.

(** *** Differential import *)

(** The row encodes a skip frequency: 0 or the configured skip value. *)
Definition row_is_skip (self : App) (imp : ChannelData) : Prop :=
  freq_khz imp = Some 0 \/
  exists v, skip_freq_value (radio self) = Some v /\ freq_khz imp = Some v.

(** PI is compared without regard to case, PS as it is; an absent text is
    the empty one. *)
Definition pi_matches (imp curr : ChannelData) : Prop :=
  Py.upper (Py.or_empty (pi imp)) = Py.upper (Py.or_empty (pi curr)).

Definition ps_matches (imp curr : ChannelData) : Prop :=
  Py.or_empty (ps imp) = Py.or_empty (ps curr).

Definition differs_from_live (imp curr : ChannelData) : Prop :=
  freq_khz imp <> freq_khz curr \/
  bandwidth_code imp <> bandwidth_code curr \/
  mono_stereo_code imp <> mono_stereo_code curr \/
  ~ pi_matches imp curr \/
  ~ ps_matches imp curr.

(** The exception: a skip frequency in the row, the live channel already in
    the skip state, and every other field matching. *)
Definition already_skipped (self : App) (ch_num : Z) (imp curr : ChannelData) : Prop :=
  row_is_skip self imp /\
  is_channel_skipped (radio self) ch_num (Some curr) = true /\
  bandwidth_code imp = bandwidth_code curr /\
  mono_stereo_code imp = mono_stereo_code curr /\
  pi_matches imp curr /\
  ps_matches imp curr.

(** The write decision as the differential import is specified. *)
Definition write_expected (self : App) (ch_num : Z) (imp : ChannelData)
           (curr : option ChannelData) : Prop :=
  match curr with
  | None => ~ row_is_skip self imp
  | Some c => differs_from_live imp c /\ ~ already_skipped self ch_num imp c
  end.

(** What the parsing phase stores: all keys present, the channel number as
    key, the PI code in upper case. *)
Definition stored_row (ch : Z) (d : ChannelData) : Prop :=
  channel d = Some ch /\
  (exists f bw ms, freq_khz d = Some f /\ bandwidth_code d = Some bw /\
                   mono_stereo_code d = Some ms) /\
  (exists p, pi d = Some p /\ Py.upper p = p) /\
  (exists t, ps d = Some t).

(** *** CSV round trip *)

(** A PI or PS text that the import leaves as it is: no surrounding white
    space and within the length limit. *)
Definition tidy (limit : nat) (text : option string) : Prop :=
  Py.strip (Py.or_empty text) = Py.or_empty text /\
  (String.length (Py.or_empty text) <= limit)%nat.

Definition tidy_texts (c : ChannelData) : Prop :=
  tidy 4 (pi c) /\ tidy 8 (ps c).

(** Equality of channel records up to an absent PI or PS being the empty
    text. *)
Definition same_record (a b : ChannelData) : Prop :=
  channel a = channel b /\ freq_khz a = freq_khz b /\
  bandwidth_code a = bandwidth_code b /\ mono_stereo_code a = mono_stereo_code b /\
  Py.or_empty (pi a) = Py.or_empty (pi b) /\ Py.or_empty (ps a) = Py.or_empty (ps b).

(** A channel record that the channel writer accepts, with tidy texts and
    the PI code in upper case. *)
Definition valid_record (self : App) (r : ChannelData) : Prop :=
  exists ch f bw ms maxc,
    channel r = Some ch /\ freq_khz r = Some f /\
    bandwidth_code r = Some bw /\ mono_stereo_code r = Some ms /\
    max_channels (radio self) = Some maxc /\
    1 <= ch <= maxc /\ 0 <= f /\ 0 <= bw /\ (ms = 0 \/ ms = 1) /\
    Py.upper (Py.or_empty (pi r)) = Py.or_empty (pi r) /\
    tidy_texts r /\
    ~ (ch = 1 /\ skip_frequency (radio self) f).

(** One step of the dict comprehension of [current_channels_dict]. *)
Definition dict_step (d : gmap Z ChannelData) (c : ChannelData) : gmap Z ChannelData :=
  match channel c with
  | Some k => <[k := c]> d
  | None => d
  end.

(** *** Sessions over time *)

(** The port after some traffic: at most [w] lines written after what was
    written before, at most [r] pending reads consumed, the same state
    otherwise. *)
Definition port_advanced (w r : nat) (s s' : Serial) : Prop :=
  is_open s' = is_open s /\ tx_fault s' = tx_fault s /\
  (exists written, tx s' = tx s ++ written /\ (length written <= w)%nat) /\
  (exists consumed, rx s = consumed ++ rx s' /\ (length consumed <= r)%nat).

(** The session [b] is the session [a] after at most [w] writes and [r]
    reads: the cached configuration is the same and the two logs have only
    grown. *)
Definition advanced (w r : nat) (a b : Radio) : Prop :=
  config b = config a /\ max_channels b = max_channels a /\
  skip_freq_value b = skip_freq_value a /\
  (exists more, status_log b = status_log a ++ more) /\
  (exists more, progress_log b = progress_log a ++ more) /\
  match serial_conn a, serial_conn b with
  | Some s, Some s' => port_advanced w r s s'
  | None, None => True
  | _, _ => False
  end.

(** The cached values are those of the configuration [res]. *)
Definition cache_of (res : option ConfigData) (self : Radio) : Prop :=
  config self = res /\
  max_channels self = res ≫= memory_positions /\
  skip_freq_value self = res ≫= skip_frequency_value.

(** *** Configuration reader: the attributes and the dump *)

(** The attributes of [self] assigned in the loop agree with the entries of
    [config_data]. *)
Definition reader_invariant (st : ReadState) : Prop :=
  expected_channels st = memory_positions (config_data st) /\
  rd_max_channels st = memory_positions (config_data st) /\
  rd_skip_freq_value st = skip_frequency_value (config_data st).

(** *** The live configuration, by channel number *)

(** The record of the live configuration for a channel number: the last one
    in the channel list that carries the number, none when no record carries
    it. *)
Definition live_record (cfg : ConfigData) (ch : Z) : option ChannelData :=
  last (List.filter (fun c => bool_decide (channel c = Some ch)) (channels cfg)).

(** *** Records that an import accepts *)

(** A record whose exported row the import accepts: the four numbers are
    there, the channel lies within the memory positions of the radio,
    frequency and bandwidth code are not negative, the mono/stereo code is 0
    or 1, and channel 1 does not carry a skip frequency. *)
Definition importable (self : App) (r : ChannelData) : bool :=
  match channel r, freq_khz r, bandwidth_code r, mono_stereo_code r,
        max_channels (radio self) with
  | Some ch, Some f, Some bw, Some ms, Some maxc =>
      (1 <=? ch) && (ch <=? maxc) && (0 <=? f) && (0 <=? bw) &&
      ((ms =? 0) || (ms =? 1)) &&
      negb ((ch =? 1) &&
            ((f =? 0) || bool_decide (skip_freq_value (radio self) = Some f)))
  | _, _, _, _, _ => false
  end.

(** The record as an import stores it: the PI code in upper case, an absent
    PI or PS as the empty text. *)
Definition stored_form (r : ChannelData) : ChannelData :=
  mkChannel (channel r) (freq_khz r) (bandwidth_code r) (mono_stereo_code r)
            (Some (Py.upper (Py.or_empty (pi r)))) (Some (Py.or_empty (ps r))).

(** PI and PS are printable ASCII texts. *)
Definition plain_texts (c : ChannelData) : Prop :=
  Py.isprintable_ascii (Py.or_empty (pi c)) = true /\
  Py.isprintable_ascii (Py.or_empty (ps c)) = true.

(** Whenever the import accepts a record of the configuration, it accepts the
    live record of that channel number: always so when the channel numbers are
    pairwise distinct, and when every record is acceptable. *)
Definition last_accepted (self : App) (cfg : ConfigData) : Prop :=
  forall r ch,
    In r (channels cfg) -> channel r = Some ch -> importable self r = true ->
    exists l, live_record cfg ch = Some l /\ importable self l = true.

(** [d.get(k)] on an insertion-ordered dict. *)
Fixpoint dict_get (k : Z) (d : list (Z * ChannelData)) : option ChannelData :=
  match d with
  | [] => None
  | (k', v) :: r => if k' =? k then Some v else dict_get k r
  end.

Fixpoint no_comma (s : string) : bool :=
  match s with
  | EmptyString => true
  | String c r => negb (Ascii.eqb c ",") && no_comma r
  end.

(** The line by which the device sends a channel record:
    [<channel>,<freqKhz>,<bandwidthCode>,<monoStereoCode>,<PI>,<PS>]. *)
Definition dump_line (c : ChannelData) : string :=
  cell_int (channel c) +:+ "," +:+ cell_int (freq_khz c) +:+ "," +:+
  cell_int (bandwidth_code c) +:+ "," +:+ cell_int (mono_stereo_code c) +:+ "," +:+
  cell_str (pi c) +:+ "," +:+ cell_str (ps c).

(** A record that such a line carries without loss: the four numbers are
    there, PI and PS are absent rather than empty, are printable ASCII and
    hold no comma, and PS does not end in white space. *)
Definition device_row (c : ChannelData) : Prop :=
  (exists ch f bw ms,
     channel c = Some ch /\ freq_khz c = Some f /\
     bandwidth_code c = Some bw /\ mono_stereo_code c = Some ms) /\
  pi c <> Some "" /\ ps c <> Some "" /\
  plain_texts c /\
  no_comma (Py.or_empty (pi c)) = true /\ no_comma (Py.or_empty (ps c)) = true /\
  Py.rstrip (Py.or_empty (ps c)) = Py.or_empty (ps c).

(** What the port delivers for a line sent by the device. *)
Definition received (line : string) : rx_event := RxBytes (line +:+ String Py.nl "").

Definition with_channels (c : ConfigData) (l : list ChannelData) : ConfigData :=
  mkConfig (radio_model_id c) (version c) (memory_positions c) (skip_frequency_value c)
           (fm_offset_khz c) (am_range_khz c) (fm_range_khz c) l.

(** *** Band of a frequency *)

(** The frequency lies in a range that the device reported. *)
Definition within (range : option (Z * Z)) (freq_khz : Z) : Prop :=
  exists lo hi, range = Some (lo, hi) /\ lo <= freq_khz <= hi.

(** The frequency is the skip value the radio reported. *)
Definition device_skip_value (radio : option Radio) (freq_khz : Z) : Prop :=
  exists r, radio = Some r /\ skip_freq_value r = Some freq_khz.

(** *** Export order *)

(** Ascending channel numbers, a record without channel number counting as
    the largest. *)
Definition channel_le (a b : ChannelData) : Prop :=
  match channel a, channel b with
  | Some x, Some y => x <= y
  | _, None => True
  | None, Some _ => False
  end.

(** *** Import entries and the channel writer *)

(** An entry of the write list that the channel writer accepts as it is:
    every key present, the channel in [[1, max_channels]], no negative number,
    a mono/stereo code of 0 or 1, an upper-case PI of at most 4 and a PS of at
    most 8 characters, and not a skip frequency on channel 1. *)
Definition accepted_entry (self : Radio) (d : ChannelData) : Prop :=
  exists ch f bw ms p t,
    d = mkChannel (Some ch) (Some f) (Some bw) (Some ms) (Some p) (Some t) /\
    (exists maxc, max_channels self = Some maxc /\ 1 <= ch <= maxc) /\
    0 <= f /\ 0 <= bw /\ (ms = 0 \/ ms = 1) /\
    Py.upper p = p /\ (String.length p <= 4)%nat /\ (String.length t <= 8)%nat /\
    ~ (ch = 1 /\ skip_frequency self f).

(** The line that carries an entry: [S<ch>,<freq>,<bw>,<ms>,<PI>,<PS>],
    newline-terminated. *)
Definition entry_line (d : ChannelData) : string :=
  wire_line ("S" +:+ cell_int (channel d) +:+ "," +:+ cell_int (freq_khz d) +:+ "," +:+
             cell_int (bandwidth_code d) +:+ "," +:+ cell_int (mono_stereo_code d) +:+
             "," +:+ cell_str (pi d) +:+ "," +:+ cell_str (ps d)).

(** The line that skips a channel with the skip value [v]. *)
Definition skip_line (v ch : Z) : string :=
  "S" +:+ Py.str ch +:+ "," +:+ Py.str v +:+ ",0,1,," +:+ String Py.nl "".

(** Strictly ascending channel numbers, both present. *)
Definition channel_lt (a b : ChannelData) : Prop :=
  match channel a, channel b with
  | Some x, Some y => x < y
  | _, _ => False
  end.

End Spec.

(** ** Sessions and files used as instances *)

Module Instances.
Import Comms Manager.

(** An open, healthy port on which the device is going to send [lines]. *)
Definition port (lines : list string) : Serial :=
  mkSerial true [] (map RxBytes lines) None.

(** A freshly connected radio. *)
Definition connected_radio (lines : list string) : Radio :=
  mkRadio (Some (port lines)) None None None [] [].

(** A connected radio that knows [memory] positions and the skip value
    [skip], with nothing pending on the port. *)
Definition known_radio (memory skip : option Z) : Radio :=
  mkRadio (Some (port [])) None memory skip [] [].

(** The application after the configuration was read from [lines]. *)
Definition session_after_read (lines : list string) : App :=
  let (cfg, self) := read_configuration (connected_radio lines) in
  mkApp self cfg.

(** A dump whose channel rows are numbered 0, 7 and 7 for three declared
    positions. *)
Definition unchecked_rows : list string :=
  ["m:3"; "0,100,0,1,,"; "7,200,0,1,,"; "7,300,0,1,,"].

Definition unchecked_config : ConfigData :=
  mkConfig None None (Some 3) None None None None
    [ mkChannel (Some 0) (Some 100) (Some 0) (Some 1) None None;
      mkChannel (Some 7) (Some 200) (Some 0) (Some 1) None None;
      mkChannel (Some 7) (Some 300) (Some 0) (Some 1) None None ].

(** A dump that stops after one of three declared channel rows. *)
Definition partial_rows : list string := ["m:3"; "1,87500,0,1,ABCD,Radio"].

Definition partial_config : ConfigData :=
  mkConfig None None (Some 3) None None None None
    [ mkChannel (Some 1) (Some 87500) (Some 0) (Some 1) (Some "ABCD") (Some "Radio") ].

Definition partial_state : ReadState :=
  mkRead partial_config 2 (Some 3) (Some 3) None
         ["Reading configuration from radio..."] [(1, 3)].

(** A loaded configuration without channel records, and a record of an
    unused slot. *)
Definition empty_loaded : Radio :=
  mkRadio None (Some empty_config) None None [] [].

Definition unused_slot : ChannelData :=
  mkChannel (Some 2) (Some 0) (Some 0) (Some 1) None None.

(** Channel 5 is skipped on a device whose skip value is 500. *)
Definition skipped_five : App :=
  session_after_read ["m:5"; "s:500"; "1,87500,0,1,ABCD,Radio"; "5,500,0,1,,"].

Definition skipped_five_config : ConfigData :=
  mkConfig None None (Some 5) (Some 500) None None None
    [ mkChannel (Some 1) (Some 87500) (Some 0) (Some 1) (Some "ABCD") (Some "Radio");
      mkChannel (Some 5) (Some 500) (Some 0) (Some 1) None None ].

(** A file with the unchanged row of channel 1 and the row of channel 5 with
    frequency 0, for the device of [skipped_five]. *)
Definition csv_one_five : list (list string) :=
  [CSV_HEADER; ["1"; "87500"; "0"; "1"; "ABCD"; "Radio"]; ["5"; "0"; "0"; "1"; ""; ""]].

Definition live_one : ChannelData :=
  mkChannel (Some 1) (Some 87500) (Some 0) (Some 1) (Some "ABCD") (Some "Radio").

Definition row_one : ChannelData :=
  mkChannel (Some 1) (Some 87500) (Some 0) (Some 1) (Some "ABCD") (Some "Radio").

(** A device whose PS text of channel 1 starts with a blank. *)
Definition padded_ps : App :=
  session_after_read ["m:1"; "1,87500,0,1,ABCD, Radio 1"].

Definition padded_ps_config : ConfigData :=
  mkConfig None None (Some 1) None None None None
    [ mkChannel (Some 1) (Some 87500) (Some 0) (Some 1) (Some "ABCD") (Some " Radio 1") ].

(** A device that sends two rows for channel 2, the second with a negative
    frequency. *)
Definition repeated_two : App :=
  session_after_read ["m:2"; "2,87500,0,1,,"; "2,-5,0,1,,"].

(** A device with two tidy channel records. *)
Definition two_stations : App :=
  session_after_read ["m:2"; "s:500"; "1,87500,0,1,ABCD,Radio 1"; "2,500,0,1,,"].

Definition two_stations_config : ConfigData :=
  mkConfig None None (Some 2) (Some 500) None None None
    [ mkChannel (Some 1) (Some 87500) (Some 0) (Some 1) (Some "ABCD") (Some "Radio 1");
      mkChannel (Some 2) (Some 500) (Some 0) (Some 1) None None ].

Import Spec.

(** A connected radio with 20 memory positions and the skip value 500, on
    which the device is going to answer [S:<code>]. *)
Definition answering (code : Z) : Radio :=
  mkRadio (Some (port ["S:" +:+ Py.str code +:+ String Py.nl ""]))
          None (Some 20) (Some 500) [] [].

(** The header of a dump for two memory positions, and two channel
    records. *)
Definition header_two : list string :=
  ["r:TEF6686"; "v:2.00"; "m:2"; "s:500"; "o:0"; "a:144,27000"; "f:65000,108000"].

Definition header_two_config : ConfigData :=
  mkConfig (Some "TEF6686") (Some "2.00") (Some 2) (Some 500) (Some 0)
           (Some (144, 27000)) (Some (65000, 108000)) [].

Definition station_rows : list ChannelData :=
  [ mkChannel (Some 1) (Some 87500) (Some 0) (Some 1) (Some "ABCD") (Some "Radio 1");
    mkChannel (Some 2) (Some 500) (Some 0) (Some 1) None None ].

(** The state of the reader after that header, on a fresh session. *)
Definition header_two_state : ReadState :=
  mkRead header_two_config 7 (Some 2) (Some 2) (Some 500)
         ["Reading configuration from radio..."] [].

(** The port of a device that sends the header and the two records. *)
Definition dump_two : list rx_event :=
  map received header_two ++ map (fun c => received (dump_line c)) station_rows.

Definition dump_two_port : Serial := mkSerial true [] dump_two None.

Definition dump_two_radio : Radio := mkRadio (Some dump_two_port) None None None [] [].

(** An entry for channel 2 that differs from the live record of
    [two_stations]. *)
Definition new_station : ChannelData :=
  mkChannel (Some 2) (Some 98100) (Some 0) (Some 1) (Some "ABCD") (Some "Radio 2").

(** An application with five memory positions, the skip value 500 and
    channel 5 skipped, on a port with nothing pending. *)
Definition five_positions : App := skipped_five.

End Instances.

(** ** Proof steps used more than once *)

Module Tactics.

(** Case analysis on the eight bits of a character. *)
Ltac ascii_cases c :=
  destruct c as [[] [] [] [] [] [] [] []]; try reflexivity; try discriminate.

(** Chooses the disjunct of a right-nested disjunction that [Hb] and
    reflexivity prove. *)
Ltac pick_disjunct Hb :=
  repeat first [ left; split; [exact Hb | reflexivity] | right ];
  try (split; [exact Hb | reflexivity]).

(** Closes the conjuncts of a validation case. *)
Ltac close_case :=
  repeat split; try (now left); try congruence; try tauto; try lia;
  try (cbn; tauto).

(** Closes the cases of the classification once the tests are decided. *)
Ltac band_close :=
  repeat split; try discriminate; auto;
  try (let K := fresh in
       intros K; decompose [and ex] K; simplify_eq;
       first [lia | tauto | congruence]).

End Tactics.

(** ** Facts about the Python primitives *)

Module PyFacts.
Import Py Tactics.

Lemma digit_not_space c : is_digit c = true -> is_space c = false.
Proof. ascii_cases c. Qed.

Lemma digit_not_underscore c : is_digit c = true -> Ascii.eqb c "_" = false.
Proof. ascii_cases c. Qed.

Lemma all_digits_no_space s : all_digits s = true -> no_space s = true.
Proof.
  induction s as [|c r IH]; simpl; [reflexivity|].
  intros [Hc Hr]%andb_prop. rewrite (digit_not_space c Hc). simpl. auto.
Qed.

Lemma rstrip_no_space s : no_space s = true -> rstrip s = s.
Proof.
  induction s as [|c r IH]; simpl; [reflexivity|].
  intros [Hc Hr]%andb_prop. rewrite (IH Hr).
  apply negb_true_iff in Hc. rewrite Hc. destruct r; reflexivity.
Qed.

Lemma lstrip_no_space s : no_space s = true -> lstrip s = s.
Proof.
  destruct s as [|c r]; simpl; [reflexivity|].
  intros [Hc _]%andb_prop. apply negb_true_iff in Hc. now rewrite Hc.
Qed.

Lemma strip_no_space s : no_space s = true -> strip s = s.
Proof.
  intros H. unfold strip. rewrite (lstrip_no_space s H). now apply rstrip_no_space.
Qed.

Lemma all_digits_of_uint u : all_digits (NilEmpty.string_of_uint u) = true.
Proof. induction u; simpl; auto. Qed.

Lemma underscores_ok_digits s :
  all_digits s = true ->
  underscores_ok true s = true /\ (s <> EmptyString -> underscores_ok false s = true).
Proof.
  induction s as [|c r IH]; simpl.
  - intros _. split; [reflexivity | congruence].
  - intros [Hc Hr]%andb_prop. rewrite Hc. destruct (IH Hr) as [IH1 _]. auto.
Qed.

Lemma drop_underscores_digits s : all_digits s = true -> drop_underscores s = s.
Proof.
  induction s as [|c r IH]; simpl; [reflexivity|].
  intros [Hc Hr]%andb_prop. rewrite (digit_not_underscore c Hc). now rewrite (IH Hr).
Qed.

Lemma string_of_uint_nonempty u :
  u <> Nil -> NilEmpty.string_of_uint u <> EmptyString.
Proof. destruct u; simpl; congruence. Qed.

(** The digits of a decimal numeral read back as its value. *)
Lemma int_magnitude_of_uint u :
  u <> Nil -> int_magnitude (NilEmpty.string_of_uint u) = Some (Z.of_uint u).
Proof.
  intros Hu. unfold int_magnitude.
  pose proof (all_digits_of_uint u) as Hd.
  destruct (underscores_ok_digits _ Hd) as [_ Hok].
  rewrite (Hok (string_of_uint_nonempty u Hu)).
  rewrite (drop_underscores_digits _ Hd), NilEmpty.usu. reflexivity.
Qed.

(** A string of digits carries no sign, so [int] reads its magnitude. *)
Lemma int_of_digits s :
  all_digits s = true -> s <> EmptyString -> int s = int_magnitude s.
Proof.
  intros Hd Hne. unfold int.
  rewrite (strip_no_space s (all_digits_no_space s Hd)).
  destruct s as [|c r]; [congruence|].
  simpl in Hd. apply andb_prop in Hd as [Hc _].
  revert Hc. ascii_cases c.
Qed.

Lemma str_pos p : str (Zpos p) = NilEmpty.string_of_uint (Pos.to_uint p).
Proof.
  unfold str. simpl. unfold NilZero.string_of_uint.
  pose proof (DecimalPos.Unsigned.to_uint_nonnil p) as Hn.
  destruct (Pos.to_uint p); [congruence | reflexivity ..].
Qed.

Lemma str_neg p : str (Zneg p) = String "-" (NilEmpty.string_of_uint (Pos.to_uint p)).
Proof.
  unfold str. simpl. unfold NilZero.string_of_uint.
  pose proof (DecimalPos.Unsigned.to_uint_nonnil p) as Hn.
  destruct (Pos.to_uint p); [congruence | reflexivity ..].
Qed.

Lemma of_uint_to_uint p : Z.of_uint (Pos.to_uint p) = Zpos p.
Proof. exact (DecimalZ.of_to (Zpos p)). Qed.

(** [int(str(n)) == n] *)
Lemma int_str (n : Z) : int (str n) = Some n.
Proof.
  destruct n as [|p|p].
  - reflexivity.
  - rewrite str_pos.
    pose proof (DecimalPos.Unsigned.to_uint_nonnil p) as Hn.
    rewrite int_of_digits by
      (auto using all_digits_of_uint, string_of_uint_nonempty).
    rewrite int_magnitude_of_uint by assumption.
    now rewrite of_uint_to_uint.
  - rewrite str_neg.
    pose proof (DecimalPos.Unsigned.to_uint_nonnil p) as Hn.
    unfold int.
    rewrite strip_no_space by
      (simpl; apply all_digits_no_space, all_digits_of_uint).
    rewrite int_magnitude_of_uint by assumption.
    now rewrite of_uint_to_uint.
Qed.

Lemma str_no_space (n : Z) : no_space (str n) = true.
Proof.
  destruct n as [|p|p].
  - reflexivity.
  - rewrite str_pos. apply all_digits_no_space, all_digits_of_uint.
  - rewrite str_neg. simpl. apply all_digits_no_space, all_digits_of_uint.
Qed.

Lemma strip_str (n : Z) : strip (str n) = str n.
Proof. apply strip_no_space, str_no_space. Qed.

Lemma str_nonempty (n : Z) : str n <> EmptyString.
Proof.
  destruct n as [|p|p].
  - discriminate.
  - rewrite str_pos. apply string_of_uint_nonempty, DecimalPos.Unsigned.to_uint_nonnil.
  - rewrite str_neg. discriminate.
Qed.

Lemma upper_char_idem c : upper_char (upper_char c) = upper_char c.
Proof. ascii_cases c. Qed.

Lemma upper_idem s : upper (upper s) = upper s.
Proof. induction s as [|c r IH]; simpl; [reflexivity|]. now rewrite upper_char_idem, IH. Qed.

Lemma upper_take n s : upper (take n s) = take n (upper s).
Proof.
  revert s. induction n as [|n IH]; intros [|c r]; simpl; try reflexivity.
  now rewrite IH.
Qed.

Lemma take_all n s : (String.length s <= n)%nat -> take n s = s.
Proof.
  revert s. induction n as [|n IH]; intros [|c r]; simpl; try reflexivity.
  - lia.
  - intros H. rewrite IH by lia. reflexivity.
Qed.

Lemma append_cons c r t : String c r +:+ t = String c (r +:+ t).
Proof. reflexivity. Qed.

Lemma rstrip_terminated s :
  no_space s = true -> rstrip (s +:+ String nl "") = s.
Proof.
  induction s as [|c r IH]; [reflexivity|].
  rewrite append_cons. cbn [no_space rstrip].
  intros [Hc Hr]%andb_prop. rewrite (IH Hr).
  apply negb_true_iff in Hc. rewrite Hc. destruct r; reflexivity.
Qed.

Lemma strip_terminated s :
  no_space s = true -> strip (s +:+ String nl "") = s.
Proof.
  intros H. unfold strip. destruct s as [|c r]; [reflexivity|].
  rewrite append_cons. cbn [lstrip].
  pose proof H as H'. cbn [no_space] in H'. apply andb_prop in H' as [Hc _].
  apply negb_true_iff in Hc. rewrite Hc.
  rewrite <- append_cons. exact (rstrip_terminated (String c r) H).
Qed.

End PyFacts.

(** ** The protocol client *)

Module CommsFacts.
Import Comms Spec Instances Tactics.

(** *** Response interpreter *)

Lemma bit_set_testbit code i : 0 <= i -> bit_set code i = Z.testbit code i.
Proof.
  intros Hi. unfold bit_set.
  destruct (Z.testbit code i) eqn:Hb.
  - apply negb_true_iff, Z.eqb_neq. intros H0.
    assert (Z.testbit (Z.land code (Z.shiftl 1 i)) i = true) as Ht.
    { rewrite Z.land_spec, Hb, Z.shiftl_spec by lia. now rewrite Z.sub_diag. }
    rewrite H0, Z.bits_0 in Ht. discriminate.
  - apply negb_false_iff, Z.eqb_eq. apply Z.bits_inj'. intros n Hn.
    rewrite Z.land_spec, Z.bits_0, Z.shiftl_spec by lia.
    destruct (Z.eq_dec n i) as [->|Hne].
    + now rewrite Hb.
    + rewrite andb_false_iff. right.
      destruct (Z.lt_ge_cases n i).
      * apply Z.testbit_neg_r. lia.
      * apply Z.bits_above_log2; simpl; lia.
Qed.

Lemma lookup_code_0 : S_RETURN_CODES !! 0 = Some "Frequency out of range".
Proof. vm_compute. reflexivity. Qed.
Lemma lookup_code_1 : S_RETURN_CODES !! 1 = Some "Memory channel out of range".
Proof. vm_compute. reflexivity. Qed.
Lemma lookup_code_2 : S_RETURN_CODES !! 2 = Some "Bandwidth out of range".
Proof. vm_compute. reflexivity. Qed.
Lemma lookup_code_3 : S_RETURN_CODES !! 3 = Some "Mono/auto stereo out of range".
Proof. vm_compute. reflexivity. Qed.
Lemma lookup_code_4 : S_RETURN_CODES !! 4 = Some "Memory channel 1 can't be set to skip".
Proof. vm_compute. reflexivity. Qed.
Lemma lookup_code_5 : S_RETURN_CODES !! 5 = Some "Incorrect PI code".
Proof. vm_compute. reflexivity. Qed.
Lemma lookup_code_6 : S_RETURN_CODES !! 6 = Some "Reserved (X)".
Proof. vm_compute. reflexivity. Qed.
Lemma lookup_code_7 : S_RETURN_CODES !! 7 = Some "All ok, channel stored".
Proof. vm_compute. reflexivity. Qed.

Lemma interpret_s_response_unfold code :
  interpret_s_response code =
  match flag (bit_set code 7) "All ok, channel stored" ++
        flag (bit_set code 0) "Frequency out of range" ++
        flag (bit_set code 1) "Memory channel out of range" ++
        flag (bit_set code 2) "Bandwidth out of range" ++
        flag (bit_set code 3) "Mono/auto stereo out of range" ++
        flag (bit_set code 4) "Memory channel 1 can't be set to skip" ++
        flag (bit_set code 5) "Incorrect PI code" ++
        flag (bit_set code 6) "Reserved (X)" with
  | [] => if code =? 0 then ["No status bits set (Code 0)"]
          else ["Unknown response code: " +:+ Py.str code +:+
                " (Binary: " +:+ Py.format_08b code +:+ ")"]
  | ms => ms
  end.
Proof.
  unfold interpret_s_response.
  change (seqZ 0 7) with [0; 1; 2; 3; 4; 5; 6].
  set (f := fun (messages : list string) (i : Z) => _).
  assert (Hf : forall ms i m, 0 <= i < 7 -> S_RETURN_CODES !! i = Some m ->
                 f ms i = ms ++ flag (bit_set code i) m).
  { intros ms i m Hi Hm. unfold f. rewrite Hm.
    replace (i =? 7) with false by (symmetry; apply Z.eqb_neq; lia).
    simpl. destruct (bit_set code i); simpl; [reflexivity | now rewrite app_nil_r]. }
  cbn [fold_left].
  rewrite (Hf _ 6 _ ltac:(lia) lookup_code_6), (Hf _ 5 _ ltac:(lia) lookup_code_5),
    (Hf _ 4 _ ltac:(lia) lookup_code_4), (Hf _ 3 _ ltac:(lia) lookup_code_3),
    (Hf _ 2 _ ltac:(lia) lookup_code_2), (Hf _ 1 _ ltac:(lia) lookup_code_1),
    (Hf _ 0 _ ltac:(lia) lookup_code_0).
  rewrite lookup_code_7. cbn [default id].
  change (if bit_set code 7 then ["All ok, channel stored"] else [])
    with (flag (bit_set code 7) "All ok, channel stored").
  rewrite <- !app_assoc.
  match goal with |- match ?x with _ => _ end = _ => destruct x; reflexivity end.
Qed.

Lemma interpret_s_response_messages code :
  interpret_s_response code =
  match status_messages code with
  | [] => if code =? 0 then ["No status bits set (Code 0)"]
          else ["Unknown response code: " +:+ Py.str code +:+
                " (Binary: " +:+ Py.format_08b code +:+ ")"]
  | _ => status_messages code
  end.
Proof.
  rewrite interpret_s_response_unfold. unfold status_messages.
  rewrite !bit_set_testbit by lia.
  match goal with |- match ?x with _ => _ end = _ => destruct x; reflexivity end.
Qed.

Lemma In_flag b m' (m : string) : In m (flag b m') <-> b = true /\ m' = m.
Proof. destruct b; simpl; intuition congruence. Qed.

Lemma byte_zero code :
  0 <= code < 256 ->
  (forall i, 0 <= i < 8 -> Z.testbit code i = false) -> code = 0.
Proof.
  intros Hc Hb. apply Z.bits_inj'. intros n Hn. rewrite Z.bits_0.
  destruct (Z.lt_ge_cases n 8) as [Hlt|Hge]; [apply Hb; lia|].
  destruct (Z.eq_dec code 0) as [->|Hne]; [apply Z.bits_0|].
  apply Z.bits_above_log2; [lia|].
  assert (Z.log2 code < 8); [|lia].
  apply Z.log2_lt_pow2; simpl; lia.
Qed.

Lemma status_messages_nonempty code :
  0 <= code < 256 -> code <> 0 -> status_messages code <> [].
Proof.
  intros Hc Hne Hnil. apply Hne, byte_zero; [assumption|].
  intros i Hi. unfold status_messages in Hnil.
  assert (i = 0 \/ i = 1 \/ i = 2 \/ i = 3 \/ i = 4 \/ i = 5 \/ i = 6 \/ i = 7)
    as Hcases by lia.
  destruct (Z.testbit code 7) eqn:E7; [discriminate|].
  destruct (Z.testbit code 0) eqn:E0; [discriminate|].
  destruct (Z.testbit code 1) eqn:E1; [discriminate|].
  destruct (Z.testbit code 2) eqn:E2; [discriminate|].
  destruct (Z.testbit code 3) eqn:E3; [discriminate|].
  destruct (Z.testbit code 4) eqn:E4; [discriminate|].
  destruct (Z.testbit code 5) eqn:E5; [discriminate|].
  destruct (Z.testbit code 6) eqn:E6; [discriminate|].
  intuition (subst; assumption).
Qed.

Lemma In_status_messages code i m :
  0 <= i <= 7 -> S_RETURN_CODES !! i = Some m ->
  In m (status_messages code) <-> Z.testbit code i = true.
Proof.
  intros Hi Hm. unfold status_messages. rewrite !in_app_iff, !In_flag.
  assert (i = 0 \/ i = 1 \/ i = 2 \/ i = 3 \/ i = 4 \/ i = 5 \/ i = 6 \/ i = 7)
    as Hcases by lia.
  repeat destruct Hcases as [-> | Hcases]; try subst i;
    [ rewrite lookup_code_0 in Hm | rewrite lookup_code_1 in Hm
    | rewrite lookup_code_2 in Hm | rewrite lookup_code_3 in Hm
    | rewrite lookup_code_4 in Hm | rewrite lookup_code_5 in Hm
    | rewrite lookup_code_6 in Hm | rewrite lookup_code_7 in Hm ];
    injection Hm as <-;
    (split;
     [ intros H; repeat destruct H as [H | H]; destruct H as [Hb He];
       first [ discriminate He | exact Hb ]
     | intros Hb; pick_disjunct Hb ]).
Qed.

Lemma documented_not_special i m :
  0 <= i <= 7 -> S_RETURN_CODES !! i = Some m -> m <> "No status bits set (Code 0)".
Proof.
  intros Hi Hm.
  assert (i = 0 \/ i = 1 \/ i = 2 \/ i = 3 \/ i = 4 \/ i = 5 \/ i = 6 \/ i = 7)
    as Hcases by lia.
  repeat destruct Hcases as [-> | Hcases]; try subst i;
    [ rewrite lookup_code_0 in Hm | rewrite lookup_code_1 in Hm
    | rewrite lookup_code_2 in Hm | rewrite lookup_code_3 in Hm
    | rewrite lookup_code_4 in Hm | rewrite lookup_code_5 in Hm
    | rewrite lookup_code_6 in Hm | rewrite lookup_code_7 in Hm ];
    injection Hm as <-; discriminate.
Qed.

Lemma decode_rx_bytes raw :
  raw <> "" -> decode_rx (RxBytes raw) = (Some (Py.strip raw), []).
Proof. destruct raw; [congruence | reflexivity]. Qed.

Lemma response_prefix x : Py.startswith ("S:" +:+ x) "S:" = true.
Proof.
  unfold Py.startswith. rewrite 2!PyFacts.append_cons. cbn [String.prefix].
  destruct (ascii_dec "S" "S"); [|congruence].
  destruct (ascii_dec ":" ":"); [|congruence].
  destruct ("" +:+ x); reflexivity.
Qed.

Lemma send_and_handle_response self s ch c code rest :
  serial_conn self = Some s -> is_open s = true -> tx_fault s = None ->
  rx s = RxBytes ("S:" +:+ Py.str code +:+ String Py.nl "") :: rest ->
  fst (send_and_handle self ch c) = (bit_set code 7, interpret_s_response code).
Proof.
  intros Hs Hopen Hfault Hrx. unfold send_and_handle, _send_command.
  cbn [serial_conn _update_status]. rewrite Hs, Hopen, Hfault. cbn [negb].
  unfold _read_line. cbn [serial_conn set_serial is_open rx tx tx_fault].
  rewrite Hrx.
  assert (Hd : decode_rx (RxBytes ("S:" +:+ Py.str code +:+ String Py.nl "")) =
               (Some ("S:" +:+ Py.str code), [])).
  { rewrite decode_rx_bytes by (rewrite 2!PyFacts.append_cons; discriminate).
    change ("S:" +:+ Py.str code +:+ String Py.nl "")
      with (("S:" +:+ Py.str code) +:+ String Py.nl "").
    rewrite PyFacts.strip_terminated; [reflexivity|].
    change ("S:" +:+ Py.str code) with (String "S" (String ":" (Py.str code))).
    cbn [Py.no_space]. now rewrite PyFacts.str_no_space. }
  rewrite Hd. cbn [fst snd log_all fold_left].
  rewrite response_prefix.
  change (Py.drop 2 ("S:" +:+ Py.str code)) with (Py.str code).
  rewrite PyFacts.strip_str, PyFacts.int_str. reflexivity.
Qed.

(** C2. For every 8-bit status code the success flag is bit 7 (value 128), and
    it is the flag the channel writer returns, with the interpreted messages,
    when the device answers [S:<code>]; the
    message list holds "All ok, channel stored" exactly when bit 7 is set and
    the documented failure message of every bit among 0..6 exactly when that
    bit is set, so that simultaneous failures are all reported; code 0 yields
    the single message "No status bits set (Code 0)", and any other code the
    documented messages of its set bits and nothing else. Code 133 gives
    success and the three messages of bits 7, 0 and 2. *)
Theorem interpret_s_response_spec (code : Z) :
  0 <= code < 256 ->
  (bit_set code 7 = true <-> Z.testbit code 7 = true) /\
  (forall self s ch c rest,
     serial_conn self = Some s -> is_open s = true -> tx_fault s = None ->
     rx s = RxBytes ("S:" +:+ Py.str code +:+ String Py.nl "") :: rest ->
     fst (send_and_handle self ch c) = (Z.testbit code 7, interpret_s_response code)) /\
  (In "All ok, channel stored" (interpret_s_response code) <-> Z.testbit code 7 = true) /\
  (forall i m, 0 <= i < 7 -> S_RETURN_CODES !! i = Some m ->
     (In m (interpret_s_response code) <-> Z.testbit code i = true)) /\
  (code = 0 -> interpret_s_response code = ["No status bits set (Code 0)"]) /\
  (code <> 0 -> interpret_s_response code = status_messages code) /\
  bit_set 133 7 = true /\
  interpret_s_response 133 =
    ["All ok, channel stored"; "Frequency out of range"; "Bandwidth out of range"].
Proof.
  intros Hc.
  assert (Hin : forall i m, 0 <= i <= 7 -> S_RETURN_CODES !! i = Some m ->
            (In m (interpret_s_response code) <-> Z.testbit code i = true)).
  { intros i m Hi Hm. destruct (Z.eq_dec code 0) as [->|Hne].
    - rewrite Z.bits_0. split; [|discriminate].
      intros [H | []]. pose proof (documented_not_special i m Hi Hm) as Hd.
      congruence.
    - rewrite interpret_s_response_messages.
      pose proof (status_messages_nonempty code Hc Hne) as Hn.
      destruct (status_messages code) eqn:E; [congruence|].
      rewrite <- E. now apply In_status_messages. }
  split; [now rewrite bit_set_testbit by lia|].
  split.
  { intros self s ch c rest Hs Ho Hf Hrx.
    rewrite <- (bit_set_testbit code 7) by lia.
    eapply send_and_handle_response; eassumption. }
  split; [apply (Hin 7); [lia | exact lookup_code_7]|].
  split; [intros i m Hi Hm; apply Hin; [lia | assumption]|].
  split; [intros ->; reflexivity|].
  split.
  - intros Hne. rewrite interpret_s_response_messages.
    pose proof (status_messages_nonempty code Hc Hne) as Hn.
    destruct (status_messages code) eqn:E; [congruence | reflexivity].
  - split; vm_compute; reflexivity.
Qed.

(** At code 133, bit 2 is set and its message is reported. *)
Lemma interpret_s_response_spec_witness :
  0 <= 133 < 256 /\
  (In "Bandwidth out of range" (interpret_s_response 133) <-> Z.testbit 133 2 = true).
Proof.
  split; [lia|].
  apply (interpret_s_response_spec 133); [lia | lia | vm_compute; reflexivity].
Defined.

(** *** Channel writer *)

Lemma is_skip_freq_iff self f :
  is_skip_freq (skip_freq_value self) f = true <-> skip_frequency self f.
Proof.
  unfold is_skip_freq, skip_frequency. rewrite orb_true_iff, Z.eqb_eq.
  destruct (skip_freq_value self) as [v|].
  - rewrite Z.eqb_eq. split; (intros [H|H]; [now left | right; congruence]).
  - split; (intros [H|H]; [now left | discriminate]).
Qed.

Lemma channel_check_iff self ch :
  ((ch <? 1) || (Py.truthy (max_channels self) && (default 0 (max_channels self) <? ch))) = false
  <-> channel_in_range self ch.
Proof.
  unfold channel_in_range, Py.truthy. rewrite orb_false_iff, Z.ltb_ge.
  destruct (max_channels self) as [m|]; simpl.
  - rewrite andb_false_iff, negb_false_iff, Z.eqb_eq, Z.ltb_ge. split.
    + intros [H1 H2]. split; [assumption|]. intros m' [= <-] Hm. lia.
    + intros [H1 H2]. split; [assumption|].
      destruct (Z.eq_dec m 0); [now left | right; now apply H2].
  - split; [intros [H _]; split; [assumption | discriminate] | intros [H _]; now split].
Qed.

Lemma prepare_command_text self ch freq bw ms pi ps :
  fst (prepare_command self ch freq bw ms pi ps) = s_command ch freq bw ms pi ps.
Proof.
  unfold prepare_command, s_command.
  destruct (Nat.ltb_spec 4 (String.length (Py.upper pi)));
    destruct (Nat.ltb_spec 8 (String.length ps)); cbn [fst];
    rewrite ?(PyFacts.take_all 4 (Py.upper pi)) by lia;
    rewrite ?(PyFacts.take_all 8 ps) by lia; reflexivity.
Qed.

Lemma prepare_command_session self ch freq bw ms pi ps :
  same_session (snd (prepare_command self ch freq bw ms pi ps)) self.
Proof.
  unfold prepare_command, same_session.
  destruct (Nat.ltb 4 _); destruct (Nat.ltb 8 _); cbn; repeat split; reflexivity.
Qed.

Lemma skip_info_session self freq : same_session (skip_info self freq) self.
Proof.
  unfold skip_info, same_session.
  destruct (skip_freq_value self) as [v|] eqn:E;
    [destruct ((freq =? 0) && negb (v =? 0))|];
    repeat split; cbn; try reflexivity; assumption.
Qed.

Lemma log_all_serial self msgs : serial_conn (log_all self msgs) = serial_conn self.
Proof.
  unfold log_all. revert self. induction msgs as [|m msgs IH]; intros self; simpl.
  - reflexivity.
  - now rewrite IH.
Qed.

Lemma send_and_handle_serial self s ch c :
  serial_conn self = Some s -> is_open s = true -> tx_fault s = None ->
  serial_conn (snd (send_and_handle self ch c)) =
  Some (mkSerial (is_open s) (tx s ++ [wire_line c]) (tl (rx s)) (tx_fault s)).
Proof.
  intros Hs Hopen Hfault. unfold send_and_handle, _send_command.
  cbn [serial_conn _update_status]. rewrite Hs, Hopen, Hfault. cbn [negb].
  fold (wire_line c).
  unfold _read_line. cbn [serial_conn set_serial is_open rx tx tx_fault].
  destruct (rx s) as [|ev rest]; cbn [tl].
  - reflexivity.
  - set (r := log_all _ _).
    assert (Hr : serial_conn r =
                 Some (mkSerial true (tx s ++ [wire_line c]) rest None)).
    { unfold r. rewrite log_all_serial. reflexivity. }
    clearbody r.
    destruct (decode_rx ev).1 as [line|]; [|exact Hr].
    destruct (Py.startswith line "S:"); [|exact Hr].
    destruct (Py.int _); exact Hr.
Qed.

Lemma write_channel_sends self s ch freq bw ms pi ps :
  serial_conn self = Some s -> is_open s = true -> tx_fault s = None ->
  channel_in_range self ch -> 0 <= freq ->
  ~ (ch = 1 /\ skip_frequency self freq) ->
  0 <= bw -> (ms = 0 \/ ms = 1) ->
  serial_conn (snd (write_channel self ch freq bw ms pi ps)) =
  Some (mkSerial (is_open s) (tx s ++ [wire_line (s_command ch freq bw ms pi ps)])
                 (tl (rx s)) (tx_fault s)).
Proof.
  intros Hs Hopen Hfault Hch Hf Hskip Hbw Hms.
  unfold write_channel.
  assert (connected self = true) as -> by (unfold connected; now rewrite Hs).
  cbn [negb].
  apply channel_check_iff in Hch. rewrite Hch.
  replace (freq <? 0) with false by (symmetry; apply Z.ltb_ge; lia).
  assert ((ch =? 1) && is_skip_freq (skip_freq_value self) freq = false) as ->.
  { apply andb_false_iff. destruct (Z.eqb_spec ch 1); [right | now left].
    apply not_true_iff_false. rewrite is_skip_freq_iff. tauto. }
  replace (bw <? 0) with false by (symmetry; apply Z.ltb_ge; lia).
  assert (negb ((ms =? 0) || (ms =? 1)) = false) as ->.
  { apply negb_false_iff, orb_true_iff. rewrite !Z.eqb_eq. exact Hms. }
  pose proof (prepare_command_text (skip_info self freq) ch freq bw ms pi ps) as Ht.
  pose proof (prepare_command_session (skip_info self freq) ch freq bw ms pi ps) as [Hp _].
  destruct (prepare_command _ _ _ _ _ _ _) as [command self'].
  cbn [fst snd] in *. subst command.
  apply send_and_handle_serial; try assumption.
  rewrite Hp. destruct (skip_info_session self freq) as [-> _]. exact Hs.
Qed.

Lemma validation_messages_distinct self : NoDup (validation_messages self).
Proof.
  unfold validation_messages.
  repeat (apply NoDup_cons_2; [cbn; rewrite ?elem_of_cons, elem_of_nil; intuition discriminate|]).
  apply NoDup_nil_2.
Qed.

Lemma skip_info_log self freq :
  status_log (skip_info self freq) = status_log self \/
  exists v, skip_freq_value self = Some v /\ freq = 0 /\ v <> 0 /\
            status_log (skip_info self freq) = status_log self ++ [skip_info_text v].
Proof.
  unfold skip_info. destruct (skip_freq_value self) as [v|]; [|now left].
  destruct (Z.eqb_spec freq 0); destruct (Z.eqb_spec v 0); cbn; [now left | | now left ..].
  right. exists v. auto.
Qed.

(** C4 (amended). Each of the six validation failures (not connected; channel
    number below 1, or above the number of memory positions when that number
    is known and not zero; negative frequency; channel 1 with a skip
    frequency; negative bandwidth code; mono/stereo code other than 0 and 1)
    makes [write_channel] return failure with one message out of six pairwise
    distinct ones, the one of the first check that fails, and leaves the port
    and the cached configuration untouched: nothing is written and nothing is
    read. The only effect can be one informational status message. *)
Theorem write_channel_validation self ch freq bw ms pi ps :
  validation_failure self ch freq bw ms ->
  exists msg self',
    write_channel self ch freq bw ms pi ps = (false, [msg], self') /\
    same_session self' self /\
    (status_log self' = status_log self \/
     exists v, status_log self' = status_log self ++ [skip_info_text v]) /\
    In msg (validation_messages self) /\
    NoDup (validation_messages self) /\
    (connected self = false -> msg = "ERROR: Not connected.") /\
    (connected self = true -> ~ channel_in_range self ch ->
       msg = "Invalid channel number (1-" +:+ Py.or_question (max_channels self) +:+ ").") /\
    (connected self = true -> channel_in_range self ch -> freq < 0 ->
       msg = "Invalid frequency (must be >= 0 kHz).") /\
    (connected self = true -> channel_in_range self ch -> 0 <= freq ->
       ch = 1 /\ skip_frequency self freq ->
       msg = "ERROR: Channel 1 cannot be set to skip.") /\
    (connected self = true -> channel_in_range self ch -> 0 <= freq ->
       ~ (ch = 1 /\ skip_frequency self freq) -> bw < 0 ->
       msg = "Invalid bandwidth code.") /\
    (connected self = true -> channel_in_range self ch -> 0 <= freq ->
       ~ (ch = 1 /\ skip_frequency self freq) -> 0 <= bw -> (ms <> 0 /\ ms <> 1) ->
       msg = "Invalid mono/stereo code (must be 0 or 1).").
Proof.
  intros Hfail. unfold write_channel.
  pose proof (validation_messages_distinct self) as Hnd.
  destruct (connected self) eqn:Hconn; cbn [negb].
  2:{ eexists _, self. split; [reflexivity|].
      close_case. }
  destruct ((ch <? 1) || _) eqn:Hch.
  { assert (~ channel_in_range self ch) as Hn.
    { rewrite <- channel_check_iff. congruence. }
    eexists _, self. split; [reflexivity|].
    close_case. }
  apply channel_check_iff in Hch.
  destruct (Z.ltb_spec freq 0) as [Hf|Hf].
  { eexists _, self. split; [reflexivity|].
    close_case. }
  destruct ((ch =? 1) && _) eqn:Hsk.
  { apply andb_true_iff in Hsk as [H1%Z.eqb_eq H2%is_skip_freq_iff].
    eexists _, self. split; [reflexivity|].
    close_case. }
  assert (~ (ch = 1 /\ skip_frequency self freq)) as Hnsk.
  { intros [H1 H2%is_skip_freq_iff]. rewrite H2 in Hsk.
    apply Z.eqb_eq in H1. rewrite H1 in Hsk. discriminate. }
  pose proof (skip_info_session self freq) as Hsess.
  assert (Hlog : status_log (skip_info self freq) = status_log self \/
                 exists v, status_log (skip_info self freq) =
                           status_log self ++ [skip_info_text v]).
  { destruct (skip_info_log self freq) as [H|(v & _ & _ & _ & H)]; [now left|].
    right. now exists v. }
  destruct (Z.ltb_spec bw 0) as [Hbw|Hbw].
  { eexists _, _. split; [reflexivity|].
    split; [exact Hsess|]. split; [exact Hlog|].
    close_case. }
  destruct (negb _) eqn:Hms.
  { apply negb_true_iff, orb_false_iff in Hms as [H0%Z.eqb_neq H1%Z.eqb_neq].
    eexists _, _. split; [reflexivity|].
    split; [exact Hsess|]. split; [exact Hlog|].
    close_case. }
  exfalso.
  apply negb_false_iff, orb_true_iff in Hms. rewrite !Z.eqb_eq in Hms.
  unfold validation_failure in Hfail. intuition (try congruence; try lia).
Qed.

(** Channel 1 with frequency 0 on a connected radio with 20 positions. *)
Lemma write_channel_validation_witness :
  exists msg self',
    write_channel (known_radio (Some 20) (Some 500)) 1 0 0 1 "" "" = (false, [msg], self') /\
    same_session self' (known_radio (Some 20) (Some 500)).
Proof.
  destruct (write_channel_validation (known_radio (Some 20) (Some 500)) 1 0 0 1 "" "")
    as (msg & self' & H & Hs & _).
  - right; right; right; left. split; [reflexivity | left; reflexivity].
  - exists msg, self'. split; assumption.
Defined.

(** With the channel range read as [[1, memoryPositions]] for every known
    number of positions the statement fails: a device that declared 0
    positions gets the command for channel 1. *)
Lemma write_channel_validation_as_claimed_fails :
  ~ (forall self ch freq bw ms pi ps,
       validation_failure_as_claimed self ch freq bw ms ->
       fst (fst (write_channel self ch freq bw ms pi ps)) = false /\
       serial_conn (snd (write_channel self ch freq bw ms pi ps)) = serial_conn self).
Proof.
  intros H.
  destruct (H (known_radio (Some 0) None) 1 500 0 1 "" "") as [_ Hs].
  - right; left; right. exists 0. split; [reflexivity | lia].
  - vm_compute in Hs. discriminate.
Qed.

(** C5 (amended). In every connected session, writing channel 1 with
    frequency 0 is rejected with a validation message and the session is left
    as it was, nothing being sent; writing channel 1 with frequency 500 sends
    the encoded [S] command, provided 500 is not the skip value of the device
    (and channel 1 is in range, the two codes are valid and the port accepts
    the write). *)
Theorem channel_one_skip_guard (self : Radio) (s : Serial) (bw ms : Z) (pi ps : string) :
  serial_conn self = Some s -> is_open s = true ->
  (exists msg,
     write_channel self 1 0 bw ms pi ps = (false, [msg], self) /\
     In msg (validation_messages self)) /\
  (tx_fault s = None -> channel_in_range self 1 -> skip_freq_value self <> Some 500 ->
   0 <= bw -> (ms = 0 \/ ms = 1) ->
   serial_conn (snd (write_channel self 1 500 bw ms pi ps)) =
   Some (mkSerial (is_open s) (tx s ++ [wire_line (s_command 1 500 bw ms pi ps)])
                  (tl (rx s)) (tx_fault s))).
Proof.
  intros Hs Hopen. split.
  - unfold write_channel.
    assert (connected self = true) as -> by (unfold connected; now rewrite Hs).
    cbn [negb].
    destruct ((1 <? 1) || _).
    + eexists. split; [reflexivity|]. cbn. tauto.
    + change (0 <? 0) with false. cbv iota.
      assert ((1 =? 1) && is_skip_freq (skip_freq_value self) 0 = true) as ->
          by (unfold is_skip_freq; reflexivity).
      eexists. split; [reflexivity|]. cbn. tauto.
  - intros Hfault Hch Hskip Hbw Hms.
    apply write_channel_sends; try assumption; [lia|].
    intros [_ [H|H]]; [discriminate | congruence].
Qed.

(** A radio whose skip value is 0: frequency 0 is rejected, 500 is sent. *)
Lemma channel_one_skip_guard_witness :
  (exists msg,
     write_channel (known_radio (Some 20) (Some 0)) 1 0 0 1 "" "" =
       (false, [msg], known_radio (Some 20) (Some 0))) /\
  serial_conn (snd (write_channel (known_radio (Some 20) (Some 0)) 1 500 0 1 "" "")) =
  Some (mkSerial true [wire_line (s_command 1 500 0 1 "" "")] [] None).
Proof.
  destruct (channel_one_skip_guard (known_radio (Some 20) (Some 0)) (port []) 0 1 "" ""
              eq_refl eq_refl) as [(msg & H1 & _) H2].
  split.
  - exists msg. exact H1.
  - apply H2.
    + reflexivity.
    + split; [lia | intros m [= <-] _; lia].
    + discriminate.
    + lia.
    + right; reflexivity.
Defined.

(** Frequency 500 is not sent for channel 1 in every connected session: it is
    rejected when 500 is the skip value of the device. *)
Lemma channel_one_frequency_500_as_claimed_fails :
  ~ (forall self s bw ms pi ps,
       serial_conn self = Some s -> is_open s = true -> tx_fault s = None ->
       channel_in_range self 1 -> 0 <= bw -> (ms = 0 \/ ms = 1) ->
       serial_conn (snd (write_channel self 1 500 bw ms pi ps)) =
       Some (mkSerial (is_open s) (tx s ++ [wire_line (s_command 1 500 bw ms pi ps)])
                      (tl (rx s)) (tx_fault s))).
Proof.
  intros H.
  assert (Hr : channel_in_range (known_radio (Some 20) (Some 500)) 1)
    by (split; [lia | intros m [= <-] _; lia]).
  pose proof (H (known_radio (Some 20) (Some 500)) (port []) 0 1 "" ""
                eq_refl eq_refl eq_refl Hr ltac:(lia) ltac:(right; reflexivity)) as Hs.
  vm_compute in Hs. discriminate.
Qed.

(** C10. When the session does not know the number of memory positions
    ([max_channels] unset), every channel number from 1 upwards passes the
    channel-range check of [write_channel], and when the remaining validations
    pass as well the encoded command is written to the port. *)
Theorem write_channel_no_upper_bound
        (self : Radio) (s : Serial) (ch freq bw ms : Z) (pi ps : string) :
  max_channels self = None ->
  serial_conn self = Some s -> is_open s = true -> tx_fault s = None ->
  1 <= ch ->
  ((ch <? 1) || (Py.truthy (max_channels self) && (default 0 (max_channels self) <? ch))
   = false) /\
  (0 <= freq -> ~ (ch = 1 /\ skip_frequency self freq) -> 0 <= bw -> (ms = 0 \/ ms = 1) ->
   serial_conn (snd (write_channel self ch freq bw ms pi ps)) =
   Some (mkSerial (is_open s) (tx s ++ [wire_line (s_command ch freq bw ms pi ps)])
                  (tl (rx s)) (tx_fault s))).
Proof.
  intros Hmax Hs Hopen Hfault Hch.
  assert (Hr : channel_in_range self ch).
  { split; [assumption|]. intros m Hm. congruence. }
  split; [now apply channel_check_iff|].
  intros Hf Hskip Hbw Hms. now apply write_channel_sends.
Qed.

(** Channel 100000 is written when the number of positions is unknown. *)
Lemma write_channel_no_upper_bound_witness :
  serial_conn (snd (write_channel (known_radio None None) 100000 87500 0 1 "abcd" "Radio")) =
  Some (mkSerial true [wire_line (s_command 100000 87500 0 1 "abcd" "Radio")] [] None).
Proof.
  destruct (write_channel_no_upper_bound (known_radio None None) (port [])
              100000 87500 0 1 "abcd" "Radio" eq_refl eq_refl eq_refl eq_refl ltac:(lia))
    as [_ H].
  apply H.
  - lia.
  - intros [H1 _]. discriminate H1.
  - lia.
  - right; reflexivity.
Defined.

(** *** Skip-state resolver *)

(** C6 (amended). [is_channel_skipped] is false when no configuration is
    loaded, when the loaded configuration holds no channel record, when the
    record is absent or when its frequency is absent; otherwise it is the
    comparison of the frequency with the skip value if that is known, else
    with 0. *)
Theorem is_channel_skipped_spec (self : Radio) (ch_num : Z) (record : option ChannelData) :
  is_channel_skipped self ch_num record =
  if no_channel_records self then false else is_skipped_as_claimed self ch_num record.
Proof.
  unfold is_channel_skipped, no_channel_records, is_skipped_as_claimed, resolve_record,
    skip_rule.
  destruct (config self) as [cfg|]; [|reflexivity].
  destruct (channels cfg) as [|c cs]; [reflexivity|].
  destruct record; reflexivity.
Qed.

(** Without the case of a configuration holding no channel record the
    statement fails: a record of an unused slot passed in is not reported as
    skipped. *)
Lemma is_channel_skipped_as_claimed_fails :
  ~ (forall self ch_num record,
       is_channel_skipped self ch_num record = is_skipped_as_claimed self ch_num record).
Proof.
  intros H. specialize (H empty_loaded 2 (Some unused_slot)).
  vm_compute in H. discriminate.
Qed.

(** *** Configuration reader *)

Lemma rd_log_all_config msgs st :
  config_data (fold_left rd_log msgs st) = config_data st /\
  lines_read (fold_left rd_log msgs st) = lines_read st /\
  expected_channels (fold_left rd_log msgs st) = expected_channels st.
Proof.
  revert st. induction msgs as [|m msgs IH]; intros st; simpl; [auto|].
  destruct (IH (rd_log st m)) as (-> & -> & ->). auto.
Qed.

Lemma process_line_channels st line :
  channels (config_data (process_line st line)) =
  channels (config_data st) ++
  match channel_of_line line with Some c => [c] | None => [] end.
Proof.
  unfold process_line, channel_of_line, has_header_prefix.
  destruct (Py.startswith line "r:"); [cbn; now rewrite app_nil_r|].
  destruct (Py.startswith line "v:"); [cbn; now rewrite app_nil_r|].
  destruct (Py.startswith line "m:");
    [destruct (Py.int _); cbn; now rewrite app_nil_r|].
  destruct (Py.startswith line "s:");
    [destruct (Py.int _); cbn; now rewrite app_nil_r|].
  destruct (Py.startswith line "o:").
  { destruct (Py.split ":" _) as [|p0 ?]; [cbn; now rewrite app_nil_r|].
    destruct (Py.int p0); cbn; now rewrite app_nil_r. }
  destruct (Py.startswith line "a:");
    [destruct (parse_range _); cbn; now rewrite app_nil_r|].
  destruct (Py.startswith line "f:");
    [destruct (parse_range _); cbn; now rewrite app_nil_r|].
  cbn [orb].
  destruct (Py.split "," line) as [|p0 [|p1 [|p2 [|p3 [|p4 [|p5 [|p6 ps]]]]]]];
    try (destruct (Nat.ltb _ _); cbn; now rewrite app_nil_r).
  destruct (parse_channel_fields p0 p1 p2 p3 p4 p5); cbn; [reflexivity|].
  now rewrite app_nil_r.
Qed.

Lemma on_timeout_config st st' :
  on_timeout st = Some st' -> config_data st' = config_data st.
Proof.
  unfold on_timeout.
  destruct (expected_channels st) as [n|].
  - destruct (_ <? n); [intros [= <-]; reflexivity|].
    destruct (Nat.eqb _ 0); [discriminate | intros [= <-]; reflexivity].
  - destruct (Nat.eqb _ 0); [discriminate | intros [= <-]; reflexivity].
Qed.

Lemma on_timeout_initial st :
  lines_read st = 0%nat -> expected_channels st = None -> on_timeout st = None.
Proof. intros H0 He. unfold on_timeout. now rewrite He, H0. Qed.

Lemma on_timeout_partial st n :
  expected_channels st = Some n ->
  Z.of_nat (length (channels (config_data st))) < n ->
  on_timeout st =
  Some (rd_log st (timeout_warning (Z.of_nat (length (channels (config_data st)))) n)).
Proof.
  intros He Hlt. unfold on_timeout. rewrite He.
  replace (_ <? n) with true by (symmetry; now apply Z.ltb_lt).
  reflexivity.
Qed.

Lemma read_loop_silent pending st :
  silent pending ->
  exists st1,
    read_loop pending st = (on_timeout st1, st1, tl pending) /\
    config_data st1 = config_data st /\ lines_read st1 = lines_read st /\
    expected_channels st1 = expected_channels st.
Proof.
  destruct pending as [|ev rest]; simpl.
  - intros _. exists st. auto.
  - intros Hs. destruct (decode_rx ev) as [[line|] msgs]; [discriminate|].
    exists (fold_left rd_log msgs st). split; [reflexivity|].
    apply rd_log_all_config.
Qed.

Lemma read_loop_feed raws rest st st' :
  Forall (fun raw => raw <> "") raws ->
  feed st (map Py.strip raws) = Some st' ->
  read_loop (map RxBytes raws ++ rest) st = read_loop rest st'.
Proof.
  intros Hne. revert st. induction Hne as [|raw raws Hraw _ IH]; intros st.
  - simpl. now intros [= ->].
  - cbn [map app feed read_loop]. rewrite (decode_rx_bytes raw Hraw).
    destruct (completed (process_line st (Py.strip raw))); [discriminate|].
    apply IH.
Qed.

Lemma feed_not_completed st lines st' :
  lines <> [] -> feed st lines = Some st' -> completed st' = false.
Proof.
  revert st. induction lines as [|line rest IH]; intros st Hne; [congruence|].
  simpl. destruct (completed (process_line st line)) eqn:Hc; [discriminate|].
  destruct rest as [|l2 rest].
  - simpl. now intros [= <-].
  - apply IH. discriminate.
Qed.

Lemma send_s self s :
  serial_conn self = Some s -> is_open s = true -> tx_fault s = None ->
  _send_command self "s" =
  (true, set_serial self (Some (mkSerial true (tx s ++ [String "s" (String Py.nl "")])
                                         (rx s) None))).
Proof.
  intros Hs Ho Hf. unfold _send_command. rewrite Hs, Ho, Hf. reflexivity.
Qed.

(** C7. On an open port that accepted the [s] command: when nothing is ever
    read, [read_configuration] returns absence and leaves no cached
    configuration; when at least one line was read and the stream falls silent
    before the declared channel count is reached, it returns the
    configuration accumulated so far, caches it, and reports the warning
    naming the received and the expected count. *)
Theorem read_configuration_timeout (self : Radio) (s : Serial) :
  serial_conn self = Some s -> is_open s = true -> tx_fault s = None ->
  (silent (rx s) ->
     fst (read_configuration self) = None /\
     config (snd (read_configuration self)) = None) /\
  (forall raws rest st n,
     rx s = map RxBytes raws ++ rest ->
     raws <> [] -> Forall (fun raw => raw <> "") raws -> silent rest ->
     feed (initial_read_state self) (map Py.strip raws) = Some st ->
     expected_channels st = Some n ->
     Z.of_nat (length (channels (config_data st))) < n /\
     fst (read_configuration self) = Some (config_data st) /\
     config (snd (read_configuration self)) = Some (config_data st) /\
     In (timeout_warning (Z.of_nat (length (channels (config_data st)))) n)
        (status_log (snd (read_configuration self)))).
Proof.
  intros Hs Ho Hf. unfold read_configuration.
  rewrite (send_s self s Hs Ho Hf). cbn [negb serial_conn set_serial rx].
  change (initial_read_state (set_serial self _)) with (initial_read_state self).
  split.
  - intros Hsil.
    destruct (read_loop_silent (rx s) (initial_read_state self) Hsil)
      as (st1 & -> & _ & Hl & He).
    rewrite (on_timeout_initial st1) by (rewrite ?Hl, ?He; reflexivity).
    split; reflexivity.
  - intros raws rest st n Hrx Hne Hall Hsil Hfeed Hexp.
    rewrite Hrx, (read_loop_feed raws rest _ st Hall Hfeed).
    destruct (read_loop_silent rest st Hsil) as (st1 & -> & Hc & Hl & He).
    assert (Hlt : Z.of_nat (length (channels (config_data st))) < n).
    { assert (completed st = false) as Hnc.
      { apply (feed_not_completed (initial_read_state self) (map Py.strip raws));
          [destruct raws; [congruence | discriminate] | assumption]. }
      unfold completed in Hnc. rewrite Hexp in Hnc. apply Z.leb_gt in Hnc. exact Hnc. }
    split; [exact Hlt|].
    rewrite (on_timeout_partial st1 n) by (rewrite ?He, ?Hc; assumption).
    cbn. rewrite Hc. repeat split; try reflexivity.
    rewrite !in_app_iff. left. right. left. reflexivity.
Qed.

(** One of three declared channel rows, then silence. *)
Lemma read_configuration_timeout_witness :
  fst (read_configuration (connected_radio partial_rows)) = Some partial_config /\
  In (timeout_warning 1 3)
     (status_log (snd (read_configuration (connected_radio partial_rows)))).
Proof.
  destruct (read_configuration_timeout (connected_radio partial_rows) (port partial_rows)
              eq_refl eq_refl eq_refl) as [_ H].
  destruct (H partial_rows [] partial_state 3) as (_ & H1 & _ & H2).
  - vm_compute. reflexivity.
  - discriminate.
  - repeat constructor; discriminate.
  - exact I.
  - vm_compute. reflexivity.
  - reflexivity.
  - split; assumption.
Defined.

Lemma read_loop_channels pending st st' stf rest :
  read_loop pending st = (Some st', stf, rest) ->
  exists more,
    channels (config_data st) ++ omap channel_of_line (lines_received pending) =
    channels (config_data st') ++ more.
Proof.
  revert st. induction pending as [|ev pending IH]; intros st; simpl.
  - intros [= H _ _]. apply on_timeout_config in H. rewrite H. now exists [].
  - destruct (decode_rx ev) as [[line|] msgs] eqn:Hev; cbn [fst].
    + destruct (completed (process_line st line)) eqn:Hc.
      * intros H. exists (omap channel_of_line (lines_received pending)).
        assert (config_data st' = config_data (process_line st line)) as ->.
        { destruct pending as [|ev' rest'].
          - now injection H as <- _ _.
          - injection H as <- _ _. apply rd_log_all_config. }
        rewrite process_line_channels. cbn [omap list_omap].
        destruct (channel_of_line line); cbn; rewrite <- ?app_assoc; reflexivity.
      * intros H. destruct (IH _ H) as [more Hm]. exists more.
        rewrite <- Hm, process_line_channels. cbn [omap list_omap].
        destruct (channel_of_line line); cbn; rewrite <- ?app_assoc; reflexivity.
    + intros [= H _ _]. apply on_timeout_config in H.
      rewrite H. exists []. destruct (rd_log_all_config msgs st) as [-> _].
      reflexivity.
Qed.

(** C9 (amended). In every configuration produced by a successful
    [read_configuration], the accumulated channel records are, in arrival
    order, a prefix of the records parsed from the well-formed six-field rows
    the device sent before the first silence. The reader checks neither range
    nor uniqueness: the channel numbers are pairwise distinct, and satisfy any
    property such as being 1-based and at most the number of memory positions,
    whenever those of the rows received are. *)
Theorem read_configuration_channels (self : Radio) (cfg : ConfigData) (self' : Radio) :
  read_configuration self = (Some cfg, self') ->
  exists s more,
    serial_conn self = Some s /\
    omap channel_of_line (lines_received (rx s)) = channels cfg ++ more /\
    (NoDup (map channel (omap channel_of_line (lines_received (rx s)))) ->
     NoDup (map channel (channels cfg))) /\
    (forall P : ChannelData -> Prop,
       Forall P (omap channel_of_line (lines_received (rx s))) ->
       Forall P (channels cfg)).
Proof.
  unfold read_configuration, _send_command.
  destruct (serial_conn self) as [s|] eqn:Hs; [|discriminate].
  destruct (is_open s); [|discriminate].
  destruct (tx_fault s); [discriminate|].
  cbn [negb serial_conn set_serial rx].
  destruct (read_loop (rx s) _) as [[res stf] rest] eqn:Hloop.
  destruct res as [st|]; [|discriminate].
  intros [= <- _]. destruct (read_loop_channels _ _ _ _ _ Hloop) as [more Hm].
  cbn [channels config_data initial_read_state empty_config app] in Hm.
  exists s, more. split; [reflexivity|]. split; [exact Hm|].
  rewrite Hm. split.
  - rewrite map_app. apply NoDup_app.
  - intros P HP. now apply Forall_app in HP.
Qed.

(** The rows numbered 0, 7 and 7 are the channels of the configuration read. *)
Lemma read_configuration_channels_witness :
  exists more,
    omap channel_of_line (lines_received (map RxBytes unchecked_rows)) =
    channels unchecked_config ++ more.
Proof.
  assert (E : read_configuration (connected_radio unchecked_rows) =
              (Some unchecked_config, snd (read_configuration (connected_radio unchecked_rows))))
    by (vm_compute; reflexivity).
  destruct (read_configuration_channels _ _ _ E) as (s & more & Hs & Hm & _).
  change (Some (port unchecked_rows) = Some s) in Hs. injection Hs as <-.
  exists more. exact Hm.
Defined.

Lemma o_prefix_only line :
  Py.startswith line "o:" = true ->
  Py.startswith line "r:" = false /\ Py.startswith line "v:" = false /\
  Py.startswith line "m:" = false /\ Py.startswith line "s:" = false.
Proof.
  unfold Py.startswith. destruct line as [|c r]; [discriminate|].
  cbn [String.prefix]. destruct (ascii_dec "o" c) as [<-|]; [|discriminate].
  intros _. repeat split; reflexivity.
Qed.

(** C8 (amended). For a dump line starting with [o:], the reader sets
    [fm_offset_khz] to the integer parsed from the first colon-separated field
    of the stripped remainder of the line; when that field is no integer the
    offset is left as it was and a warning is reported. *)
Theorem fm_offset_line (st : ReadState) (line : string) :
  Py.startswith line "o:" = true ->
  match first_colon_int line with
  | Some v =>
      fm_offset_khz (config_data (process_line st line)) = Some v /\
      rd_status (process_line st line) = rd_status st
  | None =>
      fm_offset_khz (config_data (process_line st line)) =
        fm_offset_khz (config_data st) /\
      rd_status (process_line st line) =
        rd_status st ++ ["Warning: Could not parse FM offset: " +:+ line]
  end.
Proof.
  intros Ho. destruct (o_prefix_only line Ho) as (Hr & Hv & Hm & Hs).
  unfold process_line, first_colon_int. rewrite Hr, Hv, Hm, Hs, Ho.
  destruct (Py.split ":" _) as [|p0 ps]; [split; reflexivity|].
  destruct (Py.int p0); split; reflexivity.
Qed.


(** The line [o:100:5] sets the offset to 100. *)
Lemma fm_offset_line_witness :
  fm_offset_khz (config_data (process_line (initial_read_state (connected_radio [])) "o:100:5"))
  = Some 100.
Proof.
  assert (Hp : Py.startswith "o:100:5" "o:" = true) by (vm_compute; reflexivity).
  pose proof (fm_offset_line (initial_read_state (connected_radio [])) "o:100:5" Hp) as H.
  assert (Hc : first_colon_int "o:100:5" = Some 100) by (vm_compute; reflexivity).
  rewrite Hc in H. exact (proj1 H).
Defined.

(** The first comma-separated field is not what is parsed: [o:100,5] leaves
    the offset unset. *)
Lemma fm_offset_first_comma_field_fails :
  ~ (forall st line v,
       Py.startswith line "o:" = true -> first_comma_int line = Some v ->
       fm_offset_khz (config_data (process_line st line)) = Some v).
Proof.
  intros H.
  assert (Hp : Py.startswith "o:100,5" "o:" = true) by (vm_compute; reflexivity).
  assert (Hc : first_comma_int "o:100,5" = Some 100) by (vm_compute; reflexivity).
  specialize (H (initial_read_state (connected_radio [])) "o:100,5" 100 Hp Hc).
  vm_compute in H. discriminate.
Qed.

(** The reader does not establish the invariant of the data model: a dump with
    rows numbered 0, 7 and 7 for 3 positions is read successfully. *)
Lemma channel_numbers_invariant_fails :
  ~ (forall self cfg self',
       read_configuration self = (Some cfg, self') -> channel_numbers_valid cfg).
Proof.
  intros H.
  assert (E : read_configuration (connected_radio unchecked_rows) =
              (Some unchecked_config, snd (read_configuration (connected_radio unchecked_rows))))
    by (vm_compute; reflexivity).
  destruct (H _ _ _ E) as [Hrange _].
  destruct (Hrange (mkChannel (Some 0) (Some 100) (Some 0) (Some 1) None None))
    as (n & Hn & H1 & _).
  - left. reflexivity.
  - injection Hn as <-. lia.
Qed.

End CommsFacts.

(** ** CSV export and differential import *)

Module ManagerFacts.
Import Comms Manager Spec Instances.

Lemma is_skip_in_csv_iff self imp :
  is_skip_in_csv self imp = true <-> row_is_skip self imp.
Proof.
  unfold is_skip_in_csv, row_is_skip. rewrite orb_true_iff, bool_decide_eq_true.
  destruct (skip_freq_value (radio self)) as [v|].
  - rewrite bool_decide_eq_true. split.
    + intros [H|H]; [now left | right; eauto].
    + intros [H|(v' & [= <-] & H)]; [now left | now right].
  - split; [intros [H|H]; [now left | discriminate] | ].
    intros [H|(v' & [=] & _)]. now left.
Qed.

Lemma needs_write_expected self ch imp curr :
  stored_row ch imp ->
  needs_write self ch imp curr = true <-> write_expected self ch imp curr.
Proof.
  intros (_ & _ & (p & Hp & Hup) & (t & Ht)).
  unfold needs_write, write_expected.
  destruct curr as [c|].
  2:{ rewrite negb_true_iff, <- not_true_iff_false, is_skip_in_csv_iff. reflexivity. }
  unfold differs_from_live, already_skipped, pi_matches, ps_matches.
  rewrite <- is_skip_in_csv_iff.
  rewrite Hp, Ht. cbn [default Py.or_empty id]. rewrite Hup.
  destruct (is_skip_in_csv self imp);
    destruct (is_channel_skipped (radio self) ch (Some c));
    repeat case_bool_decide; cbn; split; intros Hw; try discriminate; try reflexivity;
    try tauto; intuition congruence.
Qed.

Lemma import_row_stored self n row ch d ws :
  import_row self n row = RowStored ch d ws -> stored_row ch d.
Proof.
  unfold import_row.
  destruct (negb _); [discriminate|].
  destruct row as [|r0 [|r1 [|r2 [|r3 [|r4 [|r5 [|r6 ?]]]]]]]; try discriminate.
  destruct (Py.int (Py.strip r0)) as [c|]; [|discriminate].
  destruct (Py.int (Py.strip r1)) as [f|]; [|discriminate].
  destruct (Py.int (Py.strip r2)) as [bw|]; [|discriminate].
  destruct (Py.int (Py.strip r3)) as [ms|]; [|discriminate].
  destruct (negb (1 <=? c)); [discriminate|].
  destruct (max_channels (radio self)) as [maxc|]; [|discriminate].
  destruct (negb (c <=? maxc)); [discriminate|].
  destruct (f <? 0); [discriminate|].
  destruct (bw <? 0); [discriminate|].
  destruct (negb _); [discriminate|].
  set (p4 := Py.take 4 (Py.upper (Py.strip r4))).
  assert (Hp4 : Py.upper p4 = p4)
    by (unfold p4; now rewrite PyFacts.upper_take, PyFacts.upper_idem).
  clearbody p4.
  set (pu := Py.upper (Py.strip r4)).
  assert (Hpu : Py.upper pu = pu) by (unfold pu; apply PyFacts.upper_idem).
  clearbody pu.
  destruct (Nat.ltb 4 _); destruct (Nat.ltb 8 _);
    (destruct (_ && _); [discriminate|]); intros H; injection H; intros _ <- <-;
    (split; [reflexivity|]); (split; [do 3 eexists; repeat split; reflexivity|]);
    (split; [eexists; split; [reflexivity | assumption] | eexists; reflexivity]).
Qed.

Lemma dict_set_Forall (P : Z * ChannelData -> Prop) k v d :
  Forall P d -> P (k, v) -> Forall P (dict_set k v d).
Proof.
  intros Hd Hp. induction Hd as [|[k' v'] d Hx Hd IH]; simpl.
  - constructor; [assumption | constructor].
  - destruct (k' =? k); constructor; assumption.
Qed.

Lemma import_rows_Forall (P : Z * ChannelData -> Prop) self rows :
  Forall (fun row => forall n ch d ws,
            import_row self n row = RowStored ch d ws -> P (ch, d)) rows ->
  forall n acc,
    Forall P (imported_channels acc) ->
    Forall P (imported_channels (import_rows self n rows acc)).
Proof.
  intros Hrows. induction Hrows as [|row rows Hrow _ IH]; intros n acc Hacc; simpl.
  - assumption.
  - destruct (import_row self (S n) row) as [ws|ch d ws|ws e] eqn:E.
    + apply IH. assumption.
    + apply IH. cbn. apply dict_set_Forall; [assumption | eapply Hrow; eassumption].
    + assumption.
Qed.

Lemma parse_csv_stored self file :
  Forall (fun '(ch, d) => stored_row ch d) (imported_channels (parse_csv self file)).
Proof.
  unfold parse_csv. destruct file as [|header rows]; [constructor|].
  destruct (bool_decide _); [|constructor].
  apply import_rows_Forall; [|constructor].
  rewrite Forall_forall. intros row _ n ch d ws. apply import_row_stored.
Qed.

Lemma worker_writes self cfg file writes warnings :
  radio_config self = Some cfg ->
  _import_csv_thread_worker self file = Some (writes, [], warnings) ->
  imported_channels (parse_csv self file) <> [] ->
  writes = diff_channels self cfg (imported_channels (parse_csv self file)).
Proof.
  intros Hcfg. unfold _import_csv_thread_worker. rewrite Hcfg.
  destruct (parse_errors (parse_csv self file)) as [|e es];
    destruct (imported_channels (parse_csv self file)) as [|x xs];
    intros [= <- _]; congruence.
Qed.

Lemma in_diff_channels self cfg imported ch imp :
  Forall (fun '(k, d) => stored_row k d) imported ->
  In (ch, imp) imported ->
  In imp (diff_channels self cfg imported) <->
  needs_write self ch imp (current_channels_dict cfg !! ch) = true.
Proof.
  intros Hall Hin. unfold diff_channels. rewrite in_map_iff. split.
  - intros ([k d] & Hd & Hf). cbn in Hd. subst d.
    apply filter_In in Hf as [Hk Hn].
    rewrite Forall_forall in Hall.
    pose proof (Hall _ (proj2 (list_elem_of_In _ _) Hk)) as (Hc1 & _).
    pose proof (Hall _ (proj2 (list_elem_of_In _ _) Hin)) as (Hc2 & _).
    cbn in Hc1, Hc2. assert (k = ch) as -> by congruence. exact Hn.
  - intros Hn. exists (ch, imp). split; [reflexivity|].
    apply filter_In. split; assumption.
Qed.

(** *** Round trip *)

Lemma int_cell v : Py.int (Py.strip (cell_int v)) = v.
Proof.
  destruct v as [n|]; cbn [cell_int].
  - now rewrite PyFacts.strip_str, PyFacts.int_str.
  - reflexivity.
Qed.

Lemma needs_write_unchanged self k r :
  needs_write self k
    (mkChannel (channel r) (freq_khz r) (bandwidth_code r) (mono_stereo_code r)
               (Some (Py.upper (Py.or_empty (pi r)))) (Some (Py.or_empty (ps r))))
    (Some r) = false.
Proof.
  unfold needs_write. cbn [freq_khz bandwidth_code mono_stereo_code pi ps default id].
  rewrite !bool_decide_eq_true_2 by reflexivity. reflexivity.
Qed.

Lemma in_insert_sorted x y l : In y (insert_sorted x l) -> y = x \/ In y l.
Proof.
  induction l as [|z l IH]; simpl.
  - intros [<-|[]]. now left.
  - destruct (key_le (channel x) (channel z)); simpl.
    + intros [<-|H]; [now left | now right].
    + intros [<-|H]; [right; now left|]. destruct (IH H); [now left | right; now right].
Qed.

Lemma in_sorted y l : In y (sorted l) -> In y l.
Proof.
  unfold sorted. induction l as [|x l IH]; simpl; [tauto|].
  intros H. apply in_insert_sorted in H as [->|H]; [now left | right; now apply IH].
Qed.

Lemma fold_dict_other (l : list ChannelData) (acc : gmap Z ChannelData) (k : Z) :
  ~ In k (omap channel l) -> fold_left dict_step l acc !! k = acc !! k.
Proof.
  revert acc. induction l as [|c l IH]; intros acc Hk; simpl; [reflexivity|].
  cbn [omap list_omap] in Hk. unfold dict_step at 2.
  destruct (channel c) as [k'|] eqn:E.
  - rewrite IH by (intros H; apply Hk; now right).
    apply lookup_insert_ne. intros ->. apply Hk. now left.
  - now apply IH.
Qed.

Lemma fold_dict_unique (l : list ChannelData) (acc : gmap Z ChannelData) r k :
  NoDup (omap channel l) -> In r l -> channel r = Some k ->
  fold_left dict_step l acc !! k = Some r.
Proof.
  revert acc. induction l as [|c l IH]; intros acc Hnd Hin Hk; [destruct Hin|].
  simpl. cbn [omap list_omap] in Hnd. destruct Hin as [->|Hin].
  - unfold dict_step at 2. rewrite Hk in *. apply NoDup_cons in Hnd as [Hnotin _].
    rewrite fold_dict_other by (rewrite <- list_elem_of_In; exact Hnotin).
    apply lookup_insert_eq.
  - apply IH; [|assumption|assumption].
    destruct (channel c); [now apply NoDup_cons in Hnd as [_ ?] | assumption].
Qed.

Lemma current_channels_dict_unique cfg r k :
  NoDup (omap channel (channels cfg)) -> In r (channels cfg) -> channel r = Some k ->
  current_channels_dict cfg !! k = Some r.
Proof. apply fold_dict_unique. Qed.

Lemma diff_channels_nil self cfg imported :
  Forall (fun '(k, d) => needs_write self k d (current_channels_dict cfg !! k) = false)
         imported ->
  diff_channels self cfg imported = [].
Proof.
  intros H. unfold diff_channels.
  induction H as [|[k d] l Hx _ IH]; simpl; [reflexivity|].
  rewrite Hx. exact IH.
Qed.

Lemma nonblank_str n : nonblank (Py.str n) = true.
Proof.
  unfold nonblank. rewrite PyFacts.strip_str.
  pose proof (PyFacts.str_nonempty n). destruct (Py.str n); [congruence | reflexivity].
Qed.

(** For arbitrary loaded configurations the round trip is not empty: a PS text
    with a leading blank is stripped by the import and the channel is put in
    the write list. *)
Lemma csv_round_trip_as_claimed_fails :
  ~ (forall self cfg file count,
       radio_config self = Some cfg ->
       _export_csv_worker self = (Some file, count, None) ->
       exists errors warnings,
         _import_csv_thread_worker self file = Some ([], errors, warnings)).
Proof.
  intros H.
  destruct (H padded_ps padded_ps_config
              [CSV_HEADER; ["1"; "87500"; "0"; "1"; "ABCD"; " Radio 1"]] 1%nat)
    as (errors & warnings & Hw).
  - vm_compute. reflexivity.
  - vm_compute. reflexivity.
  - vm_compute in Hw. discriminate.
Qed.

(** When the import accepts a record of a channel number but not the live
    record of that number, the round trip rewrites the channel: of two rows
    for channel 2 the import keeps the first, the second being rejected,
    while the comparison is made with the second. *)
Example repeated_channel_is_rewritten :
  option_map (fun r => fst (fst r))
    (_import_csv_thread_worker repeated_two
       (default [] (fst (fst (_export_csv_worker repeated_two))))) =
  Some [mkChannel (Some 2) (Some 87500) (Some 0) (Some 1) (Some "") (Some "")].
Proof. vm_compute. reflexivity. Qed.

End ManagerFacts.

(** ** Further properties of the protocol client *)

Module ClientProperties.
Import Comms Manager Spec Instances Tactics.

(** *** Sessions over time *)

Lemma port_advanced_refl s : port_advanced 0 0 s s.
Proof.
  repeat split; [exists []; split; [now rewrite app_nil_r | reflexivity]
                | exists []; split; reflexivity].
Qed.

Lemma port_advanced_trans w r w' r' a b c :
  port_advanced w r a b -> port_advanced w' r' b c ->
  port_advanced (w + w') (r + r') a c.
Proof.
  intros (Ho & Hf & (l & Hl & Ll) & (k & Hk & Lk))
         (Ho' & Hf' & (l' & Hl' & Ll') & (k' & Hk' & Lk')).
  repeat split; try congruence.
  - exists (l ++ l'). split.
    + now rewrite Hl', Hl, app_assoc.
    + rewrite length_app. lia.
  - exists (k ++ k'). split.
    + now rewrite Hk, Hk', app_assoc.
    + rewrite length_app. lia.
Qed.

Lemma port_advanced_le w r w' r' a b :
  (w <= w')%nat -> (r <= r')%nat -> port_advanced w r a b -> port_advanced w' r' a b.
Proof.
  intros L L' (Ho & Hf & (l & Hl & Ll) & (k & Hk & Lk)).
  repeat split; try assumption; [exists l | exists k]; split; try assumption; lia.
Qed.

Lemma advanced_refl a : advanced 0 0 a a.
Proof.
  repeat split; try (exists []; now rewrite app_nil_r).
  destruct (serial_conn a); [apply port_advanced_refl | exact I].
Qed.

Lemma advanced_trans w r w' r' a b c :
  advanced w r a b -> advanced w' r' b c -> advanced (w + w') (r + r') a c.
Proof.
  intros (Hc & Hm & Hk & (l & Hl) & (p & Hp) & Hs)
         (Hc' & Hm' & Hk' & (l' & Hl') & (p' & Hp') & Hs').
  repeat split; try congruence.
  - exists (l ++ l'). now rewrite Hl', Hl, app_assoc.
  - exists (p ++ p'). now rewrite Hp', Hp, app_assoc.
  - destruct (serial_conn a), (serial_conn b), (serial_conn c); try tauto.
    eapply port_advanced_trans; eassumption.
Qed.

Lemma advanced_le w r w' r' a b :
  (w <= w')%nat -> (r <= r')%nat -> advanced w r a b -> advanced w' r' a b.
Proof.
  intros L L' (Hc & Hm & Hk & Hl & Hp & Hs). repeat split; try assumption.
  destruct (serial_conn a), (serial_conn b); try tauto.
  eapply port_advanced_le; eassumption.
Qed.

(** A step that does no input or output, after [a] advanced. *)
Lemma advanced_then w r a b c :
  advanced w r a b -> advanced 0 0 b c -> advanced w r a c.
Proof.
  intros H H'. generalize (advanced_trans _ _ _ _ _ _ _ H H').
  now rewrite !Nat.add_0_r.
Qed.

Lemma advanced_status self msg : advanced 0 0 self (_update_status self msg).
Proof.
  repeat split; cbn; [now exists [msg] | exists []; now rewrite app_nil_r |].
  destruct (serial_conn self); [apply port_advanced_refl | exact I].
Qed.

Lemma advanced_progress self v m : advanced 0 0 self (_update_progress self v m).
Proof.
  repeat split; cbn; [exists []; now rewrite app_nil_r | now exists [(v, m)] |].
  destruct (serial_conn self); [apply port_advanced_refl | exact I].
Qed.

Lemma advanced_log_all msgs : forall self, advanced 0 0 self (log_all self msgs).
Proof.
  induction msgs as [|m msgs IH]; intros self; [apply advanced_refl |].
  change (log_all self (m :: msgs)) with (log_all (_update_status self m) msgs).
  apply (advanced_then _ _ _ (_update_status self m)); [apply advanced_status | apply IH].
Qed.

Lemma advanced_skip_info self f : advanced 0 0 self (skip_info self f).
Proof.
  unfold skip_info. destruct (skip_freq_value self); [| apply advanced_refl].
  destruct (_ && _); [apply advanced_status | apply advanced_refl].
Qed.

Lemma advanced_prepare self ch f bw ms pi ps :
  advanced 0 0 self (snd (prepare_command self ch f bw ms pi ps)).
Proof.
  unfold prepare_command.
  destruct (Nat.ltb 4 _), (Nat.ltb 8 _); cbn [snd].
  - apply (advanced_then _ _ _ (_update_status self "Warning: PI code truncated."));
      apply advanced_status.
  - apply advanced_status.
  - apply advanced_status.
  - apply advanced_refl.
Qed.

Lemma advanced_send self command :
  advanced 1 0 self (snd (_send_command self command)).
Proof.
  unfold _send_command.
  destruct (serial_conn self) as [s|] eqn:Es;
    [| apply (advanced_le 0 0); [lia | lia | apply advanced_status]].
  destruct (is_open s) eqn:Eo;
    [| apply (advanced_le 0 0); [lia | lia | apply advanced_status]].
  destruct (tx_fault s) eqn:Ef;
    [apply (advanced_le 0 0); [lia | lia | apply advanced_status] |].
  cbn [snd]. repeat split; cbn; try (exists []; now rewrite app_nil_r).
  rewrite Es. repeat split; cbn; try congruence.
  - eexists. split; [reflexivity | cbn; lia].
  - exists []. split; [reflexivity | cbn; lia].
Qed.

Lemma advanced_read self : advanced 0 1 self (snd (_read_line self)).
Proof.
  unfold _read_line.
  destruct (serial_conn self) as [s|] eqn:Es;
    [| apply (advanced_le 0 0); [lia | lia | apply advanced_status]].
  destruct (is_open s) eqn:Eo;
    [| apply (advanced_le 0 0); [lia | lia | apply advanced_status]].
  destruct (rx s) as [|ev rest] eqn:Er;
    [apply (advanced_le 0 0); [lia | lia | apply advanced_refl] |].
  cbn [snd].
  apply (advanced_then _ _ _
           (set_serial self (Some (mkSerial true (tx s) rest (tx_fault s)))));
    [| apply advanced_log_all].
  repeat split; cbn; try (exists []; now rewrite app_nil_r).
  rewrite Es. repeat split; cbn; try congruence.
  - exists []. split; [now rewrite app_nil_r | cbn; lia].
  - exists [ev]. split; [now rewrite Er | cbn; lia].
Qed.

Lemma advanced_send_and_handle self ch c :
  advanced 1 1 self (snd (send_and_handle self ch c)).
Proof.
  unfold send_and_handle.
  set (a := _update_status self ("Sending: " +:+ c)).
  assert (Ha : advanced 0 0 self a) by apply advanced_status.
  pose proof (advanced_send a c) as Hs.
  destruct (_send_command a c) as [sent b]. cbn [snd] in Hs.
  assert (Hb : advanced 1 0 self b)
    by (apply (advanced_trans 0 0 1 0 _ a); assumption).
  destruct sent; cbn [negb]; cbn match; [| apply (advanced_le 1 0); [lia | lia | exact Hb]].
  pose proof (advanced_read b) as Hr.
  destruct (_read_line b) as [line d]. cbn [snd] in Hr.
  assert (Hd : advanced 1 1 self d)
    by (apply (advanced_trans 1 0 0 1 _ b); assumption).
  destruct line as [line|]; [| exact Hd].
  destruct (Py.startswith line "S:");
    [| cbn [snd]; eapply advanced_then; [exact Hd | apply advanced_status]].
  destruct (Py.int _); cbn [snd];
    (eapply advanced_then; [exact Hd | apply advanced_status]).
Qed.

(** The two outcomes of the validation part of [write_channel]: a failure
    with one message, or the hand-over to the sending part. *)
Lemma write_channel_cases self ch f bw ms pi ps :
  (exists msg self',
     write_channel self ch f bw ms pi ps = (false, [msg], self') /\
     (self' = self \/ self' = skip_info self f)) \/
  (connected self = true /\ channel_in_range self ch /\ 0 <= f /\
   ~ (ch = 1 /\ skip_frequency self f) /\ 0 <= bw /\ (ms = 0 \/ ms = 1) /\
   write_channel self ch f bw ms pi ps =
   send_and_handle (snd (prepare_command (skip_info self f) ch f bw ms pi ps)) ch
                   (s_command ch f bw ms pi ps)).
Proof.
  unfold write_channel.
  destruct (connected self) eqn:Ec; cbn [negb]; [| left; eauto].
  destruct ((ch <? 1) || _) eqn:Er; [left; eauto |].
  apply CommsFacts.channel_check_iff in Er.
  destruct (f <? 0) eqn:Ef; [left; eauto |].
  destruct ((ch =? 1) && _) eqn:Ek; [left; eauto |].
  destruct (bw <? 0) eqn:Eb; [left; eauto |].
  destruct (negb _) eqn:Em; [left; eauto |].
  right.
  split; [reflexivity |]. split; [exact Er |]. split; [lia |].
  split; [| split; [lia |]; split].
  - intros [-> Hk]. apply CommsFacts.is_skip_freq_iff in Hk.
    rewrite Hk in Ek. discriminate.
  - apply negb_false_iff, orb_true_iff in Em.
    destruct Em as [E | E]; apply Z.eqb_eq in E; auto.
  - rewrite <- (CommsFacts.prepare_command_text (skip_info self f)).
    now destruct (prepare_command _ _ _ _ _ _ _).
Qed.

Lemma advanced_write_channel self ch f bw ms pi ps :
  advanced 1 1 self (snd (write_channel self ch f bw ms pi ps)).
Proof.
  destruct (write_channel_cases self ch f bw ms pi ps)
    as [(msg & self' & -> & [-> | ->]) | (_ & _ & _ & _ & _ & _ & ->)]; cbn [snd].
  - apply (advanced_le 0 0); [lia | lia | apply advanced_refl].
  - apply (advanced_le 0 0); [lia | lia | apply advanced_skip_info].
  - apply (advanced_trans 0 0 1 1 _
             (snd (prepare_command (skip_info self f) ch f bw ms pi ps)));
      [| apply advanced_send_and_handle].
    apply (advanced_then _ _ _ (skip_info self f));
      [apply advanced_skip_info | apply advanced_prepare].
Qed.

Lemma advanced_skip_channel self ch :
  advanced 1 1 self (snd (skip_channel self ch)).
Proof.
  unfold skip_channel.
  destruct (ch =? 1); [apply (advanced_le 0 0); [lia | lia | apply advanced_refl] |].
  eapply (advanced_trans 0 0 1 1); [apply advanced_status | apply advanced_write_channel].
Qed.

(** *** Text *)

Lemma append_assoc (a b c : string) : (a +:+ b) +:+ c = a +:+ (b +:+ c).
Proof.
  induction a as [|x a IH]; [reflexivity |].
  rewrite !PyFacts.append_cons. now rewrite IH.
Qed.

Lemma endswith_last s c d :
  Py.endswith_char (s +:+ String c "") d = Ascii.eqb c d.
Proof.
  induction s as [|x s IH]; [reflexivity |].
  rewrite PyFacts.append_cons.
  destruct s as [|y s]; [reflexivity |].
  rewrite PyFacts.append_cons in *. exact IH.
Qed.

(** *** _send_command *)

Lemma send_command_result self c :
  (exists s,
     serial_conn self = Some s /\ is_open s = true /\ tx_fault s = None /\
     _send_command self c =
     (true, set_serial self (Some (mkSerial true (tx s ++ [wire_line c]) (rx s) None)))) \/
  (exists msg, _send_command self c = (false, _update_status self msg)).
Proof.
  unfold _send_command.
  destruct (serial_conn self) as [s|]; [| right; eauto].
  destruct (is_open s) eqn:Eo; [| right; eauto].
  destruct (tx_fault s) eqn:Ef; [right; eauto |].
  left. exists s. now repeat split.
Qed.

(** X1. [_send_command] either writes exactly one line, the command itself or
    the command followed by a newline, always ending in a newline, and reads
    and reports nothing; or it writes nothing, leaves the port as it was and
    reports one error. The cached configuration is never touched. *)
Theorem send_command_framing (self : Radio) (command : string) :
  advanced 1 0 self (snd (_send_command self command)) /\
  if fst (_send_command self command) then
    exists s line,
      serial_conn self = Some s /\
      serial_conn (snd (_send_command self command)) =
        Some (mkSerial (is_open s) (tx s ++ [line]) (rx s) (tx_fault s)) /\
      Py.endswith_char line Py.nl = true /\
      (line = command \/ line = command +:+ String Py.nl "") /\
      status_log (snd (_send_command self command)) = status_log self
  else
    serial_conn (snd (_send_command self command)) = serial_conn self /\
    exists msg, status_log (snd (_send_command self command)) = status_log self ++ [msg].
Proof.
  split; [apply advanced_send |].
  unfold _send_command.
  destruct (serial_conn self) as [s|] eqn:Es; [| cbn; rewrite Es; eauto].
  destruct (is_open s) eqn:Eo; [| cbn; rewrite Es; eauto].
  destruct (tx_fault s) eqn:Ef; [cbn; rewrite Es; eauto |].
  cbn [fst snd]. exists s. eexists. split; [reflexivity |].
  split; [cbn; rewrite Eo, Ef; reflexivity |].
  destruct (Py.endswith_char command Py.nl) eqn:Ee.
  - repeat split; [exact Ee | now left].
  - repeat split; [| now right].
    rewrite endswith_last. apply Ascii.eqb_refl.
Qed.

(** *** interpret_s_response *)

Lemma testbit_low_byte code i : 0 <= i < 8 -> Z.testbit (code mod 256) i = Z.testbit code i.
Proof.
  intros Hi. change 256 with (2 ^ 8). apply Z.mod_pow2_bits_low. lia.
Qed.

Lemma status_messages_low_byte code : status_messages (code mod 256) = status_messages code.
Proof.
  unfold status_messages. now rewrite !testbit_low_byte by lia.
Qed.

(** X2. The interpreter looks at the low eight bits only, whatever integer
    the device sends: the success flag is bit 7 of [code mod 256]; when that
    byte is not zero the messages are those of the byte; when the byte is zero
    but the code is not, the single message is the unknown-code text. *)
Theorem interpret_s_response_low_byte (code : Z) :
  bit_set code 7 = Z.testbit (code mod 256) 7 /\
  (code mod 256 <> 0 ->
     interpret_s_response code = interpret_s_response (code mod 256) /\
     interpret_s_response code = status_messages (code mod 256)) /\
  (code mod 256 = 0 -> code <> 0 ->
     bit_set code 7 = false /\
     interpret_s_response code =
       ["Unknown response code: " +:+ Py.str code +:+
        " (Binary: " +:+ Py.format_08b code +:+ ")"]).
Proof.
  assert (Hr : 0 <= code mod 256 < 256) by (apply Z.mod_pos_bound; lia).
  assert (H7 : bit_set code 7 = Z.testbit (code mod 256) 7).
  { rewrite CommsFacts.bit_set_testbit by lia. now rewrite testbit_low_byte by lia. }
  split; [exact H7 |]. split.
  - intros Hn.
    pose proof (CommsFacts.status_messages_nonempty _ Hr Hn) as Hne.
    rewrite !CommsFacts.interpret_s_response_messages.
    rewrite status_messages_low_byte in *.
    destruct (status_messages code); [congruence |]. now split.
  - intros Hz Hc. split; [rewrite H7, Hz; reflexivity |].
    rewrite CommsFacts.interpret_s_response_messages.
    rewrite <- status_messages_low_byte, Hz.
    apply Z.eqb_neq in Hc. cbn. now rewrite Hc.
Qed.

Lemma interpret_s_response_low_byte_witness :
  384 mod 256 <> 0 /\ 256 mod 256 = 0 /\ 256 <> 0 /\
  interpret_s_response 384 = status_messages (384 mod 256) /\
  bit_set 256 7 = false.
Proof.
  assert (H1 : 384 mod 256 <> 0) by (vm_compute; discriminate).
  assert (H2 : 256 mod 256 = 0) by reflexivity.
  assert (H3 : 256 <> 0) by discriminate.
  split; [exact H1 |]. split; [exact H2 |]. split; [exact H3 |].
  split.
  - exact (proj2 (proj1 (proj2 (interpret_s_response_low_byte 384)) H1)).
  - exact (proj1 (proj2 (proj2 (interpret_s_response_low_byte 256)) H2 H3)).
Defined.

Lemma interpret_s_response_nonempty code : interpret_s_response code <> [].
Proof.
  rewrite CommsFacts.interpret_s_response_messages.
  destruct (status_messages code); [destruct (code =? 0) |]; discriminate.
Qed.

Lemma interpret_s_response_success code :
  bit_set code 7 = true ->
  hd_error (interpret_s_response code) = Some "All ok, channel stored".
Proof.
  intros H. rewrite CommsFacts.interpret_s_response_unfold, H. reflexivity.
Qed.

(** *** write_channel, skip_channel *)

Lemma send_and_handle_success self ch c msgs self' :
  send_and_handle self ch c = (true, msgs, self') ->
  exists s raw rest code,
    serial_conn self = Some s /\ is_open s = true /\ tx_fault s = None /\
    rx s = RxBytes raw :: rest /\ raw <> "" /\
    Py.startswith (Py.strip raw) "S:" = true /\
    Py.int (Py.strip (Py.drop 2 (Py.strip raw))) = Some code /\
    bit_set code 7 = true /\ msgs = interpret_s_response code.
Proof.
  unfold send_and_handle, _send_command. cbn [serial_conn _update_status].
  destruct (serial_conn self) as [s|] eqn:Es; [| discriminate].
  destruct (is_open s) eqn:Eo; [| discriminate].
  destruct (tx_fault s) eqn:Ef; [discriminate |].
  cbn [negb]. unfold _read_line.
  cbn [serial_conn set_serial is_open rx tx tx_fault].
  destruct (rx s) as [|ev rest] eqn:Er; [discriminate |].
  destruct ev as [raw | e]; [| discriminate].
  destruct raw as [|a raw]; [discriminate |].
  set (w := String a raw) in *.
  change (decode_rx (RxBytes w)) with (Some (Py.strip w), @nil string).
  cbn [fst snd log_all fold_left].
  destruct (Py.startswith (Py.strip w) "S:") eqn:Ep; [| discriminate].
  destruct (Py.int _) as [code|] eqn:Ei; [| discriminate].
  intros [= Hb <- _].
  exists s, w, rest, code. repeat split; try assumption; try reflexivity.
  subst w. discriminate.
Qed.

Lemma send_and_handle_messages self ch c : snd (fst (send_and_handle self ch c)) <> [].
Proof.
  unfold send_and_handle.
  destruct (_send_command _ c) as [[] a]; cbn [negb]; [| discriminate].
  destruct (_read_line a) as [[line|] b]; [| discriminate].
  destruct (Py.startswith line "S:"); [| discriminate].
  destruct (Py.int _); [| discriminate].
  cbn. apply interpret_s_response_nonempty.
Qed.

Lemma write_channel_messages self ch f bw ms pi ps :
  snd (fst (write_channel self ch f bw ms pi ps)) <> [].
Proof.
  destruct (write_channel_cases self ch f bw ms pi ps)
    as [(msg & self' & -> & _) | (_ & _ & _ & _ & _ & _ & ->)];
    [discriminate | apply send_and_handle_messages].
Qed.

(** X3. [write_channel] reports success only when the call passed every
    validation, the command line was written to an open port and the device
    answered with a line [S:<code>] whose bit 7 is set; the messages are then
    the interpretation of that code, starting with the success text. *)
Theorem write_channel_success_acknowledged
        (self : Radio) (ch f bw ms : Z) (pi ps : string)
        (msgs : list string) (self' : Radio) :
  write_channel self ch f bw ms pi ps = (true, msgs, self') ->
  exists s raw rest code,
    serial_conn self = Some s /\ is_open s = true /\ tx_fault s = None /\
    channel_in_range self ch /\ 0 <= f /\ ~ (ch = 1 /\ skip_frequency self f) /\
    0 <= bw /\ (ms = 0 \/ ms = 1) /\
    rx s = RxBytes raw :: rest /\
    Py.startswith (Py.strip raw) "S:" = true /\
    Py.int (Py.strip (Py.drop 2 (Py.strip raw))) = Some code /\
    Z.testbit code 7 = true /\
    msgs = interpret_s_response code /\
    hd_error msgs = Some "All ok, channel stored" /\
    serial_conn self' =
      Some (mkSerial true (tx s ++ [wire_line (s_command ch f bw ms pi ps)]) rest None).
Proof.
  intros H. pose proof H as H0.
  destruct (write_channel_cases self ch f bw ms pi ps)
    as [(msg & r & E & _) | (Hc & Hr & Hf & Hk & Hb & Hm & E)];
    [rewrite E in H; discriminate |].
  rewrite E in H.
  apply send_and_handle_success in H
    as (s & raw & rest & code & Hs & Ho & Hx & Hrx & _ & Hp & Hi & H7 & ->).
  destruct (CommsFacts.prepare_command_session (skip_info self f) ch f bw ms pi ps)
    as (P1 & _).
  destruct (CommsFacts.skip_info_session self f) as (P2 & _).
  rewrite P1, P2 in Hs.
  exists s, raw, rest, code.
  repeat split; try assumption; try apply Hr.
  - now rewrite <- CommsFacts.bit_set_testbit by lia.
  - now apply interpret_s_response_success.
  - pose proof (CommsFacts.write_channel_sends self s ch f bw ms pi ps
                  Hs Ho Hx Hr Hf Hk Hb Hm) as W.
    rewrite H0, Hrx, Ho, Hx in W. exact W.
Qed.

Lemma write_channel_success_acknowledged_witness :
  exists code,
    Z.testbit code 7 = true /\
    snd (fst (write_channel (answering 128) 2 87500 0 1 "abcd" "Radio")) =
    interpret_s_response code.
Proof.
  assert (E : write_channel (answering 128) 2 87500 0 1 "abcd" "Radio" =
              (true, ["All ok, channel stored"],
               snd (write_channel (answering 128) 2 87500 0 1 "abcd" "Radio")))
    by (vm_compute; reflexivity).
  destruct (write_channel_success_acknowledged _ _ _ _ _ _ _ _ _ E)
    as (s & raw & rest & code & _ & _ & _ & _ & _ & _ & _ & _ & _ & _ & _ & H7 & Hm & _).
  exists code. split; [exact H7 |]. rewrite E. exact Hm.
Defined.

(** X4. Whatever its arguments and its outcome, [write_channel] leaves the
    cached configuration, channel count and skip value as they are, keeps the
    port open or closed as it was, writes at most one line after what was
    written before, consumes at most one pending read and only appends to the
    status log; the same holds of [skip_channel]. *)
Theorem write_channel_footprint (self : Radio) (ch f bw ms : Z) (pi ps : string) :
  advanced 1 1 self (snd (write_channel self ch f bw ms pi ps)) /\
  advanced 1 1 self (snd (skip_channel self ch)).
Proof.
  split; [apply advanced_write_channel | apply advanced_skip_channel].
Qed.

(** X5. [write_channel] and [skip_channel] never return an empty message
    list: every outcome, failure or success, comes with at least one
    message. *)
Theorem write_channel_always_reports (self : Radio) (ch f bw ms : Z) (pi ps : string) :
  snd (fst (write_channel self ch f bw ms pi ps)) <> [] /\
  snd (fst (skip_channel self ch)) <> [].
Proof.
  split; [apply write_channel_messages |].
  unfold skip_channel. destruct (ch =? 1); [discriminate | apply write_channel_messages].
Qed.

Lemma endswith_append a b c :
  b <> "" -> Py.endswith_char (a +:+ b) c = Py.endswith_char b c.
Proof.
  intros Hb. induction a as [|x a IH]; [reflexivity |].
  rewrite PyFacts.append_cons.
  destruct (a +:+ b) eqn:E; [| exact IH].
  destruct a; [change ("" +:+ b) with b in E; congruence
             | rewrite PyFacts.append_cons in E; discriminate].
Qed.

Lemma skip_command_line ch v :
  wire_line (s_command ch v 0 1 "" "") =
  "S" +:+ Py.str ch +:+ "," +:+ Py.str v +:+ ",0,1,," +:+ String Py.nl "".
Proof.
  change (s_command ch v 0 1 "" "")
    with ("S" +:+ (Py.str ch +:+ ("," +:+ (Py.str v +:+ ",0,1,,")))).
  unfold wire_line.
  rewrite <- !append_assoc.
  rewrite endswith_append by discriminate.
  reflexivity.
Qed.

Lemma skip_channel_sends self s ch :
  serial_conn self = Some s -> is_open s = true -> tx_fault s = None ->
  ch <> 1 -> channel_in_range self ch -> 0 <= default 0 (skip_freq_value self) ->
  serial_conn (snd (skip_channel self ch)) =
  Some (mkSerial true (tx s ++ [skip_line (default 0 (skip_freq_value self)) ch])
                 (tl (rx s)) None).
Proof.
  intros Hs Ho Hx Hch Hr Hv.
  unfold skip_channel. apply Z.eqb_neq in Hch as Hch'. rewrite Hch'.
  set (v := default 0 (skip_freq_value self)) in *.
  set (a := _update_status self _).
  rewrite (CommsFacts.write_channel_sends a s ch v 0 1 "" "");
    try assumption; try lia; try tauto.
  now rewrite skip_command_line, Ho, Hx.
Qed.

(** X6. [skip_channel] refuses channel 1 without any effect. On an open,
    healthy port every other channel in range is skipped by writing the line
    [S<ch>,<v>,0,1,,] where [v] is the skip value reported by the device, or 0
    when none is known; a negative skip value is rejected by the frequency
    validation and nothing is written. *)
Theorem skip_channel_command (self : Radio) (ch : Z) :
  skip_channel self 1 = (false, ["Error: Channel 1 cannot be skipped."], self) /\
  (forall s,
     serial_conn self = Some s -> is_open s = true -> tx_fault s = None ->
     ch <> 1 -> channel_in_range self ch ->
     (0 <= default 0 (skip_freq_value self) ->
      serial_conn (snd (skip_channel self ch)) =
      Some (mkSerial true
              (tx s ++ ["S" +:+ Py.str ch +:+ "," +:+
                        Py.str (default 0 (skip_freq_value self)) +:+ ",0,1,," +:+
                        String Py.nl ""])
              (tl (rx s)) None)) /\
     (default 0 (skip_freq_value self) < 0 ->
      fst (skip_channel self ch) = (false, ["Invalid frequency (must be >= 0 kHz)."]) /\
      serial_conn (snd (skip_channel self ch)) = Some s)).
Proof.
  split; [reflexivity |].
  intros s Hs Ho Hx Hch Hr.
  split; [intros Hv; now apply skip_channel_sends |].
  unfold skip_channel. apply Z.eqb_neq in Hch as Hch'. rewrite Hch'.
  set (v := default 0 (skip_freq_value self)).
  set (a := _update_status self _).
  intros Hv. unfold write_channel.
  assert (connected a = true) as -> by (unfold connected; cbn; now rewrite Hs).
  apply CommsFacts.channel_check_iff in Hr.
  change (max_channels a) with (max_channels self). rewrite Hr.
  apply Z.ltb_lt in Hv. rewrite Hv. cbn. now rewrite Hs.
Qed.

Lemma skip_channel_command_witness :
  serial_conn (snd (skip_channel (known_radio (Some 20) (Some 500)) 7)) =
  Some (mkSerial true
          ["S" +:+ Py.str 7 +:+ "," +:+ Py.str 500 +:+ ",0,1,," +:+ String Py.nl ""]
          [] None).
Proof.
  assert (Hr : channel_in_range (known_radio (Some 20) (Some 500)) 7).
  { split; [lia |]. intros m [= <-] _. lia. }
  assert (Hc : 7 <> 1) by lia.
  assert (Hv : 0 <= default 0 (skip_freq_value (known_radio (Some 20) (Some 500))))
    by (cbn; lia).
  exact (proj1 (proj2 (skip_channel_command (known_radio (Some 20) (Some 500)) 7)
                  (port []) eq_refl eq_refl eq_refl Hc Hr) Hv).
Defined.

(** *** is_channel_skipped and the channel-1 guard *)

(** X7. A record that [is_channel_skipped] reports as skipped holds a
    frequency that [write_channel] treats as a skip frequency: writing it to
    channel 1 always fails and sends nothing. The converse does not hold: on a
    device whose skip value is not 0, a record holding frequency 0 is not
    reported as skipped, although the writer treats 0 as a skip frequency. *)
Theorem skipped_record_is_skip_frequency (self : Radio) (ch : Z) (d : ChannelData) :
  (is_channel_skipped self ch (Some d) = true ->
   exists f,
     freq_khz d = Some f /\ is_skip_freq (skip_freq_value self) f = true /\
     forall bw ms pi ps,
       fst (fst (write_channel self 1 f bw ms pi ps)) = false /\
       serial_conn (snd (write_channel self 1 f bw ms pi ps)) = serial_conn self) /\
  (forall v,
     skip_freq_value self = Some v -> v <> 0 -> freq_khz d = Some 0 ->
     is_skip_freq (skip_freq_value self) 0 = true /\
     is_channel_skipped self ch (Some d) = false).
Proof.
  split.
  - unfold is_channel_skipped.
    destruct (config self) as [cfg|]; [| discriminate].
    destruct (channels cfg); [discriminate |].
    destruct (freq_khz d) as [f|]; [| discriminate].
    intros H. exists f. split; [reflexivity |].
    assert (Hk : is_skip_freq (skip_freq_value self) f = true).
    { unfold is_skip_freq. destruct (skip_freq_value self); rewrite H;
        [apply orb_true_r | reflexivity]. }
    split; [exact Hk |]. intros bw ms pi ps.
    unfold write_channel. rewrite Hk, Z.eqb_refl. cbn [andb].
    destruct (negb (connected self)); [now split |].
    destruct (_ || _); [now split |].
    destruct (f <? 0); now split.
  - intros v Hv Hn Hf. rewrite Hv. split; [reflexivity |].
    unfold is_channel_skipped. rewrite Hf, Hv.
    destruct (config self) as [cfg|]; [| reflexivity].
    destruct (channels cfg); [reflexivity |].
    apply Z.eqb_neq. congruence.
Qed.

Lemma skipped_record_is_skip_frequency_witness :
  exists f,
    Some 500 = Some f /\
    fst (fst (write_channel (radio skipped_five) 1 f 0 1 "" "")) = false.
Proof.
  assert (E : is_channel_skipped (radio skipped_five) 5
                (Some (mkChannel (Some 5) (Some 500) (Some 0) (Some 1) None None)) = true)
    by (vm_compute; reflexivity).
  destruct (proj1 (skipped_record_is_skip_frequency (radio skipped_five) 5 _) E)
    as (f & Hf & _ & Hw).
  exists f. split; [exact Hf |]. exact (proj1 (Hw 0 1 "" "")).
Defined.

(** *** connect, disconnect *)

(** X8. [connect] on a session that is already connected only reports so and
    keeps the port and the cache. Otherwise the cached configuration, channel
    count and skip value are cleared whatever the outcome, the call succeeds
    exactly when the port could be opened and reset, and a failed attempt
    leaves the session without a port. *)
Theorem connect_resets_cache
        (self : Radio) (port_name : string) (baudrate : Z) (outcome : open_outcome) :
  (connected self = true ->
   connect self port_name baudrate outcome =
   (true, _update_status self "Already connected.")) /\
  (connected self = false ->
   cache_of None (snd (connect self port_name baudrate outcome)) /\
   (fst (connect self port_name baudrate outcome) = true <->
    exists port, outcome = Opened port) /\
   (forall port,
      outcome = Opened port ->
      serial_conn (snd (connect self port_name baudrate outcome)) = Some port) /\
   (fst (connect self port_name baudrate outcome) = false ->
    serial_conn (snd (connect self port_name baudrate outcome)) = None)).
Proof.
  unfold connect. split; intros ->; [reflexivity |].
  destruct outcome as [port | se e | se e]; cbn.
  - repeat split; eauto; try discriminate.
    + now intros p [= ->].
  - repeat split; try discriminate; try (intros (p & Hp); discriminate).
  - repeat split; try discriminate; try (intros (p & Hp); discriminate).
Qed.

Lemma connect_resets_cache_witness :
  cache_of None
    (snd (connect (mkRadio None (Some empty_config) (Some 20) (Some 500) [] [])
                  "COM3" 115200 (OpenFailed true "could not open port"))).
Proof.
  exact (proj1 (proj2 (connect_resets_cache
                         (mkRadio None (Some empty_config) (Some 20) (Some 500) [] [])
                         "COM3" 115200 (OpenFailed true "could not open port"))
                  eq_refl)).
Defined.

(** X9. After [disconnect], whether closing the port raised or not, the
    session has no port while the cached configuration, channel count and skip
    value are kept: [write_channel] fails with the not-connected error,
    [read_configuration] returns [None] and leaves the stale cache in place,
    and [is_channel_skipped] answers as before. *)
Theorem disconnect_keeps_cache (self : Radio) (close_error : option string) :
  serial_conn (disconnect self close_error) = None /\
  config (disconnect self close_error) = config self /\
  max_channels (disconnect self close_error) = max_channels self /\
  skip_freq_value (disconnect self close_error) = skip_freq_value self /\
  (forall ch f bw ms pi ps,
     write_channel (disconnect self close_error) ch f bw ms pi ps =
     (false, ["ERROR: Not connected."], disconnect self close_error)) /\
  fst (read_configuration (disconnect self close_error)) = None /\
  config (snd (read_configuration (disconnect self close_error))) = config self /\
  (forall ch d,
     is_channel_skipped (disconnect self close_error) ch d = is_channel_skipped self ch d).
Proof.
  assert (Hs : serial_conn (disconnect self close_error) = None) by reflexivity.
  assert (Hc : config (disconnect self close_error) = config self).
  { unfold disconnect. destruct (connected self); [destruct close_error |]; reflexivity. }
  assert (Hm : max_channels (disconnect self close_error) = max_channels self).
  { unfold disconnect. destruct (connected self); [destruct close_error |]; reflexivity. }
  assert (Hk : skip_freq_value (disconnect self close_error) = skip_freq_value self).
  { unfold disconnect. destruct (connected self); [destruct close_error |]; reflexivity. }
  set (a := disconnect self close_error) in *.
  split; [exact Hs |]. split; [exact Hc |]. split; [exact Hm |]. split; [exact Hk |].
  split; [| split; [| split]].
  - intros. unfold write_channel, connected. now rewrite Hs.
  - unfold read_configuration, _send_command. now rewrite Hs.
  - unfold read_configuration, _send_command. now rewrite Hs.
  - intros. unfold is_channel_skipped. now rewrite Hc, Hk.
Qed.

End ClientProperties.

(** ** Further properties of the configuration reader *)

Module ReaderProperties.
Import Comms Manager Spec Instances Tactics.

Lemma rd_log_all_invariant msgs : forall st,
  reader_invariant st -> reader_invariant (fold_left rd_log msgs st).
Proof.
  induction msgs as [|m msgs IH]; intros st H; [exact H |].
  apply IH. exact H.
Qed.

Lemma process_line_invariant st line :
  reader_invariant st -> reader_invariant (process_line st line).
Proof.
  intros (He & Hm & Hk). unfold process_line, reader_invariant.
  repeat match goal with
         | |- context [if ?b then _ else _] => destruct b
         | |- context [match ?x with _ => _ end] => destruct x
         end; cbn; repeat split; assumption || reflexivity.
Qed.

Lemma process_line_counted st line : lines_read (process_line st line) <> 0%nat.
Proof.
  unfold process_line.
  repeat match goal with
         | |- context [if ?b then _ else _] => destruct b
         | |- context [match ?x with _ => _ end] => destruct x
         end; cbn; discriminate.
Qed.

Lemma rd_log_all_fields msgs : forall st,
  lines_read (fold_left rd_log msgs st) = lines_read st /\
  rd_max_channels (fold_left rd_log msgs st) = rd_max_channels st /\
  rd_skip_freq_value (fold_left rd_log msgs st) = rd_skip_freq_value st.
Proof.
  induction msgs as [|m msgs IH]; intros st; [now repeat split |].
  cbn [fold_left]. destruct (IH (rd_log st m)) as (-> & -> & ->). now repeat split.
Qed.

Lemma on_timeout_some st st' :
  on_timeout st = Some st' -> reader_invariant st -> reader_invariant st'.
Proof.
  unfold on_timeout. intros H Hi.
  destruct (expected_channels st) as [n|].
  - destruct (_ <? n); [injection H as <-; exact Hi |].
    destruct (Nat.eqb _ 0); [discriminate | injection H as <-; exact Hi].
  - destruct (Nat.eqb _ 0); [discriminate | injection H as <-; exact Hi].
Qed.

Lemma on_timeout_none st :
  on_timeout st = None -> lines_read st = 0%nat.
Proof.
  unfold on_timeout.
  destruct (expected_channels st) as [n|].
  - destruct (_ <? n); [discriminate |].
    destruct (Nat.eqb_spec (lines_read st) 0); [auto | discriminate].
  - destruct (Nat.eqb_spec (lines_read st) 0); [auto | discriminate].
Qed.

(** The loop keeps the attributes in step with the configuration; when it
    fails, no line was seen and the attributes are as they were on entry. *)
Lemma read_loop_invariant pending : forall st res stf rest,
  read_loop pending st = (res, stf, rest) ->
  reader_invariant st ->
  (lines_read st = 0%nat -> rd_max_channels st = None /\ rd_skip_freq_value st = None) ->
  match res with
  | Some st' => reader_invariant st'
  | None => rd_max_channels stf = None /\ rd_skip_freq_value stf = None
  end.
Proof.
  induction pending as [|ev pending IH]; intros st res stf rest H Hi Hz.
  - cbn in H. injection H as <- <- <-.
    destruct (on_timeout st) eqn:E; [eapply on_timeout_some; eassumption |].
    apply Hz, on_timeout_none, E.
  - cbn [read_loop] in H.
    destruct (decode_rx ev) as [[line|] msgs].
    + destruct (completed (process_line st line)).
      * destruct pending as [|ev' rest'].
        -- injection H as <- <- <-. now apply process_line_invariant.
        -- injection H as <- <- <-.
           now apply rd_log_all_invariant, process_line_invariant.
      * apply (IH _ _ _ _ H); [now apply process_line_invariant |].
        intros Hl. now apply process_line_counted in Hl.
    + injection H as <- <- <-.
      destruct (rd_log_all_fields msgs st) as (El & Em & Ek).
      destruct (on_timeout _) eqn:E.
      * eapply on_timeout_some; [exact E |]. now apply rd_log_all_invariant.
      * apply on_timeout_none in E. rewrite El in E.
        rewrite Em, Ek. now apply Hz.
Qed.

Lemma read_loop_rest pending : forall st res stf rest,
  read_loop pending st = (res, stf, rest) ->
  exists consumed, pending = consumed ++ rest.
Proof.
  induction pending as [|ev pending IH]; intros st res stf rest H.
  - cbn in H. injection H as <- <- <-. now exists [].
  - cbn [read_loop] in H.
    destruct (decode_rx ev) as [[line|] msgs].
    + destruct (completed (process_line st line)).
      * destruct pending as [|ev' rest'].
        -- injection H as <- <- <-. now exists [ev].
        -- injection H as <- <- <-. now exists [ev; ev'].
      * destruct (IH _ _ _ _ H) as (c & ->). now exists (ev :: c).
    + injection H as <- <- <-. now exists [ev].
Qed.

(** X10. When the command [s] could be sent, [read_configuration] leaves the
    cache in step with what it returns: the cached configuration is the
    returned one, and the cached channel count and skip value are its
    [memory_positions] and [skip_frequency_value], all three being unset when
    the read failed. When the command could not be sent, the result is [None]
    and the previously cached values and the port are left as they were. *)
Theorem read_configuration_cache (self : Radio) :
  (fst (_send_command self "s") = true ->
   cache_of (fst (read_configuration self)) (snd (read_configuration self))) /\
  (fst (_send_command self "s") = false ->
   fst (read_configuration self) = None /\
   config (snd (read_configuration self)) = config self /\
   max_channels (snd (read_configuration self)) = max_channels self /\
   skip_freq_value (snd (read_configuration self)) = skip_freq_value self /\
   serial_conn (snd (read_configuration self)) = serial_conn self).
Proof.
  unfold read_configuration.
  destruct (ClientProperties.send_command_result self "s")
    as [(s & Hs & Ho & Hx & ->) | (msg & ->)]; cbn [fst snd negb].
  - split; [intros _ | discriminate].
    cbn [serial_conn set_serial rx].
    destruct (read_loop _ _) as [[res stf] rest] eqn:E.
    apply read_loop_invariant in E; [| now repeat split | now split].
    destruct res as [st|]; cbn [fst snd]; unfold cache_of; cbn.
    + destruct E as (_ & -> & ->). now repeat split.
    + destruct E as (-> & ->). now repeat split.
  - split; [discriminate | intros _]. now repeat split.
Qed.

Lemma read_configuration_cache_witness :
  cache_of (Some partial_config) (snd (read_configuration (connected_radio partial_rows))).
Proof.
  assert (E : fst (_send_command (connected_radio partial_rows) "s") = true)
    by reflexivity.
  assert (R : fst (read_configuration (connected_radio partial_rows)) = Some partial_config)
    by (vm_compute; reflexivity).
  rewrite <- R.
  exact (proj1 (read_configuration_cache (connected_radio partial_rows)) E).
Defined.


Lemma rd_log_all_status msgs : forall st,
  rd_status (fold_left rd_log msgs st) = rd_status st ++ msgs.
Proof.
  induction msgs as [|m msgs IH]; intros st; [now rewrite app_nil_r |].
  cbn [fold_left]. rewrite IH. cbn. now rewrite <- app_assoc.
Qed.

Lemma process_line_status st line :
  exists more, rd_status (process_line st line) = rd_status st ++ more.
Proof.
  unfold process_line.
  repeat match goal with
         | |- context [if ?b then _ else _] => destruct b
         | |- context [match ?x with _ => _ end] => destruct x
         end; cbn; first [now eexists | exists []; now rewrite app_nil_r].
Qed.

Lemma on_timeout_status st st' :
  on_timeout st = Some st' -> exists more, rd_status st' = rd_status st ++ more.
Proof.
  unfold on_timeout. intros H.
  destruct (expected_channels st) as [n|].
  - destruct (_ <? n); [injection H as <-; cbn; now eexists |].
    destruct (Nat.eqb _ 0); [discriminate |].
    injection H as <-. exists []. now rewrite app_nil_r.
  - destruct (Nat.eqb _ 0); [discriminate |].
    injection H as <-. exists []. now rewrite app_nil_r.
Qed.

Lemma read_loop_status pending : forall st res stf rest,
  read_loop pending st = (res, stf, rest) ->
  (exists more, rd_status stf = rd_status st ++ more) /\
  (forall st', res = Some st' -> exists more, rd_status st' = rd_status st ++ more).
Proof.
  induction pending as [|ev pending IH]; intros st res stf rest H.
  - cbn in H. injection H as <- <- <-. split.
    + exists []. now rewrite app_nil_r.
    + intros st'. apply on_timeout_status.
  - cbn [read_loop] in H.
    destruct (decode_rx ev) as [[line|] msgs].
    + destruct (process_line_status st line) as (m1 & E1).
      destruct (completed (process_line st line)).
      * destruct pending as [|ev' rest'].
        -- injection H as <- <- <-. split; [now exists m1 |].
           intros st' [= <-]. now exists m1.
        -- injection H as <- <- <-. rewrite rd_log_all_status, E1, <- app_assoc.
           split; [now eexists |]. intros st' [= <-].
           rewrite rd_log_all_status, E1, <- app_assoc. now eexists.
      * destruct (IH _ _ _ _ H) as ((m2 & E2) & H3). split.
        -- exists (m1 ++ m2). now rewrite E2, E1, <- app_assoc.
        -- intros st' Hr. destruct (H3 _ Hr) as (m3 & E3).
           exists (m1 ++ m3). now rewrite E3, E1, <- app_assoc.
    + injection H as <- <- <-. rewrite rd_log_all_status. split; [now eexists |].
      intros st' Hr. apply on_timeout_status in Hr as (m & ->).
      rewrite rd_log_all_status, <- app_assoc. now eexists.
Qed.

(** X11. On an open, healthy port [read_configuration] writes the one line
    [s] and nothing else, consumes a prefix of what the device sends, leaving
    the rest pending, and only appends to the status log, first the
    announcement of the read. *)
Theorem read_configuration_footprint (self : Radio) (s : Serial) :
  serial_conn self = Some s -> is_open s = true -> tx_fault s = None ->
  exists consumed rest more,
    rx s = consumed ++ rest /\
    serial_conn (snd (read_configuration self)) =
      Some (mkSerial true (tx s ++ [String "s" (String Py.nl "")]) rest None) /\
    status_log (snd (read_configuration self)) =
      status_log self ++ "Reading configuration from radio..." :: more.
Proof.
  intros Hs Ho Hx. unfold read_configuration.
  rewrite (CommsFacts.send_s self s Hs Ho Hx). cbn [negb serial_conn set_serial rx].
  destruct (read_loop _ _) as [[res stf] rest] eqn:E.
  destruct (read_loop_rest _ _ _ _ _ E) as (consumed & Hc).
  destruct (read_loop_status _ _ _ _ _ E) as ((m1 & E1) & H2).
  cbn [initial_read_state rd_status set_serial status_log] in E1, H2.
  exists consumed, rest.
  destruct res as [st|]; cbn [snd serial_conn status_log is_open tx tx_fault].
  - destruct (H2 _ eq_refl) as (m2 & ->).
    eexists. split; [exact Hc |]. split; [reflexivity |].
    rewrite <- !app_assoc. reflexivity.
  - rewrite E1. eexists. split; [exact Hc |]. split; [reflexivity |].
    rewrite <- !app_assoc. reflexivity.
Qed.

Lemma read_configuration_footprint_witness :
  exists consumed rest more,
    map RxBytes partial_rows = consumed ++ rest /\
    serial_conn (snd (read_configuration (connected_radio partial_rows))) =
      Some (mkSerial true [String "s" (String Py.nl "")] rest None) /\
    status_log (snd (read_configuration (connected_radio partial_rows))) =
      "Reading configuration from radio..." :: more.
Proof.
  exact (read_configuration_footprint (connected_radio partial_rows) (port partial_rows)
           eq_refl eq_refl eq_refl).
Defined.

(** *** Channel rows as the device sends them *)

Lemma split_field a r :
  no_comma a = true -> Py.split "," (a +:+ "," +:+ r) = a :: Py.split "," r.
Proof.
  change ("," +:+ r) with (String "," r).
  induction a as [|x a IH]; intros H; [reflexivity |].
  cbn in H. apply andb_true_iff in H as [Hx Ha].
  rewrite PyFacts.append_cons. cbn [Py.split].
  apply negb_true_iff in Hx. rewrite Hx, (IH Ha). reflexivity.
Qed.

Lemma split_plain a : no_comma a = true -> Py.split "," a = [a].
Proof.
  induction a as [|x a IH]; intros H; [reflexivity |].
  cbn in H. apply andb_true_iff in H as [Hx Ha].
  cbn [Py.split]. apply negb_true_iff in Hx. rewrite Hx, (IH Ha). reflexivity.
Qed.

Lemma digit_not_comma c : Py.is_digit c = true -> Ascii.eqb c "," = false.
Proof. ascii_cases c. Qed.

Lemma digits_no_comma s : Py.all_digits s = true -> no_comma s = true.
Proof.
  induction s as [|c s IH]; [reflexivity |]. cbn.
  intros H. apply andb_true_iff in H as [Hc Hs].
  now rewrite (digit_not_comma _ Hc), IH.
Qed.

Lemma str_no_comma n : no_comma (Py.str n) = true.
Proof.
  destruct n as [|p|p].
  - reflexivity.
  - rewrite PyFacts.str_pos. apply digits_no_comma, PyFacts.all_digits_of_uint.
  - rewrite PyFacts.str_neg. cbn.
    apply digits_no_comma, PyFacts.all_digits_of_uint.
Qed.

(** A text that does not begin like one of the seven header lines. *)
Lemma no_header_prefix a r :
  Py.is_digit a = true \/ a = "-"%char ->
  Py.startswith (String a r) "r:" = false /\ Py.startswith (String a r) "v:" = false /\
  Py.startswith (String a r) "m:" = false /\ Py.startswith (String a r) "s:" = false /\
  Py.startswith (String a r) "o:" = false /\ Py.startswith (String a r) "a:" = false /\
  Py.startswith (String a r) "f:" = false.
Proof.
  intros [H | ->]; [| now repeat split].
  destruct a as [[] [] [] [] [] [] [] []]; try discriminate H; now repeat split.
Qed.

Lemma str_head n :
  exists a r, Py.str n = String a r /\ (Py.is_digit a = true \/ a = "-"%char) /\
              Py.is_space a = false.
Proof.
  destruct n as [|p|p].
  - exists "0"%char, "". split; [reflexivity |]. split; [now left | reflexivity].
  - rewrite PyFacts.str_pos.
    pose proof (PyFacts.all_digits_of_uint (Pos.to_uint p)) as Hd.
    assert (Hn : NilEmpty.string_of_uint (Pos.to_uint p) <> "").
    { pose proof (PyFacts.str_nonempty (Zpos p)) as Hn. now rewrite PyFacts.str_pos in Hn. }
    destruct (NilEmpty.string_of_uint (Pos.to_uint p)) as [|a r]; [congruence |].
    cbn in Hd. apply andb_true_iff in Hd as [Ha _].
    exists a, r. split; [reflexivity |].
    split; [now left | now apply PyFacts.digit_not_space].
  - rewrite PyFacts.str_neg. exists "-"%char. eexists.
    split; [reflexivity |]. split; [now right | reflexivity].
Qed.

Lemma rstrip_append_nl s : Py.rstrip (s +:+ String Py.nl "") = Py.rstrip s.
Proof.
  induction s as [|c s IH]; [reflexivity |].
  rewrite PyFacts.append_cons. cbn [Py.rstrip]. now rewrite IH.
Qed.

Lemma append_nonempty a b : b <> "" -> a +:+ b <> "".
Proof.
  destruct a; [now change ("" +:+ b) with b | rewrite PyFacts.append_cons; discriminate].
Qed.

Lemma rstrip_append a b :
  Py.rstrip b = b -> b <> "" -> Py.rstrip (a +:+ b) = a +:+ b.
Proof.
  intros Hb Hn. induction a as [|x a IH]; [exact Hb |].
  rewrite PyFacts.append_cons. cbn [Py.rstrip]. rewrite IH.
  pose proof (append_nonempty a b Hn).
  destruct (a +:+ b); [congruence | reflexivity].
Qed.

Lemma rstrip_after_comma t : Py.rstrip t = t -> Py.rstrip (String "," t) = String "," t.
Proof.
  intros H. cbn [Py.rstrip]. rewrite H. now destruct t.
Qed.

Lemma device_row_fields c :
  device_row c ->
  exists ch f bw ms,
    c = mkChannel (Some ch) (Some f) (Some bw) (Some ms) (pi c) (ps c) /\
    dump_line c =
    Py.str ch +:+ "," +:+ Py.str f +:+ "," +:+ Py.str bw +:+ "," +:+ Py.str ms +:+ "," +:+
    Py.or_empty (pi c) +:+ "," +:+ Py.or_empty (ps c).
Proof.
  intros ((ch & f & bw & ms & H1 & H2 & H3 & H4) & _).
  exists ch, f, bw, ms. unfold dump_line. rewrite H1, H2, H3, H4.
  split; [| reflexivity].
  destruct c; cbn in *. congruence.
Qed.

Lemma strip_received_row c :
  device_row c -> Py.strip (dump_line c +:+ String Py.nl "") = dump_line c.
Proof.
  intros Hc. destruct (device_row_fields c Hc) as (ch & f & bw & ms & _ & ->).
  destruct Hc as (_ & _ & _ & _ & _ & _ & Hps).
  destruct (str_head ch) as (a & r & -> & _ & Ha).
  set (p := Py.or_empty (pi c)). set (t := Py.or_empty (ps c)) in *.
  unfold Py.strip.
  rewrite !PyFacts.append_cons. cbn [Py.lstrip]. rewrite Ha.
  rewrite <- !PyFacts.append_cons, rstrip_append_nl.
  assert (E : String a r +:+ "," +:+ Py.str f +:+ "," +:+ Py.str bw +:+ "," +:+
              Py.str ms +:+ "," +:+ p +:+ "," +:+ t =
              (String a r +:+ "," +:+ Py.str f +:+ "," +:+ Py.str bw +:+ "," +:+
               Py.str ms +:+ "," +:+ p) +:+ String "," t).
  { rewrite !ClientProperties.append_assoc. reflexivity. }
  rewrite E. apply rstrip_append; [| discriminate].
  now apply rstrip_after_comma.
Qed.

Lemma dump_line_fields c ch f bw ms :
  device_row c ->
  c = mkChannel (Some ch) (Some f) (Some bw) (Some ms) (pi c) (ps c) ->
  Py.split "," (dump_line c) =
  [Py.str ch; Py.str f; Py.str bw; Py.str ms; Py.or_empty (pi c); Py.or_empty (ps c)].
Proof.
  intros Hc E. destruct (device_row_fields c Hc) as (ch' & f' & bw' & ms' & E' & ->).
  rewrite E in E' at 1. injection E' as <- <- <- <-.
  destruct Hc as (_ & _ & _ & _ & Hpi & Hps & _).
  rewrite !split_field, split_plain by (assumption || apply str_no_comma).
  reflexivity.
Qed.

Lemma parse_device_row c ch f bw ms :
  device_row c ->
  c = mkChannel (Some ch) (Some f) (Some bw) (Some ms) (pi c) (ps c) ->
  parse_channel_fields (Py.str ch) (Py.str f) (Py.str bw) (Py.str ms)
                       (Py.or_empty (pi c)) (Py.or_empty (ps c)) = Some c.
Proof.
  intros (_ & Hpi & Hps & _) E. unfold parse_channel_fields.
  rewrite !PyFacts.int_str. rewrite E at 3. f_equal.
  destruct c as [? ? ? ? [[|]|] [[|]|]]; cbn in *; congruence.
Qed.

(** What the loop body does with the line of a device row: the record is
    appended and the progress reported, nothing else changes. *)
Lemma process_line_row st c :
  device_row c ->
  process_line st (dump_line c) =
  mkRead (append_channel (config_data st) c) (S (lines_read st)) (expected_channels st)
         (rd_max_channels st) (rd_skip_freq_value st) (rd_status st)
         (if Py.truthy (expected_channels st)
          then rd_progress st ++
                 [(Z.of_nat (length (channels (append_channel (config_data st) c))),
                   default 0 (expected_channels st))]
          else rd_progress st).
Proof.
  intros Hc. destruct (device_row_fields c Hc) as (ch & f & bw & ms & E & El).
  pose proof (dump_line_fields c ch f bw ms Hc E) as Hsplit.
  pose proof (parse_device_row c ch f bw ms Hc E) as Hparse.
  assert (Hp : exists a r, dump_line c = String a r /\
                           (Py.is_digit a = true \/ a = "-"%char)).
  { rewrite El. destruct (str_head ch) as (a & r & -> & Ha & _).
    rewrite PyFacts.append_cons. eauto. }
  destruct Hp as (a & r & Hl & Ha).
  destruct (no_header_prefix a r Ha) as (P1 & P2 & P3 & P4 & P5 & P6 & P7).
  rewrite <- Hl in P1, P2, P3, P4, P5, P6, P7.
  unfold process_line.
  rewrite P1, P2, P3, P4, P5, P6, P7, Hsplit, Hparse. reflexivity.
Qed.

Lemma read_loop_rows rows : forall st rest,
  rows <> [] -> Forall device_row rows ->
  expected_channels st =
    Some (Z.of_nat (length (channels (config_data st)) + length rows)) ->
  exists st',
    read_loop (map (fun c => received (dump_line c)) rows ++ rest) st =
      (Some st', st', tl rest) /\
    config_data st' = with_channels (config_data st) (channels (config_data st) ++ rows).
Proof.
  induction rows as [|c rows IH]; intros st rest Hne Hall He; [congruence |].
  apply Forall_cons in Hall as [Hc Hall].
  cbn [map app read_loop]. unfold received at 1.
  rewrite CommsFacts.decode_rx_bytes
    by (apply append_nonempty; discriminate).
  rewrite (strip_received_row c Hc), (process_line_row st c Hc).
  set (st1 := mkRead _ _ _ _ _ _ _).
  assert (L1 : length (channels (config_data st1)) =
               S (length (channels (config_data st)))).
  { cbn. rewrite length_app. cbn. lia. }
  unfold completed. change (expected_channels st1) with (expected_channels st).
  rewrite He, L1.
  destruct rows as [|c' rows].
  - replace (_ <=? _) with true by (symmetry; apply Z.leb_le; cbn; lia).
    cbn [map app].
    assert (Hcfg : config_data st1 =
                   with_channels (config_data st) (channels (config_data st) ++ [c]))
      by reflexivity.
    destruct rest as [|ev rest].
    + exists st1. now split.
    + eexists. split; [reflexivity |].
      now rewrite (proj1 (CommsFacts.rd_log_all_config _ _)).
  - replace (_ <=? _) with false by (symmetry; apply Z.leb_gt; cbn [length]; lia).
    destruct (IH st1 rest) as (st' & E & Hcfg); [discriminate | exact Hall | |].
    + change (expected_channels st1) with (expected_channels st).
      rewrite He, L1. f_equal. cbn [length]. lia.
    + exists st'. split; [exact E |]. rewrite Hcfg. cbn.
      now rewrite <- app_assoc.
Qed.

(** X12. A complete dump of ASCII text is read back exactly. When the device
    sends ASCII header lines that announce [n] channels, followed by the lines
    of [n] channel records whose PI and PS are printable ASCII,
    [read_configuration] returns and caches the configuration of the header
    with exactly those records, in the order sent; it consumes the dump and
    one further read, and writes only the command [s]. *)
Theorem read_configuration_dump
        (self : Radio) (s : Serial) (raws : list string) (rows : list ChannelData)
        (rest : list rx_event) (st0 : ReadState) :
  serial_conn self = Some s -> is_open s = true -> tx_fault s = None ->
  rx s = map RxBytes raws ++ map (fun c => received (dump_line c)) rows ++ rest ->
  Forall (fun raw => raw <> "") raws ->
  Forall (fun raw => Py.isascii raw = true) raws ->
  feed (initial_read_state self) (map Py.strip raws) = Some st0 ->
  channels (config_data st0) = [] ->
  expected_channels st0 = Some (Z.of_nat (length rows)) ->
  Forall device_row rows ->
  fst (read_configuration self) = Some (with_channels (config_data st0) rows) /\
  config (snd (read_configuration self)) = Some (with_channels (config_data st0) rows) /\
  serial_conn (snd (read_configuration self)) =
    Some (mkSerial true (tx s ++ [String "s" (String Py.nl "")]) (tl rest) None).
Proof.
  intros Hs Ho Hx Hrx Hraw _ Hfeed Hch He Hrows.
  assert (Hne : rows <> []).
  { intros ->. destruct raws as [|raw raws].
    - cbn in Hfeed. injection Hfeed as <-. discriminate.
    - apply CommsFacts.feed_not_completed in Hfeed; [| discriminate].
      unfold completed in Hfeed. rewrite He, Hch in Hfeed. discriminate. }
  unfold read_configuration.
  rewrite (CommsFacts.send_s self s Hs Ho Hx). cbn [negb serial_conn set_serial rx].
  rewrite Hrx.
  rewrite (CommsFacts.read_loop_feed raws _ _ st0 Hraw Hfeed).
  destruct (read_loop_rows rows st0 rest Hne Hrows) as (st' & -> & Hcfg).
  { now rewrite He, Hch. }
  rewrite Hch in Hcfg. cbn [app] in Hcfg.
  cbn [fst snd config serial_conn is_open tx tx_fault]. rewrite Hcfg.
  now repeat split.
Qed.

Lemma read_configuration_dump_witness :
  fst (read_configuration dump_two_radio) =
  Some (with_channels header_two_config station_rows).
Proof.
  assert (Hraw : Forall (fun raw => raw <> "")
                        (map (fun l => l +:+ String Py.nl "") header_two))
    by (repeat constructor; discriminate).
  assert (Hasc : Forall (fun raw => Py.isascii raw = true)
                        (map (fun l => l +:+ String Py.nl "") header_two))
    by (repeat constructor).
  assert (Hfeed : feed (initial_read_state dump_two_radio)
                       (map Py.strip (map (fun l => l +:+ String Py.nl "") header_two)) =
                  Some header_two_state)
    by (vm_compute; reflexivity).
  assert (Hrows : Forall device_row station_rows).
  { repeat constructor; try discriminate; cbn; eauto 10. }
  assert (Hrx : dump_two =
                map RxBytes (map (fun l => l +:+ String Py.nl "") header_two) ++
                map (fun c => received (dump_line c)) station_rows ++ [])
    by reflexivity.
  exact (proj1 (read_configuration_dump dump_two_radio dump_two_port _ station_rows []
                  header_two_state eq_refl eq_refl eq_refl Hrx Hraw Hasc Hfeed
                  eq_refl eq_refl Hrows)).
Defined.

End ReaderProperties.

(** ** Further properties of the application workers *)

Module ManagerProperties.
Import Comms Manager Spec Instances Tactics.

(** *** _get_band_from_freq *)

Lemma in_range_iff range f : in_range range f = true <-> within range f.
Proof.
  unfold in_range, within. destruct range as [[lo hi]|].
  - rewrite andb_true_iff, !Z.leb_le. split.
    + intros H. now exists lo, hi.
    + now intros (lo' & hi' & [= <- <-] & H).
  - split; [discriminate | now intros (lo & hi & H & _)].
Qed.

Lemma in_range_not range f : in_range range f = false <-> ~ within range f.
Proof.
  rewrite <- in_range_iff. now destruct (in_range range f).
Qed.

(** X13. The band shown for a frequency is ["AM"] exactly when the frequency
    is positive, is not the skip value of the radio and lies in the AM range
    of the loaded configuration, and ["FM"] exactly when it is positive, not
    the skip value, outside the AM range and inside the FM range; every other
    frequency, and an absent one, is ["Unknown"]. *)
Theorem band_classification
        (radio : option Radio) (radio_config : option ConfigData) (f : Z) :
  (_get_band_from_freq radio radio_config (Some f) = "AM" <->
   0 < f /\ ~ device_skip_value radio f /\
   exists cfg, radio_config = Some cfg /\ within (am_range_khz cfg) f) /\
  (_get_band_from_freq radio radio_config (Some f) = "FM" <->
   0 < f /\ ~ device_skip_value radio f /\
   exists cfg, radio_config = Some cfg /\
               ~ within (am_range_khz cfg) f /\ within (fm_range_khz cfg) f) /\
  (_get_band_from_freq radio radio_config (Some f) = "AM" \/
   _get_band_from_freq radio radio_config (Some f) = "FM" \/
   _get_band_from_freq radio radio_config (Some f) = "Unknown") /\
  _get_band_from_freq radio radio_config None = "Unknown".
Proof.
  unfold _get_band_from_freq.
  destruct (Z.leb_spec f 0) as [Hf | Hf]; [band_close |].
  set (k := match radio with Some r => _ | None => false end).
  assert (Hk : k = true <-> device_skip_value radio f).
  { unfold k, device_skip_value. destruct radio as [r|].
    - destruct (skip_freq_value r) as [v|] eqn:Ev.
      + rewrite Z.eqb_eq. split.
        * intros ->. now exists r.
        * intros (r' & [= <-] & E). congruence.
      + split; [discriminate | intros (r' & [= <-] & E); congruence].
    - split; [discriminate | now intros (r' & E & _)]. }
  destruct k.
  { assert (device_skip_value radio f) by now apply Hk. band_close. }
  assert (Hn : ~ device_skip_value radio f) by (rewrite <- Hk; discriminate).
  destruct radio_config as [cfg|]; [| band_close].
  destruct (in_range (am_range_khz cfg) f) eqn:Ea.
  { apply in_range_iff in Ea. band_close. now exists cfg. }
  apply in_range_not in Ea.
  destruct (in_range (fm_range_khz cfg) f) eqn:Eb.
  { apply in_range_iff in Eb. band_close. now exists cfg. }
  apply in_range_not in Eb. band_close.
Qed.

Lemma band_classification_witness :
  _get_band_from_freq None (Some header_two_config) (Some 98100) = "FM".
Proof.
  apply (proj2 (proj1 (proj2 (band_classification None (Some header_two_config) 98100)))).
  split; [lia |]. split; [now intros (r & E & _) |].
  exists header_two_config. split; [reflexivity |]. split.
  - intros (lo & hi & [= <- <-] & H). lia.
  - exists 65000, 108000. split; [reflexivity | lia].
Defined.

(** X14. The band shown by the write dialog is the band of the main window
    computed without a radio, that is without the skip-value check, on the
    configuration cached by the radio: the two agree on every frequency that
    is not the skip value, and at the skip value the main window answers
    ["Unknown"]. *)
Theorem band_of_dialog (r : Radio) (freq_khz : option Z) :
  dialog_get_band_from_freq (Some r) freq_khz =
    _get_band_from_freq None (config r) freq_khz /\
  (freq_khz <> None -> skip_freq_value r <> freq_khz ->
   dialog_get_band_from_freq (Some r) freq_khz =
   _get_band_from_freq (Some r) (config r) freq_khz) /\
  (freq_khz <> None -> skip_freq_value r = freq_khz ->
   forall radio_config, _get_band_from_freq (Some r) radio_config freq_khz = "Unknown").
Proof.
  split; [| split].
  - unfold dialog_get_band_from_freq, _get_band_from_freq.
    destruct freq_khz as [f|]; [| reflexivity]. reflexivity.
  - intros _ Hk. unfold dialog_get_band_from_freq, _get_band_from_freq.
    destruct freq_khz as [f|]; [| reflexivity].
    destruct (skip_freq_value r) as [v|]; [| reflexivity].
    destruct (Z.eqb_spec f v) as [-> | _]; [congruence | reflexivity].
  - intros Hf Hk radio_config. unfold _get_band_from_freq.
    destruct freq_khz as [f|]; [| congruence].
    rewrite Hk, Z.eqb_refl. now destruct (f <=? 0).
Qed.

Lemma band_of_dialog_witness :
  dialog_get_band_from_freq (Some (radio two_stations)) (Some 87500) =
  _get_band_from_freq (Some (radio two_stations)) (config (radio two_stations)) (Some 87500).
Proof.
  assert (H1 : Some 87500 <> None) by discriminate.
  assert (H2 : skip_freq_value (radio two_stations) <> Some 87500)
    by (vm_compute; discriminate).
  exact (proj1 (proj2 (band_of_dialog (radio two_stations) (Some 87500))) H1 H2).
Defined.

(** *** _export_csv_worker *)

Lemma key_le_iff a b : key_le (channel a) (channel b) = true <-> channel_le a b.
Proof.
  unfold key_le, channel_le.
  destruct (channel a), (channel b); rewrite ?Z.leb_le; intuition discriminate.
Qed.

Lemma channel_le_total a b : channel_le a b \/ channel_le b a.
Proof.
  unfold channel_le. destruct (channel a), (channel b); auto. lia.
Qed.

Lemma channel_le_trans a b c : channel_le a b -> channel_le b c -> channel_le a c.
Proof.
  unfold channel_le. destruct (channel a), (channel b), (channel c); auto; try tauto. lia.
Qed.

Lemma insert_sorted_perm x l : Permutation (insert_sorted x l) (x :: l).
Proof.
  induction l as [|y l IH]; [reflexivity |]. cbn.
  destruct (key_le (channel x) (channel y)); [reflexivity |].
  rewrite IH. apply perm_swap.
Qed.

Lemma sorted_perm l : Permutation (sorted l) l.
Proof.
  induction l as [|x l IH]; [reflexivity |].
  change (sorted (x :: l)) with (insert_sorted x (sorted l)).
  now rewrite insert_sorted_perm, IH.
Qed.

Lemma insert_sorted_sorted x l :
  StronglySorted channel_le l -> StronglySorted channel_le (insert_sorted x l).
Proof.
  induction l as [|y l IH]; intros H; [repeat constructor |].
  apply StronglySorted_inv in H as [Hl Hy]. cbn.
  destruct (key_le (channel x) (channel y)) eqn:E.
  - apply key_le_iff in E. constructor; [now constructor |].
    constructor; [exact E |].
    eapply Forall_impl; [exact Hy |]. intros z. now apply channel_le_trans.
  - constructor; [now apply IH |].
    assert (Hyx : channel_le y x).
    { destruct (channel_le_total x y) as [H | H]; [| exact H].
      apply key_le_iff in H. congruence. }
    apply List.Forall_forall. intros z Hz.
    apply ManagerFacts.in_insert_sorted in Hz as [-> | Hz]; [exact Hyx |].
    rewrite List.Forall_forall in Hy. now apply Hy.
Qed.

Lemma sorted_sorted l : StronglySorted channel_le (sorted l).
Proof.
  induction l as [|x l IH]; [constructor |].
  change (sorted (x :: l)) with (insert_sorted x (sorted l)).
  now apply insert_sorted_sorted.
Qed.

Lemma filter_insert_sorted k x l :
  List.filter (fun c => bool_decide (channel c = k)) (insert_sorted x l) =
  List.filter (fun c => bool_decide (channel c = k)) (x :: l).
Proof.
  induction l as [|y l IH]; [reflexivity |]. cbn [insert_sorted].
  destruct (key_le (channel x) (channel y)) eqn:E; [reflexivity |].
  cbn [List.filter] in *. rewrite IH.
  case_bool_decide as Hx; [| reflexivity].
  case_bool_decide as Hy; [| reflexivity].
  exfalso. assert (channel_le x y) as Hle.
  { unfold channel_le. rewrite Hx, Hy. destruct k; [lia | exact I]. }
  apply key_le_iff in Hle. congruence.
Qed.

Lemma sorted_stable k l :
  List.filter (fun c => bool_decide (channel c = k)) (sorted l) =
  List.filter (fun c => bool_decide (channel c = k)) l.
Proof.
  induction l as [|x l IH]; [reflexivity |].
  change (sorted (x :: l)) with (insert_sorted x (sorted l)).
  rewrite filter_insert_sorted. cbn [List.filter]. now rewrite IH.
Qed.

(** X15. The exported file holds, after the header, one row for every channel
    record of the loaded configuration and no other row, in ascending order
    of channel number (records without a channel number last); records with
    the same channel number keep the order they had in the configuration; the
    count handed back is the number of records. *)
Theorem export_order (self : App) (cfg : ConfigData) :
  radio_config self = Some cfg ->
  exists ordered,
    _export_csv_worker self =
      (Some (CSV_HEADER :: map export_row ordered), length (channels cfg), None) /\
    Permutation ordered (channels cfg) /\
    StronglySorted channel_le ordered /\
    forall k,
      List.filter (fun c => bool_decide (channel c = k)) ordered =
      List.filter (fun c => bool_decide (channel c = k)) (channels cfg).
Proof.
  intros H. exists (sorted (channels cfg)).
  unfold _export_csv_worker. rewrite H.
  rewrite (Permutation_length (sorted_perm (channels cfg))).
  split; [reflexivity |]. split; [apply sorted_perm |].
  split; [apply sorted_sorted | intros k; apply sorted_stable].
Qed.

Lemma export_order_witness :
  exists ordered,
    _export_csv_worker repeated_two =
      (Some (CSV_HEADER :: map export_row ordered), 2%nat, None) /\
    StronglySorted channel_le ordered.
Proof.
  assert (E : radio_config repeated_two =
              Some (mkConfig None None (Some 2) None None None None
                      [ mkChannel (Some 2) (Some 87500) (Some 0) (Some 1) None None;
                        mkChannel (Some 2) (Some (-5)) (Some 0) (Some 1) None None ]))
    by (vm_compute; reflexivity).
  destruct (export_order repeated_two _ E) as (ordered & H1 & _ & H2 & _).
  exists ordered. split; [exact H1 | exact H2].
Defined.

(** *** _import_csv_thread_worker *)

Lemma length_take n : forall s, (String.length (Py.take n s) <= n)%nat.
Proof.
  induction n as [|n IH]; intros [|c s]; cbn; try lia.
  specialize (IH s). lia.
Qed.

Lemma import_row_accepted self n row ch d ws :
  import_row self n row = RowStored ch d ws ->
  channel d = Some ch /\ accepted_entry (radio self) d.
Proof.
  unfold import_row.
  destruct (negb _); [discriminate |].
  destruct row as [|r0 [|r1 [|r2 [|r3 [|r4 [|r5 [|r6 ?]]]]]]]; try discriminate.
  destruct (Py.int (Py.strip r0)) as [c|]; [| discriminate].
  destruct (Py.int (Py.strip r1)) as [f|]; [| discriminate].
  destruct (Py.int (Py.strip r2)) as [bw|]; [| discriminate].
  destruct (Py.int (Py.strip r3)) as [ms|]; [| discriminate].
  destruct (Z.leb_spec 1 c) as [Hc1 |]; [| discriminate]. cbn [negb].
  destruct (max_channels (radio self)) as [maxc|] eqn:Emax; [| discriminate].
  destruct (Z.leb_spec c maxc) as [Hc2 |]; [| discriminate]. cbn [negb].
  destruct (Z.ltb_spec f 0) as [| Hf]; [discriminate |].
  destruct (Z.ltb_spec bw 0) as [| Hbw]; [discriminate |].
  destruct (negb _) eqn:Ems; [discriminate |].
  assert (Hms : ms = 0 \/ ms = 1).
  { apply negb_false_iff, orb_true_iff in Ems.
    destruct Ems as [E | E]; apply Z.eqb_eq in E; auto. }
  set (pu := Py.upper (Py.strip r4)).
  assert (Hpu : Py.upper pu = pu) by apply PyFacts.upper_idem.
  set (p4 := Py.take 4 pu).
  assert (Hp4 : Py.upper p4 = p4)
    by (unfold p4; now rewrite PyFacts.upper_take, Hpu).
  assert (Lp4 : (String.length p4 <= 4)%nat) by apply length_take.
  set (t := Py.strip r5).
  set (t8 := Py.take 8 t).
  assert (Lt8 : (String.length t8 <= 8)%nat) by apply length_take.
  clearbody p4 t8. clearbody pu. clearbody t.
  destruct ((c =? 1) && _) eqn:Ek.
  { destruct (Nat.ltb 4 _), (Nat.ltb 8 _); discriminate. }
  assert (Hk : ~ (c = 1 /\ skip_frequency (radio self) f)).
  { intros [-> Hs]. apply CommsFacts.is_skip_freq_iff in Hs.
    rewrite Hs in Ek. discriminate. }
  destruct (Nat.ltb_spec 4 (String.length pu)) as [| Lp];
    destruct (Nat.ltb_spec 8 (String.length t)) as [| Lt];
    intros [= <- <- _]; (split; [reflexivity |]);
    do 6 eexists; (split; [reflexivity |]);
    (split; [exists maxc; split; [exact Emax | lia] |]);
    repeat split; assumption || lia.
Qed.

Lemma parse_csv_accepted self file :
  Forall (fun '(ch, d) => channel d = Some ch /\ accepted_entry (radio self) d)
         (imported_channels (parse_csv self file)).
Proof.
  unfold parse_csv. destruct file as [|header rows]; [constructor |].
  destruct (bool_decide _); [| constructor].
  apply ManagerFacts.import_rows_Forall; [| constructor].
  rewrite Forall_forall. intros row _ n ch d ws. apply import_row_accepted.
Qed.

(** The two shapes of the result of the worker. *)
Lemma worker_result self file writes errors warnings :
  _import_csv_thread_worker self file = Some (writes, errors, warnings) ->
  (writes = [] /\ errors = parse_errors (parse_csv self file)) \/
  (errors = [] /\ parse_errors (parse_csv self file) = [] /\
   exists cfg, radio_config self = Some cfg /\
               writes = diff_channels self cfg (imported_channels (parse_csv self file))).
Proof.
  unfold _import_csv_thread_worker.
  destruct (parse_errors (parse_csv self file)) as [|e es] eqn:Ee;
    destruct (imported_channels (parse_csv self file)) as [|x xs].
  - intros [= <- <- _]. now left.
  - destruct (radio_config self) as [cfg|]; [| discriminate].
    intros [= <- <- _]. right. repeat split. now exists cfg.
  - intros [= <- <- _]. now left.
  - intros [= <- <- _]. now left.
Qed.

Lemma in_diff_channels_source self cfg imported d :
  In d (diff_channels self cfg imported) -> exists k, In (k, d) imported.
Proof.
  unfold diff_channels. rewrite in_map_iff.
  intros ([k d'] & <- & H). apply filter_In in H as [H _]. now exists k.
Qed.

Lemma accepted_entry_sent self d s :
  accepted_entry self d ->
  serial_conn self = Some s -> is_open s = true -> tx_fault s = None ->
  exists ch f bw ms p t,
    d = mkChannel (Some ch) (Some f) (Some bw) (Some ms) (Some p) (Some t) /\
    serial_conn (snd (write_channel self ch f bw ms p t)) =
    Some (mkSerial true (tx s ++ [entry_line d]) (tl (rx s)) None).
Proof.
  intros (ch & f & bw & ms & p & t & -> & (maxc & Hm & Hc) & Hf & Hb & Hms & Hu & Lp & Lt & Hk)
         Hs Ho Hx.
  exists ch, f, bw, ms, p, t. split; [reflexivity |].
  rewrite (CommsFacts.write_channel_sends self s ch f bw ms p t); try assumption.
  - rewrite Ho, Hx. unfold entry_line, s_command. cbn [channel freq_khz bandwidth_code
      mono_stereo_code pi ps cell_int cell_str].
    now rewrite Hu, !PyFacts.take_all by assumption.
  - split; [lia |]. intros m Hm' _. rewrite Hm in Hm'. injection Hm' as <-. lia.
Qed.

Lemma no_rows_without_size self :
  max_channels (radio self) = None ->
  forall rows n acc,
    imported_channels acc = [] ->
    imported_channels (import_rows self n rows acc) = [].
Proof.
  intros Hm rows. induction rows as [|row rows IH]; intros n acc Hacc; [exact Hacc |].
  cbn [import_rows].
  destruct (import_row self (S n) row) as [ws | ch d ws | ws e] eqn:E.
  - now apply IH.
  - apply import_row_accepted in E as (_ & ? & ? & ? & ? & ? & ? & _ & (m & Hm' & _) & _).
    congruence.
  - exact Hacc.
Qed.

(** X16. The import hands back an empty write list whenever the parsing
    reported an error, and also whenever the number of memory positions of the
    radio is unknown. An empty file is reported as such; a first line other
    than the expected header is the only error reported, no row is read and no
    warning is given. *)
Theorem import_errors_write_nothing
        (self : App) (file : list (list string))
        (writes : list ChannelData) (errors : list ParseError)
        (warnings : list ParseWarning) :
  _import_csv_thread_worker self file = Some (writes, errors, warnings) ->
  (errors <> [] -> writes = []) /\
  (max_channels (radio self) = None -> writes = []) /\
  (file = [] -> errors = [EmptyCsv]) /\
  (forall header rows,
     file = header :: rows -> header <> CSV_HEADER ->
     errors = [InvalidHeader header] /\ warnings = []).
Proof.
  intros H. pose proof H as H0.
  apply worker_result in H as [(-> & He) | (-> & He & cfg & Hc & Hw)].
  - split; [reflexivity |]. split; [reflexivity |]. split.
    + intros ->. exact He.
    + intros header rows -> Hh. unfold _import_csv_thread_worker, parse_csv in *.
      rewrite bool_decide_false in * by exact Hh. cbn in *.
      split; [exact He | congruence].
  - split; [congruence |]. split; [| split].
    + intros Hm. rewrite Hw. unfold parse_csv.
      destruct file as [|header rows]; [reflexivity |].
      destruct (bool_decide _); [| reflexivity].
      now rewrite no_rows_without_size.
    + intros ->. discriminate He.
    + intros header rows -> Hh. unfold parse_csv in He.
      rewrite bool_decide_false in He by exact Hh. discriminate He.
Qed.

Lemma import_errors_write_nothing_witness :
  exists writes errors warnings,
    _import_csv_thread_worker two_stations [["Channel"; "Frequency"]; ["1"; "87500"]] =
      Some (writes, errors, warnings) /\
    errors = [InvalidHeader ["Channel"; "Frequency"]] /\ writes = [].
Proof.
  assert (E : _import_csv_thread_worker two_stations
                [["Channel"; "Frequency"]; ["1"; "87500"]] =
              Some ([], [InvalidHeader ["Channel"; "Frequency"]], []))
    by (vm_compute; reflexivity).
  assert (Hh : ["Channel"; "Frequency"] <> CSV_HEADER) by discriminate.
  destruct (import_errors_write_nothing _ _ _ _ _ E) as (H1 & _ & _ & H4).
  destruct (H4 _ _ eq_refl Hh) as (He & _).
  do 3 eexists. split; [exact E |]. split; [exact He |].
  apply H1. discriminate.
Defined.

(** X17. Every entry of the write list produced by the import passes the
    validation of the channel writer on the same radio: all its keys are
    present, the channel lies within the memory positions, frequency and
    bandwidth are not negative, the mono/stereo code is 0 or 1, PI and PS are
    within their length limits and channel 1 is not given a skip frequency. On
    an open, healthy port writing the entry sends exactly its line
    [S<ch>,<freq>,<bw>,<ms>,<PI>,<PS>], nothing cut off. *)
Theorem import_writes_accepted
        (self : App) (file : list (list string))
        (writes : list ChannelData) (errors : list ParseError)
        (warnings : list ParseWarning) (d : ChannelData) :
  _import_csv_thread_worker self file = Some (writes, errors, warnings) ->
  In d writes ->
  accepted_entry (radio self) d /\
  forall s,
    serial_conn (radio self) = Some s -> is_open s = true -> tx_fault s = None ->
    exists ch f bw ms p t,
      d = mkChannel (Some ch) (Some f) (Some bw) (Some ms) (Some p) (Some t) /\
      serial_conn (snd (write_channel (radio self) ch f bw ms p t)) =
      Some (mkSerial true (tx s ++ [entry_line d]) (tl (rx s)) None).
Proof.
  intros H Hd.
  assert (Ha : accepted_entry (radio self) d).
  { apply worker_result in H as [(-> & _) | (_ & _ & cfg & _ & ->)]; [contradiction |].
    apply in_diff_channels_source in Hd as (k & Hk).
    pose proof (parse_csv_accepted self file) as Hall.
    rewrite List.Forall_forall in Hall. apply (Hall _ Hk). }
  split; [exact Ha |]. intros s. now apply accepted_entry_sent.
Qed.

Lemma import_writes_accepted_witness :
  accepted_entry (radio two_stations)
    (mkChannel (Some 2) (Some 98100) (Some 0) (Some 1) (Some "ABCD") (Some "Radio 2")).
Proof.
  assert (E : _import_csv_thread_worker two_stations
                [CSV_HEADER; ["2"; "98100"; "0"; "1"; "abcd"; "Radio 2"]] =
              Some ([mkChannel (Some 2) (Some 98100) (Some 0) (Some 1)
                               (Some "ABCD") (Some "Radio 2")], [], []))
    by (vm_compute; reflexivity).
  exact (proj1 (import_writes_accepted _ _ _ _ _ _ E (or_introl eq_refl))).
Defined.

Lemma in_dict_set_keys k v d x :
  In x (map fst (dict_set k v d)) -> x = k \/ In x (map fst d).
Proof.
  induction d as [|[k' v'] d IH]; cbn.
  - intros [<- | []]. now left.
  - destruct (Z.eqb_spec k' k) as [-> | Hn]; cbn.
    + intros [<- | H]; auto.
    + intros [<- | H]; auto. destruct (IH H); auto.
Qed.

Lemma nodup_cons {A} (x : A) l : NoDup (x :: l) <-> ~ In x l /\ NoDup l.
Proof. now rewrite NoDup_cons, list_elem_of_In. Qed.

Lemma dict_set_keys k v d : NoDup (map fst d) -> NoDup (map fst (dict_set k v d)).
Proof.
  induction d as [|[k' v'] d IH]; cbn; intros H.
  - apply NoDup_singleton.
  - apply nodup_cons in H as [Hk Hd].
    destruct (Z.eqb_spec k' k) as [-> | Hn]; cbn.
    + now apply nodup_cons.
    + apply nodup_cons. split; [| now apply IH].
      intros Hin. apply in_dict_set_keys in Hin as [-> | Hin]; congruence.
Qed.

Lemma import_rows_keys self rows : forall n acc,
  NoDup (map fst (imported_channels acc)) ->
  NoDup (map fst (imported_channels (import_rows self n rows acc))).
Proof.
  induction rows as [|row rows IH]; intros n acc Hacc; [exact Hacc |].
  cbn [import_rows].
  destruct (import_row self (S n) row) as [ws | ch d ws | ws e].
  - now apply IH.
  - apply IH. cbn. now apply dict_set_keys.
  - exact Hacc.
Qed.

Lemma parse_csv_keys self file :
  NoDup (map fst (imported_channels (parse_csv self file))).
Proof.
  unfold parse_csv. destruct file as [|header rows]; [constructor |].
  destruct (bool_decide _); [| constructor].
  apply import_rows_keys. constructor.
Qed.

Lemma diff_channels_keys self cfg imported :
  NoDup (map fst imported) ->
  Forall (fun '(k, d) => channel d = Some k) imported ->
  NoDup (map channel (diff_channels self cfg imported)) /\
  forall c, In c (map channel (diff_channels self cfg imported)) ->
            exists k, c = Some k /\ In k (map fst imported).
Proof.
  unfold diff_channels.
  set (g := fun '(ch_num, imp_data) => needs_write self ch_num imp_data _).
  induction imported as [|[k d] l IH]; intros Hn Hf.
  - split; [constructor | intros c []].
  - apply nodup_cons in Hn as [Hk Hn].
    apply Forall_cons in Hf as [Hd Hf].
    destruct (IH Hn Hf) as (IH1 & IH2).
    cbn [List.filter]. destruct (g (k, d)); cbn [map snd fst].
    + split.
      * apply nodup_cons. split; [| exact IH1].
        intros Hin. apply IH2 in Hin as (k' & E & Hin).
        rewrite Hd in E. injection E as <-. contradiction.
      * intros c [<- | Hin]; [exists k; split; [exact Hd | now left] |].
        destruct (IH2 _ Hin) as (k' & E & Hk'). exists k'. split; [exact E | now right].
    + split; [exact IH1 |]. intros c Hin.
      destruct (IH2 _ Hin) as (k' & E & Hk'). exists k'. split; [exact E | now right].
Qed.

(** X18. The write list of the import names every channel at most once, and
    only channels of rows of the file that were stored: when the file holds
    several valid rows for one channel, a single entry is written for it. *)
Theorem import_writes_distinct
        (self : App) (file : list (list string))
        (writes : list ChannelData) (errors : list ParseError)
        (warnings : list ParseWarning) :
  _import_csv_thread_worker self file = Some (writes, errors, warnings) ->
  NoDup (map channel writes) /\
  forall d, In d writes ->
            exists k, channel d = Some k /\
                      In (k, d) (imported_channels (parse_csv self file)).
Proof.
  intros H.
  apply worker_result in H as [(-> & _) | (_ & _ & cfg & _ & ->)].
  - split; [constructor | intros d []].
  - assert (Hf : Forall (fun '(k, d) => channel d = Some k)
                        (imported_channels (parse_csv self file))).
    { eapply Forall_impl; [apply parse_csv_accepted |]. now intros [k d] [H _]. }
    split; [now apply diff_channels_keys; [apply parse_csv_keys |] |].
    intros d Hd. apply in_diff_channels_source in Hd as (k & Hk).
    exists k. split; [| exact Hk].
    rewrite List.Forall_forall in Hf. apply (Hf _ Hk).
Qed.

Lemma import_writes_distinct_witness :
  NoDup (map channel
           [mkChannel (Some 2) (Some 98100) (Some 0) (Some 1) (Some "") (Some "")]).
Proof.
  assert (E : _import_csv_thread_worker two_stations
                [CSV_HEADER; ["2"; "87500"; "0"; "1"; ""; ""];
                 ["2"; "98100"; "0"; "1"; ""; ""]] =
              Some ([mkChannel (Some 2) (Some 98100) (Some 0) (Some 1) (Some "") (Some "")],
                    [], []))
    by (vm_compute; reflexivity).
  exact (proj1 (import_writes_distinct _ _ _ _ _ E)).
Defined.

(** *** _import_write_thread_worker *)

Lemma accepted_entry_cache a b d :
  max_channels a = max_channels b -> skip_freq_value a = skip_freq_value b ->
  accepted_entry a d -> accepted_entry b d.
Proof.
  intros Hm Hk (ch & f & bw & ms & p & t & E & Hr & Hf & Hb & Hms & Hu & Lp & Lt & Hs).
  exists ch, f, bw, ms, p, t. unfold skip_frequency in *.
  rewrite <- Hm, <- Hk. now repeat split.
Qed.

Lemma tl_drop {A} n (l : list A) : drop n (tl l) = drop (S n) l.
Proof. now destruct l; [destruct n |]. Qed.

(** The loop over the entries from position [k] on. *)
Lemma write_loop (self0 : Radio) (total : nat) (l : list ChannelData) :
  forall (k : nat) (acc : WriteResult) (s : Serial),
    Forall (accepted_entry self0) l ->
    write_died acc = false ->
    max_channels (write_radio acc) = max_channels self0 ->
    skip_freq_value (write_radio acc) = skip_freq_value self0 ->
    serial_conn (write_radio acc) = Some s -> is_open s = true -> tx_fault s = None ->
    write_died (fold_left (write_step total) (combine (seq k (length l)) l) acc) = false /\
    (write_success_count (fold_left (write_step total) (combine (seq k (length l)) l) acc) +
     write_fail_count (fold_left (write_step total) (combine (seq k (length l)) l) acc) =
     write_success_count acc + write_fail_count acc + length l)%nat /\
    serial_conn
      (write_radio (fold_left (write_step total) (combine (seq k (length l)) l) acc)) =
    Some (mkSerial true (tx s ++ map entry_line l) (drop (length l) (rx s)) None) /\
    config (write_radio (fold_left (write_step total) (combine (seq k (length l)) l) acc)) =
    config (write_radio acc).
Proof.
  induction l as [|d l IH]; intros k acc s Hall Hd Hm Hk Hs Ho Hx.
  - cbn. rewrite app_nil_r, Nat.add_0_r, Hs. repeat split; try assumption.
    destruct s; cbn in *. now rewrite Ho, Hx.
  - apply Forall_cons in Hall as [Ha Hall].
    cbn [length seq combine fold_left].
    set (acc1 := write_step total acc (k, d)).
    assert (Hshape : exists ch f bw ms p t,
               d = mkChannel (Some ch) (Some f) (Some bw) (Some ms) (Some p) (Some t))
      by (destruct Ha as (ch & f & bw & ms & p & t & E & _); eauto 10).
    destruct Hshape as (ch & f & bw & ms & p & t & Ed).
    set (r := _update_status (write_radio acc)
                ("Import: Writing Ch " +:+ Py.str ch +:+ " (" +:+
                 Py.str (Z.of_nat k + 1) +:+ "/" +:+ Py.str (Z.of_nat total) +:+ ")...")).
    assert (Har : accepted_entry r d)
      by (apply (accepted_entry_cache self0); [now rewrite <- Hm | now rewrite <- Hk | exact Ha]).
    destruct (accepted_entry_sent r d s Har Hs Ho Hx)
      as (ch' & f' & bw' & ms' & p' & t' & Ed' & Hsent).
    rewrite Ed in Ed' at 1. injection Ed' as <- <- <- <- <- <-.
    pose proof (ClientProperties.advanced_write_channel r ch f bw ms p t)
      as (Hc' & Hm' & Hk' & _).
    assert (H1 : write_died acc1 = false /\
                 (write_success_count acc1 + write_fail_count acc1 =
                  S (write_success_count acc + write_fail_count acc))%nat /\
                 write_radio acc1 =
                 _update_progress (snd (write_channel r ch f bw ms p t))
                                  (Z.of_nat k + 1) (Z.of_nat total)).
    { unfold acc1, write_step. rewrite Hd, Ed.
      cbn [channel freq_khz bandwidth_code mono_stereo_code pi ps default].
      fold r. unfold id.
      destruct (write_channel r ch f bw ms p t) as [[[] msgs] r'];
        cbn; repeat split; lia. }
    destruct H1 as (Hd1 & Hn1 & Hr1).
    destruct (IH (S k) acc1 (mkSerial true (tx s ++ [entry_line d]) (tl (rx s)) None))
      as (R1 & R2 & R3 & R4); try assumption; try reflexivity.
    + rewrite Hr1. cbn. now rewrite Hm'.
    + rewrite Hr1. cbn. now rewrite Hk'.
    + rewrite Hr1. cbn. exact Hsent.
    + split; [exact R1 |]. split; [lia |]. split.
      * rewrite R3. cbn [tx rx map]. now rewrite <- app_assoc, tl_drop.
      * rewrite R4, Hr1. cbn. exact Hc'.
Qed.

(** X19. When every entry of the write list is acceptable to the channel
    writer and the port is open and healthy, the write worker handles the
    entries in ascending channel order and sends for each one exactly its
    command line, one line and one read per entry: the thread does not end
    early, successes and failures add up to the number of entries and the
    cached configuration is the one it started with. *)
Theorem import_write_worker_sends
        (self : App) (writes : list ChannelData) (s : Serial) :
  serial_conn (radio self) = Some s -> is_open s = true -> tx_fault s = None ->
  Forall (accepted_entry (radio self)) writes ->
  exists ordered,
    Permutation ordered writes /\ StronglySorted channel_le ordered /\
    write_died (_import_write_thread_worker self writes) = false /\
    (write_success_count (_import_write_thread_worker self writes) +
     write_fail_count (_import_write_thread_worker self writes) = length writes)%nat /\
    serial_conn (write_radio (_import_write_thread_worker self writes)) =
      Some (mkSerial true (tx s ++ map entry_line ordered)
                     (drop (length writes) (rx s)) None) /\
    config (write_radio (_import_write_thread_worker self writes)) = config (radio self).
Proof.
  intros Hs Ho Hx Hall. exists (sorted writes).
  split; [apply sorted_perm |]. split; [apply sorted_sorted |].
  assert (Hall' : Forall (accepted_entry (radio self)) (sorted writes)).
  { apply List.Forall_forall. intros d Hd. apply ManagerFacts.in_sorted in Hd.
    rewrite List.Forall_forall in Hall. now apply Hall. }
  unfold _import_write_thread_worker, enumerate.
  destruct (write_loop (radio self) (length (sorted writes)) (sorted writes) 0
              (mkWrite 0 0 false (radio self) false) s Hall' eq_refl eq_refl eq_refl
              Hs Ho Hx) as (R1 & R2 & R3 & R4).
  rewrite (Permutation_length (sorted_perm writes)) in *.
  split; [exact R1 |]. split; [exact R2 |]. split; [exact R3 | exact R4].
Qed.

Lemma new_station_accepted : accepted_entry (radio two_stations) new_station.
Proof.
  exists 2, 98100, 0, 1, "ABCD", "Radio 2". split; [reflexivity |].
  split; [exists 2; split; [reflexivity | lia] |].
  split; [lia |]. split; [lia |]. split; [now right |]. split; [reflexivity |].
  split; [cbn; lia |]. split; [cbn; lia |].
  intros [H _]. discriminate H.
Qed.

Lemma import_write_worker_sends_witness :
  (write_success_count (_import_write_thread_worker two_stations [new_station]) +
   write_fail_count (_import_write_thread_worker two_stations [new_station]) = 1)%nat.
Proof.
  assert (Hs : serial_conn (radio two_stations) =
               Some (mkSerial true [String "s" (String Py.nl "")] [] None))
    by (vm_compute; reflexivity).
  assert (Hall : Forall (accepted_entry (radio two_stations)) [new_station])
    by (constructor; [apply new_station_accepted | constructor]).
  destruct (import_write_worker_sends two_stations [new_station] _ Hs eq_refl eq_refl Hall)
    as (ordered & _ & _ & _ & H & _).
  exact H.
Defined.

(** *** _erase_all_thread_worker *)

Lemma is_channel_skipped_cache a b ch d :
  config a = config b -> skip_freq_value a = skip_freq_value b ->
  is_channel_skipped a ch d = is_channel_skipped b ch d.
Proof.
  intros Hc Hk. unfold is_channel_skipped. now rewrite Hc, Hk.
Qed.

(** Every pass of the loop counts its channel once; a pass that finds the
    channel skipped does no input or output. *)
Lemma erase_loop_counts max_ch current (l : list Z) : forall (k : nat) (acc : EraseResult),
  exists n,
    (success_count
       (fold_left (erase_step max_ch current) (combine (seq k (length l)) l) acc) +
     fail_count
       (fold_left (erase_step max_ch current) (combine (seq k (length l)) l) acc) =
     success_count acc + fail_count acc + n)%nat /\
    (already_skipped_count
       (fold_left (erase_step max_ch current) (combine (seq k (length l)) l) acc) + n =
     already_skipped_count acc + length l)%nat /\
    erase_error
      (fold_left (erase_step max_ch current) (combine (seq k (length l)) l) acc) =
    erase_error acc /\
    changes_made
      (fold_left (erase_step max_ch current) (combine (seq k (length l)) l) acc) =
    changes_made acc || negb (Nat.eqb n 0) /\
    advanced n n (erase_radio acc)
      (erase_radio
         (fold_left (erase_step max_ch current) (combine (seq k (length l)) l) acc)).
Proof.
  induction l as [|ch l IH]; intros k acc.
  - exists 0%nat. cbn. rewrite orb_false_r.
    split; [lia |]. split; [lia |]. split; [reflexivity |]. split; [reflexivity |].
    apply ClientProperties.advanced_refl.
  - cbn [length seq combine fold_left].
    set (acc1 := erase_step max_ch current acc (k, ch)).
    destruct (IH (S k) acc1) as (n & H1 & H2 & H3 & H4 & H5).
    set (r := _update_progress (erase_radio acc) (Z.of_nat k + 1) (max_ch - 1)).
    assert (Hr : advanced 0 0 (erase_radio acc) r)
      by apply ClientProperties.advanced_progress.
    assert (Hstep :
      (success_count acc1 = success_count acc /\ fail_count acc1 = fail_count acc /\
       already_skipped_count acc1 = S (already_skipped_count acc) /\
       changes_made acc1 = changes_made acc /\ erase_error acc1 = erase_error acc /\
       advanced 0 0 (erase_radio acc) (erase_radio acc1)) \/
      ((success_count acc1 + fail_count acc1 = S (success_count acc + fail_count acc))%nat /\
       already_skipped_count acc1 = already_skipped_count acc /\
       changes_made acc1 = true /\ erase_error acc1 = erase_error acc /\
       advanced 1 1 (erase_radio acc) (erase_radio acc1))).
    { unfold acc1, erase_step. fold r.
      destruct (is_channel_skipped r ch (current !! ch)).
      { left. cbn. do 5 (split; [reflexivity |]). exact Hr. }
      right. pose proof (ClientProperties.advanced_skip_channel r ch) as Hk.
      destruct (skip_channel r ch) as [[[] msgs] r']; cbn [snd] in Hk; cbn;
        (split; [lia |]); do 3 (split; [reflexivity |]);
        apply (ClientProperties.advanced_trans 0 0 1 1 _ r); assumption. }
    destruct Hstep as [(E1 & E2 & E3 & E4 & E5 & E6) | (E1 & E2 & E4 & E5 & E6)].
    + exists n. rewrite H3, H4, E4, E5.
      split; [lia |]. split; [lia |]. split; [reflexivity |]. split; [reflexivity |].
      apply (ClientProperties.advanced_trans 0 0 n n _ (erase_radio acc1)); assumption.
    + exists (S n). rewrite H3, H4, E4, E5. cbn [Nat.eqb negb]. rewrite orb_true_r.
      split; [lia |]. split; [lia |]. split; [reflexivity |]. split; [reflexivity |].
      apply (ClientProperties.advanced_trans 1 1 n n _ (erase_radio acc1)); assumption.
Qed.

(** X20. When no configuration is loaded or the channel count is unknown or
    zero, the erase worker reports the error and touches nothing. Otherwise it
    visits every channel from 2 to the channel count once: the channels
    skipped, failed and found already skipped add up to the channel count
    minus one; at most one line is written and one read consumed for each
    channel it tried to skip and none for the others; a change is flagged
    exactly when a skip was attempted; the cached configuration is left as it
    was. *)
Theorem erase_all_counts (self : App) :
  ((radio_config self = None \/ Py.truthy (max_channels (radio self)) = false) ->
   _erase_all_thread_worker self =
   mkErase 0 0 0 false (radio self) (Some "Radio/Config became unavailable.")) /\
  (forall cfg m,
     radio_config self = Some cfg -> max_channels (radio self) = Some m -> m <> 0 ->
     erase_error (_erase_all_thread_worker self) = None /\
     Z.of_nat (success_count (_erase_all_thread_worker self) +
               fail_count (_erase_all_thread_worker self) +
               already_skipped_count (_erase_all_thread_worker self)) = Z.max 0 (m - 1) /\
     (changes_made (_erase_all_thread_worker self) = true <->
      (0 < success_count (_erase_all_thread_worker self) +
           fail_count (_erase_all_thread_worker self))%nat) /\
     advanced (success_count (_erase_all_thread_worker self) +
               fail_count (_erase_all_thread_worker self))
              (success_count (_erase_all_thread_worker self) +
               fail_count (_erase_all_thread_worker self))
              (radio self) (erase_radio (_erase_all_thread_worker self))).
Proof.
  split.
  - unfold _erase_all_thread_worker. intros [-> | H]; [reflexivity |].
    rewrite H. now destruct (radio_config self).
  - intros cfg m Hc Hm Hz. unfold _erase_all_thread_worker, enumerate.
    rewrite Hc, Hm. cbn [Py.truthy default].
    apply Z.eqb_neq in Hz. rewrite Hz. cbn [negb]. unfold id.
    destruct (erase_loop_counts m (current_channels_dict cfg) (seqZ 2 (m - 1)) 0
                (mkErase 0 0 0 false (radio self) None))
      as (n & H1 & H2 & H3 & H4 & H5).
    set (res := fold_left _ _ _) in *.
    cbn [success_count fail_count already_skipped_count erase_error changes_made
         erase_radio] in H1, H2, H3, H4, H5.
    rewrite length_seqZ in H2. rewrite H3, H4. cbn [orb].
    split; [reflexivity |]. split; [lia |]. split.
    + rewrite H1. destruct n; cbn; split; intros; (discriminate || lia || reflexivity).
    + rewrite H1. exact H5.
Qed.

Lemma erase_all_counts_witness :
  Z.of_nat (success_count (_erase_all_thread_worker five_positions) +
            fail_count (_erase_all_thread_worker five_positions) +
            already_skipped_count (_erase_all_thread_worker five_positions)) =
  Z.max 0 (5 - 1).
Proof.
  assert (Hc : radio_config five_positions = Some skipped_five_config)
    by (vm_compute; reflexivity).
  assert (Hm : max_channels (radio five_positions) = Some 5) by (vm_compute; reflexivity).
  assert (Hz : 5 <> 0) by lia.
  exact (proj1 (proj2 (proj2 (erase_all_counts five_positions) _ _ Hc Hm Hz))).
Defined.

(** The lines written by the loop: one skip line for every channel that is
    not found skipped, in the order visited. *)
Lemma erase_loop_commands (self0 : Radio) max_ch current (l : list Z) :
  forall (k : nat) (acc : EraseResult) (s : Serial),
    Forall (fun ch => ch <> 1 /\ channel_in_range self0 ch) l ->
    0 <= default 0 (skip_freq_value self0) ->
    config (erase_radio acc) = config self0 ->
    max_channels (erase_radio acc) = max_channels self0 ->
    skip_freq_value (erase_radio acc) = skip_freq_value self0 ->
    serial_conn (erase_radio acc) = Some s -> is_open s = true -> tx_fault s = None ->
    serial_conn
      (erase_radio
         (fold_left (erase_step max_ch current) (combine (seq k (length l)) l) acc)) =
    Some (mkSerial true
            (tx s ++
             map (skip_line (default 0 (skip_freq_value self0)))
                 (List.filter
                    (fun ch => negb (is_channel_skipped self0 ch (current !! ch))) l))
            (drop (length
                     (List.filter
                        (fun ch => negb (is_channel_skipped self0 ch (current !! ch))) l))
                  (rx s))
            None) /\
    (already_skipped_count
       (fold_left (erase_step max_ch current) (combine (seq k (length l)) l) acc) +
     length (List.filter
               (fun ch => negb (is_channel_skipped self0 ch (current !! ch))) l) =
     already_skipped_count acc + length l)%nat.
Proof.
  induction l as [|ch l IH]; intros k acc s Hall Hv Hc Hm Hk Hs Ho Hx.
  - cbn. rewrite app_nil_r, Hs. split; [| lia].
    destruct s; cbn in *. now rewrite Ho, Hx.
  - apply Forall_cons in Hall as [[Hch Hr] Hall].
    cbn [length seq combine fold_left List.filter].
    set (acc1 := erase_step max_ch current acc (k, ch)).
    set (r := _update_progress (erase_radio acc) (Z.of_nat k + 1) (max_ch - 1)).
    assert (Esk : is_channel_skipped r ch (current !! ch) =
                  is_channel_skipped self0 ch (current !! ch))
      by (apply is_channel_skipped_cache; assumption).
    destruct (is_channel_skipped self0 ch (current !! ch)) eqn:E; cbn [negb].
    + assert (H1 : erase_radio acc1 = r /\
                   already_skipped_count acc1 = S (already_skipped_count acc))
        by (unfold acc1, erase_step; fold r; rewrite Esk; now split).
      destruct H1 as (Hr1 & Ha1).
      destruct (IH (S k) acc1 s) as (R1 & R2); try assumption;
        try (rewrite Hr1; assumption).
      split; [exact R1 | lia].
    + assert (Hrr : channel_in_range r ch).
      { destruct Hr as [H1 H2]. split; [exact H1 |].
        intros m' Hm'. apply H2. now rewrite <- Hm. }
      assert (Hvr : 0 <= default 0 (skip_freq_value r))
        by (change (skip_freq_value r) with (skip_freq_value (erase_radio acc));
            now rewrite Hk).
      pose proof (ClientProperties.skip_channel_sends r s ch Hs Ho Hx Hch Hrr Hvr) as Hsent.
      change (skip_freq_value r) with (skip_freq_value (erase_radio acc)) in Hsent.
      rewrite Hk in Hsent.
      pose proof (ClientProperties.advanced_skip_channel r ch) as (Hc' & Hm' & Hk' & _).
      assert (H1 : erase_radio acc1 = snd (skip_channel r ch) /\
                   already_skipped_count acc1 = already_skipped_count acc).
      { unfold acc1, erase_step. fold r. rewrite Esk.
        now destruct (skip_channel r ch) as [[[] msgs] r']. }
      destruct H1 as (Hr1 & Ha1).
      destruct (IH (S k) acc1
                  (mkSerial true
                     (tx s ++ [skip_line (default 0 (skip_freq_value self0)) ch])
                     (tl (rx s)) None))
        as (R1 & R2); try assumption; try reflexivity.
      * rewrite Hr1, Hc'. exact Hc.
      * rewrite Hr1, Hm'. exact Hm.
      * rewrite Hr1, Hk'. exact Hk.
      * rewrite Hr1. exact Hsent.
      * split; [| cbn [length]; lia].
        rewrite R1. cbn [tx rx map length]. now rewrite <- app_assoc, tl_drop.
Qed.

(** X21. On an open, healthy port, with a skip value that is not negative,
    the erase worker writes one skip line [S<ch>,<v>,0,1,,] for every channel
    from 2 to the channel count that is not found skipped, in ascending order,
    and nothing else: channel 1 is never written, a channel found skipped
    causes no traffic and is counted as already skipped. *)
Theorem erase_all_commands (self : App) (cfg : ConfigData) (m : Z) (s : Serial) :
  radio_config self = Some cfg -> max_channels (radio self) = Some m -> m <> 0 ->
  serial_conn (radio self) = Some s -> is_open s = true -> tx_fault s = None ->
  0 <= default 0 (skip_freq_value (radio self)) ->
  exists todo,
    todo = List.filter
             (fun ch => negb (is_channel_skipped (radio self) ch
                                (current_channels_dict cfg !! ch)))
             (seqZ 2 (m - 1)) /\
    Forall (fun ch => 2 <= ch <= m) todo /\
    serial_conn (erase_radio (_erase_all_thread_worker self)) =
      Some (mkSerial true
              (tx s ++ map (skip_line (default 0 (skip_freq_value (radio self)))) todo)
              (drop (length todo) (rx s)) None) /\
    (already_skipped_count (_erase_all_thread_worker self) + length todo =
     Z.to_nat (m - 1))%nat.
Proof.
  intros Hc Hm Hz Hs Ho Hx Hv. eexists. split; [reflexivity |].
  split.
  - apply List.Forall_forall. intros ch Hin.
    apply filter_In in Hin as [Hin _].
    apply list_elem_of_In, elem_of_seqZ in Hin. lia.
  - unfold _erase_all_thread_worker, enumerate.
    rewrite Hc, Hm. cbn [Py.truthy default].
    apply Z.eqb_neq in Hz as Hz'. rewrite Hz'. cbn [negb]. unfold id.
    destruct (erase_loop_commands (radio self) m (current_channels_dict cfg)
                (seqZ 2 (m - 1)) 0 (mkErase 0 0 0 false (radio self) None) s)
      as (R1 & R2); try assumption; try reflexivity.
    + apply Forall_seqZ. intros ch Hch. split; [lia |].
      split; [lia |]. intros m' Hm' _. rewrite Hm in Hm'. injection Hm' as <-. lia.
    + split; [exact R1 |].
      cbn [already_skipped_count] in R2. rewrite length_seqZ in R2 at 2. exact R2.
Qed.

Lemma erase_all_commands_witness :
  exists todo,
    Forall (fun ch => 2 <= ch <= 5) todo /\
    serial_conn (erase_radio (_erase_all_thread_worker five_positions)) =
      Some (mkSerial true
              ([String "s" (String Py.nl "")] ++ map (skip_line 500) todo)
              (drop (length todo) []) None).
Proof.
  assert (Hc : radio_config five_positions = Some skipped_five_config)
    by (vm_compute; reflexivity).
  assert (Hm : max_channels (radio five_positions) = Some 5) by (vm_compute; reflexivity).
  assert (Hz : 5 <> 0) by lia.
  assert (Hs : serial_conn (radio five_positions) =
               Some (mkSerial true [String "s" (String Py.nl "")] [] None))
    by (vm_compute; reflexivity).
  assert (Hk : skip_freq_value (radio five_positions) = Some 500)
    by (vm_compute; reflexivity).
  assert (Hv : 0 <= default 0 (skip_freq_value (radio five_positions)))
    by (rewrite Hk; cbn; lia).
  destruct (erase_all_commands five_positions _ 5 _ Hc Hm Hz Hs eq_refl eq_refl Hv)
    as (todo & _ & H1 & H2 & _).
  exists todo. split; [exact H1 |]. rewrite Hk in H2. exact H2.
Defined.

(** *** The import followed by the write *)

Lemma strictly_sorted (l : list ChannelData) :
  StronglySorted channel_le l -> NoDup (map channel l) ->
  Forall (fun d => channel d <> None) l ->
  StronglySorted channel_lt l.
Proof.
  induction l as [|d l IH]; intros Hs Hn Hf; [constructor |].
  apply StronglySorted_inv in Hs as [Hs Hd].
  cbn [map] in Hn. apply nodup_cons in Hn as [Hnd Hn].
  apply Forall_cons in Hf as [Hc Hf].
  constructor; [now apply IH |].
  rewrite List.Forall_forall in Hd, Hf. apply List.Forall_forall. intros e He.
  specialize (Hd e He). specialize (Hf e He).
  assert (Hne : channel d <> channel e).
  { intros E. apply Hnd. rewrite E. now apply in_map. }
  unfold channel_le, channel_lt in *.
  destruct (channel d) as [x|], (channel e) as [y|]; try congruence.
  assert (x <> y) by congruence. lia.
Qed.

(** X22. The write list of an import, handed to the write worker on an open
    and healthy port, is written in full: the lines sent are those of the
    entries in strictly ascending channel order, no channel being written
    twice; one read is consumed per entry and the thread does not end
    early. *)
Theorem import_then_write
        (self : App) (file : list (list string))
        (writes : list ChannelData) (errors : list ParseError)
        (warnings : list ParseWarning) (s : Serial) :
  _import_csv_thread_worker self file = Some (writes, errors, warnings) ->
  serial_conn (radio self) = Some s -> is_open s = true -> tx_fault s = None ->
  exists ordered,
    Permutation ordered writes /\ StronglySorted channel_lt ordered /\
    write_died (_import_write_thread_worker self writes) = false /\
    serial_conn (write_radio (_import_write_thread_worker self writes)) =
      Some (mkSerial true (tx s ++ map entry_line ordered)
                     (drop (length writes) (rx s)) None).
Proof.
  intros H Hs Ho Hx.
  assert (Hall : Forall (accepted_entry (radio self)) writes).
  { apply List.Forall_forall. intros d Hd.
    apply worker_result in H as [(-> & _) | (_ & _ & cfg & _ & ->)]; [contradiction |].
    apply in_diff_channels_source in Hd as (k & Hk).
    pose proof (parse_csv_accepted self file) as Ha.
    rewrite List.Forall_forall in Ha. apply (Ha _ Hk). }
  assert (Hn : NoDup (map channel writes)).
  { apply worker_result in H as [(-> & _) | (_ & _ & cfg & _ & ->)]; [constructor |].
    apply diff_channels_keys; [apply parse_csv_keys |].
    eapply Forall_impl; [apply parse_csv_accepted |]. now intros [k d] [E _]. }
  exists (sorted writes). split; [apply sorted_perm |]. split.
  - apply strictly_sorted; [apply sorted_sorted | |].
    + now rewrite (Permutation_map channel (sorted_perm writes)).
    + apply List.Forall_forall. intros d Hd. apply ManagerFacts.in_sorted in Hd.
      rewrite List.Forall_forall in Hall.
      destruct (Hall d Hd) as (ch & f & bw & ms & p & t & -> & _). discriminate.
  - assert (Hall' : Forall (accepted_entry (radio self)) (sorted writes)).
    { apply List.Forall_forall. intros d Hd. apply ManagerFacts.in_sorted in Hd.
      rewrite List.Forall_forall in Hall. now apply Hall. }
    unfold _import_write_thread_worker, enumerate.
    destruct (write_loop (radio self) (length (sorted writes)) (sorted writes) 0
                (mkWrite 0 0 false (radio self) false) s Hall' eq_refl eq_refl eq_refl
                Hs Ho Hx) as (R1 & _ & R3 & _).
    rewrite (Permutation_length (sorted_perm writes)) in *.
    split; [exact R1 | exact R3].
Qed.

Lemma import_then_write_witness :
  write_died
    (_import_write_thread_worker two_stations
       [mkChannel (Some 2) (Some 98100) (Some 0) (Some 1) (Some "") (Some "")]) = false.
Proof.
  assert (E : _import_csv_thread_worker two_stations
                [CSV_HEADER; ["2"; "98100"; "0"; "1"; ""; ""]] =
              Some ([mkChannel (Some 2) (Some 98100) (Some 0) (Some 1) (Some "") (Some "")],
                    [], []))
    by (vm_compute; reflexivity).
  assert (Hs : serial_conn (radio two_stations) =
               Some (mkSerial true [String "s" (String Py.nl "")] [] None))
    by (vm_compute; reflexivity).
  destruct (import_then_write two_stations _ _ _ _ _ E Hs eq_refl eq_refl)
    as (ordered & _ & _ & H & _).
  exact H.
Defined.

End ManagerProperties.

(** ** The differential import against the live configuration *)

Module ImportProperties.
Import Comms Manager Spec Instances Tactics.

(** *** The live record of a channel number *)

Lemma fold_dict_last (l : list ChannelData) (acc : gmap Z ChannelData) (k : Z) :
  fold_left dict_step l acc !! k =
  match last (List.filter (fun c => bool_decide (channel c = Some k)) l) with
  | Some r => Some r
  | None => acc !! k
  end.
Proof.
  revert acc. induction l as [|c l IH]; intros acc; [reflexivity |].
  cbn [fold_left List.filter]. rewrite IH. unfold dict_step.
  case_bool_decide as Hc.
  - rewrite last_cons, Hc, lookup_insert_eq.
    now destruct (last _).
  - destruct (last _); [reflexivity |].
    destruct (channel c) as [k'|]; [| reflexivity].
    apply lookup_insert_ne. congruence.
Qed.

(** The table that the comparison looks channels up in holds, for every
    channel number, the live record of that number. *)
Lemma current_channels_dict_live cfg k :
  current_channels_dict cfg !! k = live_record cfg k.
Proof.
  unfold live_record.
  change (current_channels_dict cfg) with (fold_left dict_step (channels cfg) ∅).
  rewrite fold_dict_last, lookup_empty. now destruct (last _).
Qed.

Lemma live_record_in cfg k r :
  live_record cfg k = Some r -> In r (channels cfg) /\ channel r = Some k.
Proof.
  intros H. apply last_Some_elem_of, list_elem_of_In, filter_In in H as [H1 H2].
  split; [exact H1 |]. now apply bool_decide_eq_true in H2.
Qed.

Lemma live_record_none cfg k :
  live_record cfg k = None <-> forall c, In c (channels cfg) -> channel c <> Some k.
Proof.
  unfold live_record. rewrite last_None. split.
  - intros E c Hc Hk.
    assert (Hin : In c (List.filter (fun c => bool_decide (channel c = Some k))
                                    (channels cfg)))
      by (apply filter_In; split; [exact Hc | now apply bool_decide_eq_true]).
    rewrite E in Hin. destruct Hin.
  - intros H. destruct (List.filter _ _) as [|c l] eqn:E; [reflexivity |].
    assert (Hin : In c (List.filter (fun c => bool_decide (channel c = Some k))
                                    (channels cfg)))
      by (rewrite E; now left).
    apply filter_In in Hin as [Hc Hk]. apply bool_decide_eq_true in Hk.
    now destruct (H c Hc).
Qed.

Lemma live_record_only cfg k r :
  In r (channels cfg) -> channel r = Some k ->
  (forall c, In c (channels cfg) -> channel c = Some k -> c = r) ->
  live_record cfg k = Some r.
Proof.
  intros Hin Hk Hu.
  destruct (live_record cfg k) as [l|] eqn:E.
  - apply live_record_in in E as [Hl Hlk]. f_equal. now apply Hu.
  - rewrite live_record_none in E. now destruct (E r Hin).
Qed.

(** C1. For every row that the parsing phase stored under its channel number,
    the decision is taken against the live configuration by channel number.
    When no live record carries the number, the row is in the write list
    unless it carries a skip frequency (0 or the configured skip value). When
    the number is carried, the record compared with is one of the live
    configuration with that number (the only one when the number is carried
    once), and the row is in the write list exactly when frequency, bandwidth
    code, mono/stereo code, PI (without regard to case) or PS differs, except
    when the row carries a skip frequency, the live channel is already in the
    skip state and bandwidth code, mono/stereo code, PI and PS all match. In
    particular a row for channel 5 with frequency 0, against a live channel 5
    at the skip value 500 of the device and equal in the other fields, is not
    in the write list. *)
Theorem differential_import_decision
        (self : App) (cfg : ConfigData) (file : list (list string))
        (writes : list ChannelData) (warnings : list ParseWarning)
        (ch : Z) (imp : ChannelData) :
  radio_config self = Some cfg ->
  _import_csv_thread_worker self file = Some (writes, [], warnings) ->
  In (ch, imp) (imported_channels (parse_csv self file)) ->
  ((forall c, In c (channels cfg) -> channel c <> Some ch) ->
   (In imp writes <-> ~ row_is_skip self imp)) /\
  (forall live,
     live_record cfg ch = Some live ->
     In live (channels cfg) /\ channel live = Some ch /\
     (In imp writes <->
      differs_from_live imp live /\ ~ already_skipped self ch imp live)) /\
  (forall live,
     In live (channels cfg) -> channel live = Some ch ->
     (forall c, In c (channels cfg) -> channel c = Some ch -> c = live) ->
     live_record cfg ch = Some live) /\
  (live_record cfg ch = None <->
   forall c, In c (channels cfg) -> channel c <> Some ch) /\
  (forall live,
     ch = 5 -> live_record cfg 5 = Some live ->
     config (radio self) = Some cfg -> skip_freq_value (radio self) = Some 500 ->
     freq_khz live = Some 500 -> freq_khz imp = Some 0 ->
     bandwidth_code imp = bandwidth_code live ->
     mono_stereo_code imp = mono_stereo_code live ->
     pi_matches imp live -> ps_matches imp live ->
     is_channel_skipped (radio self) 5 (Some live) = true /\ ~ In imp writes).
Proof.
  intros Hcfg Hw Hin.
  pose proof (ManagerFacts.parse_csv_stored self file) as Hall.
  assert (Hst : stored_row ch imp).
  { rewrite Forall_forall in Hall.
    exact (Hall _ (proj2 (list_elem_of_In _ _) Hin)). }
  assert (Hne : imported_channels (parse_csv self file) <> []).
  { intros E. rewrite E in Hin. destruct Hin. }
  assert (Hiff : In imp writes <-> write_expected self ch imp (live_record cfg ch)).
  { rewrite (ManagerFacts.worker_writes self cfg file writes warnings Hcfg Hw Hne).
    rewrite (ManagerFacts.in_diff_channels self cfg _ ch imp Hall Hin).
    rewrite current_channels_dict_live.
    apply (ManagerFacts.needs_write_expected self ch imp _ Hst). }
  split; [| split; [| split; [| split]]].
  - intros Habs. apply live_record_none in Habs. now rewrite Hiff, Habs.
  - intros live Hl. destruct (live_record_in cfg ch live Hl) as [H1 H2].
    split; [exact H1 |]. split; [exact H2 |]. now rewrite Hiff, Hl.
  - apply live_record_only.
  - apply live_record_none.
  - intros live -> Hl Hloaded Hskip Hf500 Hf0 Hbw Hms Hpi Hps.
    assert (Hsk : is_channel_skipped (radio self) 5 (Some live) = true).
    { unfold is_channel_skipped. rewrite Hloaded.
      destruct (live_record_in cfg 5 live Hl) as [Hlin _].
      destruct (channels cfg); [destruct Hlin |]. now rewrite Hf500, Hskip. }
    split; [exact Hsk |].
    rewrite Hiff, Hl. cbn. intros [_ Hn]. apply Hn.
    unfold already_skipped, row_is_skip. auto 10.
Qed.

(** The file with the unchanged row of channel 1 and the row of channel 5 with
    frequency 0, against the device on which channel 5 is skipped at 500:
    both rows are stored and neither is written, channel 1 because nothing
    differs from its live record. *)
Lemma differential_import_decision_witness :
  In live_one (channels skipped_five_config) /\
  ~ (differs_from_live row_one live_one /\ ~ already_skipped skipped_five 1 row_one live_one).
Proof.
  assert (H1 : radio_config skipped_five = Some skipped_five_config)
    by (vm_compute; reflexivity).
  assert (H2 : _import_csv_thread_worker skipped_five csv_one_five = Some ([], [], []))
    by (vm_compute; reflexivity).
  assert (H3 : In (1, row_one) (imported_channels (parse_csv skipped_five csv_one_five)))
    by (vm_compute; left; reflexivity).
  assert (H4 : live_record skipped_five_config 1 = Some live_one)
    by (vm_compute; reflexivity).
  destruct (differential_import_decision skipped_five skipped_five_config
              csv_one_five [] [] 1 row_one H1 H2 H3) as (_ & Hp & _).
  destruct (Hp live_one H4) as (Hin & _ & Hiff).
  split; [exact Hin |]. intros Hd. apply Hiff in Hd. destruct Hd.
Defined.

(** *** An exported file read back *)

Lemma length_upper_plain s :
  Py.isprintable_ascii s = true -> String.length (Py.upper s) = String.length s.
Proof.
  induction s as [|c s IH]; [reflexivity |]. cbn.
  intros H. apply andb_true_iff in H as [_ H]. now rewrite IH.
Qed.

Lemma is_skip_freq_decide skip f :
  is_skip_freq skip f = (f =? 0) || bool_decide (skip = Some f).
Proof.
  unfold is_skip_freq. f_equal. destruct skip as [v|].
  - destruct (Z.eqb_spec f v) as [-> | Hn].
    + now rewrite bool_decide_eq_true_2.
    + rewrite bool_decide_eq_false_2; [reflexivity | congruence].
  - now rewrite bool_decide_eq_false_2.
Qed.

(** What the import does with the exported row of a record with tidy,
    printable texts, on a radio that knows its channel count. *)
Lemma import_row_export_cases self n r maxc :
  tidy_texts r -> plain_texts r ->
  max_channels (radio self) = Some maxc ->
  if importable self r
  then exists ch,
         channel r = Some ch /\
         import_row self n (export_row r) = RowStored ch (stored_form r) []
  else exists ws, import_row self n (export_row r) = RowSkipped ws.
Proof.
  intros [[Hpi Hpil] [Hps Hpsl]] [Hpp _] Hmax.
  unfold import_row, export_row, importable, stored_form.
  rewrite !ManagerFacts.int_cell, Hmax.
  change (cell_str (pi r)) with (Py.or_empty (pi r)).
  change (cell_str (ps r)) with (Py.or_empty (ps r)).
  rewrite Hpi, Hps.
  destruct (channel r) as [ch|].
  2:{ destruct (negb _); eauto. }
  cbn [cell_int existsb]. rewrite ManagerFacts.nonblank_str. cbn [orb negb].
  destruct (freq_khz r) as [f|]; [| eauto].
  destruct (bandwidth_code r) as [bw|]; [| eauto].
  destruct (mono_stereo_code r) as [ms|]; [| eauto].
  destruct (Z.leb_spec 1 ch); cbn [negb andb]; [| eauto].
  destruct (Z.leb_spec ch maxc); cbn [negb andb]; [| eauto].
  destruct (Z.leb_spec 0 f), (Z.ltb_spec f 0); try lia; cbn [negb andb]; [| eauto].
  destruct (Z.leb_spec 0 bw), (Z.ltb_spec bw 0); try lia; cbn [negb andb]; [| eauto].
  destruct ((ms =? 0) || (ms =? 1)); cbn [negb andb]; [| eauto].
  destruct (Nat.ltb_spec 4 (String.length (Py.upper (Py.or_empty (pi r)))))
    as [Hlong | _].
  { rewrite length_upper_plain in Hlong by exact Hpp. lia. }
  destruct (Nat.ltb_spec 8 (String.length (Py.or_empty (ps r)))) as [Hlong | _]; [lia |].
  rewrite is_skip_freq_decide.
  destruct ((ch =? 1) && _); cbn [negb]; eauto.
Qed.

Lemma dict_get_set k k' v d :
  dict_get k (dict_set k' v d) = if k' =? k then Some v else dict_get k d.
Proof.
  induction d as [|[k0 v0] d IH]; cbn.
  - reflexivity.
  - destruct (Z.eqb_spec k0 k') as [-> | Hn]; cbn.
    + now destruct (k' =? k).
    + rewrite IH. destruct (Z.eqb_spec k0 k) as [-> | Hn']; [| reflexivity].
      destruct (Z.eqb_spec k' k); [congruence | reflexivity].
Qed.

Lemma dict_get_in k v d :
  NoDup (map fst d) -> In (k, v) d <-> dict_get k d = Some v.
Proof.
  induction d as [|[k0 v0] d IH]; cbn; intros Hn.
  - split; [intros [] | discriminate].
  - apply ManagerProperties.nodup_cons in Hn as [Hk Hn].
    destruct (Z.eqb_spec k0 k) as [-> | Hne].
    + split.
      * intros [[= ->] | Hin]; [reflexivity |].
        destruct Hk. change k with (fst (k, v)). now apply in_map.
      * intros [= ->]. now left.
    + rewrite <- (IH Hn). split; [intros [[= ? ?] | H]; [congruence | exact H] | now right].
Qed.

(** The rows of exported records, read in order: under every channel number
    the record stored is the last acceptable one with that number, and no
    error is raised. *)
Lemma import_records self maxc (k : Z) :
  max_channels (radio self) = Some maxc ->
  forall (l : list ChannelData) (n : nat) (acc : Parsed),
    Forall tidy_texts l -> Forall plain_texts l ->
    dict_get k (imported_channels (import_rows self n (map export_row l) acc)) =
    match last (List.filter
                  (fun r => bool_decide (channel r = Some k) && importable self r) l) with
    | Some r => Some (stored_form r)
    | None => dict_get k (imported_channels acc)
    end /\
    parse_errors (import_rows self n (map export_row l) acc) = parse_errors acc.
Proof.
  intros Hmax. induction l as [|r l IH]; intros n acc Ht Hp; [now split |].
  apply Forall_cons in Ht as [Htr Ht]. apply Forall_cons in Hp as [Hpr Hp].
  cbn [map import_rows List.filter].
  pose proof (import_row_export_cases self (S n) r maxc Htr Hpr Hmax) as Hc.
  destruct (importable self r).
  - destruct Hc as (ch & Hch & ->).
    destruct (IH (S n)
                (mkParsed (dict_set ch (stored_form r) (imported_channels acc))
                          (parse_errors acc) (parse_warnings acc ++ [])) Ht Hp)
      as (-> & ->).
    split; [| reflexivity]. cbn [imported_channels].
    rewrite andb_true_r, dict_get_set, Hch.
    case_bool_decide as Hk.
    + injection Hk as ->. rewrite last_cons, Z.eqb_refl. now destruct (last _).
    + destruct (Z.eqb_spec ch k); [congruence | reflexivity].
  - destruct Hc as (ws & ->). rewrite andb_false_r.
    destruct (IH (S n)
                (mkParsed (imported_channels acc) (parse_errors acc)
                          (parse_warnings acc ++ ws)) Ht Hp) as (-> & ->).
    now split.
Qed.

Lemma filter_and {A} (p q : A -> bool) l :
  List.filter (fun x => p x && q x) l = List.filter q (List.filter p l).
Proof.
  induction l as [|x l IH]; [reflexivity |]. cbn.
  destruct (p x); cbn; [destruct (q x) |]; now rewrite IH.
Qed.

Lemma last_filter_last {A} (q : A -> bool) l x :
  last l = Some x -> q x = true -> last (List.filter q l) = Some x.
Proof.
  intros Hl Hq. apply last_Some in Hl as (l' & ->).
  rewrite List.filter_app. cbn. rewrite Hq. apply last_snoc.
Qed.

(** Under [last_accepted] the last acceptable record of a channel number is
    the live one. *)
Lemma last_acceptable self cfg k :
  last_accepted self cfg ->
  last (List.filter (fun r => bool_decide (channel r = Some k) && importable self r)
                    (sorted (channels cfg))) =
  match live_record cfg k with
  | Some r => if importable self r then Some r else None
  | None => None
  end.
Proof.
  intros Hla. rewrite filter_and, ManagerProperties.sorted_stable.
  fold (live_record cfg k) in *.
  set (F := List.filter (fun c => bool_decide (channel c = Some k)) (channels cfg)).
  change (live_record cfg k) with (last F).
  destruct (last (List.filter (importable self) F)) as [r|] eqn:E.
  - pose proof E as E'.
    apply last_Some_elem_of, list_elem_of_In, filter_In in E'.
    destruct E' as [Hr Hi]. unfold F in Hr. apply filter_In in Hr as [Hr Hk].
    apply bool_decide_eq_true in Hk.
    destruct (Hla r k Hr Hk Hi) as (l & Hl & Hli).
    change (live_record cfg k) with (last F) in Hl. rewrite Hl, Hli.
    rewrite (last_filter_last _ _ _ Hl Hli) in E. congruence.
  - destruct (last F) as [l|] eqn:Hl; [| reflexivity].
    destruct (importable self l) eqn:Hli; [| reflexivity].
    rewrite (last_filter_last _ _ _ Hl Hli) in E. discriminate.
Qed.

Lemma import_records_quiet self maxc :
  max_channels (radio self) = Some maxc ->
  forall (l : list ChannelData) (n : nat) (acc : Parsed),
    Forall tidy_texts l -> Forall plain_texts l ->
    Forall (fun r => importable self r = true) l ->
    parse_warnings (import_rows self n (map export_row l) acc) = parse_warnings acc.
Proof.
  intros Hmax. induction l as [|r l IH]; intros n acc Ht Hp Hi; [reflexivity |].
  apply Forall_cons in Ht as [Htr Ht]. apply Forall_cons in Hp as [Hpr Hp].
  apply Forall_cons in Hi as [Hir Hi].
  cbn [map import_rows].
  pose proof (import_row_export_cases self (S n) r maxc Htr Hpr Hmax) as Hc.
  rewrite Hir in Hc. destruct Hc as (ch & Hch & ->).
  rewrite (IH _ _ Ht Hp Hi). cbn. apply app_nil_r.
Qed.

Lemma valid_importable self r : valid_record self r -> importable self r = true.
Proof.
  intros (ch & f & bw & ms & maxc & Hch & Hf & Hbw & Hms & Hmax & Hr & Hf0 & Hb0 &
          Hms01 & _ & _ & Hk).
  unfold importable. rewrite Hch, Hf, Hbw, Hms, Hmax.
  repeat (apply andb_true_iff; split); try (apply Z.leb_le; lia).
  - apply orb_true_iff. rewrite !Z.eqb_eq. exact Hms01.
  - apply negb_true_iff, not_true_iff_false. intros H.
    apply andb_true_iff in H as [H1 H2]. apply Z.eqb_eq in H1.
    apply Hk. split; [exact H1 |]. unfold skip_frequency.
    apply orb_true_iff in H2 as [H2 | H2]; [left; now apply Z.eqb_eq |].
    right. now apply bool_decide_eq_true in H2.
Qed.

(** Pairwise distinct channel numbers: every record is the live record of its
    number. *)
Lemma distinct_last_accepted self cfg :
  NoDup (omap channel (channels cfg)) -> last_accepted self cfg.
Proof.
  intros Hn r ch Hr Hch Hi. exists r. split; [| exact Hi].
  rewrite <- current_channels_dict_live.
  now apply ManagerFacts.current_channels_dict_unique.
Qed.

(** Every record acceptable: so is the live record of every number. *)
Lemma importable_last_accepted self cfg :
  Forall (fun r => importable self r = true) (channels cfg) -> last_accepted self cfg.
Proof.
  intros Hall r ch Hr Hch _.
  destruct (live_record cfg ch) as [l|] eqn:E.
  - exists l. split; [reflexivity |].
    apply live_record_in in E as [Hl _].
    rewrite List.Forall_forall in Hall. now apply Hall.
  - rewrite live_record_none in E. now destruct (E r Hr).
Qed.

Lemma sorted_Forall (P : ChannelData -> Prop) l : Forall P l -> Forall P (sorted l).
Proof.
  intros H. apply List.Forall_forall. intros r Hr.
  apply ManagerFacts.in_sorted in Hr. rewrite List.Forall_forall in H. now apply H.
Qed.

(** What the parsing phase holds after reading the exported file. *)
Lemma reimport_stored self cfg k :
  Forall plain_texts (channels cfg) -> Forall tidy_texts (channels cfg) ->
  last_accepted self cfg ->
  dict_get k (imported_channels
                (parse_csv self (CSV_HEADER :: map export_row (sorted (channels cfg))))) =
  match live_record cfg k with
  | Some r => if importable self r then Some (stored_form r) else None
  | None => None
  end /\
  (max_channels (radio self) <> None ->
   parse_errors (parse_csv self (CSV_HEADER :: map export_row (sorted (channels cfg)))) =
   []).
Proof.
  intros Hp Ht Hla. unfold parse_csv. rewrite bool_decide_eq_true_2 by reflexivity.
  destruct (max_channels (radio self)) as [maxc|] eqn:Hmax.
  - destruct (import_records self maxc k Hmax (sorted (channels cfg)) 1
                (mkParsed [] [] []) (sorted_Forall _ _ Ht) (sorted_Forall _ _ Hp))
      as (-> & ->).
    rewrite (last_acceptable self cfg k Hla). split; [| reflexivity].
    destruct (live_record cfg k) as [r|]; [| reflexivity].
    now destruct (importable self r).
  - rewrite ManagerProperties.no_rows_without_size by (exact Hmax || reflexivity).
    split; [| congruence]. cbn.
    destruct (live_record cfg k) as [r|]; [| reflexivity].
    unfold importable. rewrite Hmax.
    now destruct (channel r), (freq_khz r), (bandwidth_code r), (mono_stereo_code r).
Qed.

(** C3 (amended). Take a loaded configuration whose PI and PS texts are
    printable ASCII without surrounding white space, of at most 4 and 8
    characters, and in which the import accepts the live record of a channel
    number whenever it accepts any record carrying that number. Exporting it
    writes one row per record, and importing the unchanged file against the
    same configuration gives an empty write list: no error is reported when
    the radio knows its channel count, no warning when every record is
    acceptable, and the rows stored are exactly, for every channel number
    whose live record is acceptable, that record with its PI in upper case and
    an absent PI or PS as the empty text. In particular every valid record
    that is the live record of its channel, channel 1 with a skip frequency
    excepted, is read back with identical fields and is not written. *)
Theorem csv_round_trip (self : App) (cfg : ConfigData) :
  radio_config self = Some cfg ->
  Forall plain_texts (channels cfg) -> Forall tidy_texts (channels cfg) ->
  last_accepted self cfg ->
  exists file errors warnings,
    _export_csv_worker self = (Some file, length (channels cfg), None) /\
    _import_csv_thread_worker self file = Some ([], errors, warnings) /\
    (max_channels (radio self) <> None -> errors = []) /\
    (Forall (fun r => importable self r = true) (channels cfg) -> warnings = []) /\
    (forall ch r',
       In (ch, r') (imported_channels (parse_csv self file)) <->
       exists r,
         live_record cfg ch = Some r /\ importable self r = true /\ r' = stored_form r) /\
    (forall ch r,
       live_record cfg ch = Some r -> valid_record self r ->
       exists r',
         In (ch, r') (imported_channels (parse_csv self file)) /\ same_record r' r).
Proof.
  intros Hcfg Hp Ht Hla.
  set (file := CSV_HEADER :: map export_row (sorted (channels cfg))).
  assert (Hstored : forall ch r',
             In (ch, r') (imported_channels (parse_csv self file)) <->
             exists r, live_record cfg ch = Some r /\ importable self r = true /\
                       r' = stored_form r).
  { intros ch r'. unfold file.
    rewrite (dict_get_in ch r' _ (ManagerProperties.parse_csv_keys self _)).
    rewrite (proj1 (reimport_stored self cfg ch Hp Ht Hla)).
    destruct (live_record cfg ch) as [r|].
    - destruct (importable self r) eqn:Hi.
      + split; [intros [= <-]; now exists r | now intros (r0 & [= <-] & _ & ->)].
      + split; [discriminate | intros (r0 & [= <-] & Hi' & _); congruence].
    - split; [discriminate | now intros (r0 & E & _)]. }
  assert (Hdiff : diff_channels self cfg (imported_channels (parse_csv self file)) = []).
  { apply ManagerFacts.diff_channels_nil. apply List.Forall_forall.
    intros [k d] Hin. apply Hstored in Hin as (r & Hl & _ & ->).
    rewrite current_channels_dict_live, Hl.
    apply ManagerFacts.needs_write_unchanged. }
  assert (Herr : max_channels (radio self) <> None ->
                 parse_errors (parse_csv self file) = [])
    by apply (proj2 (reimport_stored self cfg 0 Hp Ht Hla)).
  assert (Hwarn : Forall (fun r => importable self r = true) (channels cfg) ->
                  parse_warnings (parse_csv self file) = []).
  { intros Hi. unfold file, parse_csv. rewrite bool_decide_eq_true_2 by reflexivity.
    destruct (max_channels (radio self)) as [maxc|] eqn:Hmax.
    - now rewrite (import_records_quiet self maxc Hmax) by now apply sorted_Forall.
    - destruct (channels cfg) as [|r l]; [reflexivity |].
      apply Forall_cons in Hi as [Hi _]. unfold importable in Hi. rewrite Hmax in Hi.
      now destruct (channel r), (freq_khz r), (bandwidth_code r), (mono_stereo_code r). }
  exists file.
  assert (Hexp : _export_csv_worker self = (Some file, length (channels cfg), None)).
  { unfold _export_csv_worker. rewrite Hcfg.
    now rewrite (Permutation_length (ManagerProperties.sorted_perm (channels cfg))). }
  assert (Himp : exists errors,
             _import_csv_thread_worker self file =
               Some ([], errors, parse_warnings (parse_csv self file)) /\
             (max_channels (radio self) <> None -> errors = [])).
  { unfold _import_csv_thread_worker. rewrite Hcfg, Hdiff.
    destruct (parse_errors (parse_csv self file)) as [|e es] eqn:Ee.
    - exists []. split; [| reflexivity].
      now destruct (imported_channels (parse_csv self file)).
    - exists (e :: es). split; [reflexivity | exact Herr]. }
  destruct Himp as (errors & Himp & He).
  exists errors, (parse_warnings (parse_csv self file)).
  split; [exact Hexp |]. split; [exact Himp |]. split; [exact He |].
  split; [exact Hwarn |]. split; [exact Hstored |].
  intros ch r Hl Hv. exists (stored_form r). split.
  - apply Hstored. exists r. split; [exact Hl |]. split; [now apply valid_importable |].
    reflexivity.
  - destruct Hv as (? & ? & ? & ? & ? & _ & _ & _ & _ & _ & _ & _ & _ & _ & Hup & _).
    unfold same_record, stored_form. cbn. now rewrite Hup.
Qed.

(** Two tidy records, one of them skipped: both are read back and neither is
    written. *)
Lemma csv_round_trip_witness :
  exists file errors warnings,
    _export_csv_worker two_stations = (Some file, 2%nat, None) /\
    _import_csv_thread_worker two_stations file = Some ([], errors, warnings) /\
    errors = [] /\ warnings = [].
Proof.
  assert (H : radio_config two_stations = Some two_stations_config)
    by (vm_compute; reflexivity).
  assert (Hp : Forall plain_texts (channels two_stations_config))
    by (repeat constructor; vm_compute; reflexivity).
  assert (Ht : Forall tidy_texts (channels two_stations_config))
    by (repeat constructor; vm_compute; lia).
  assert (Hla : last_accepted two_stations two_stations_config).
  { apply distinct_last_accepted.
    assert (E : omap channel (channels two_stations_config) = [1; 2])
      by (vm_compute; reflexivity).
    rewrite E. apply NoDup_cons_2; [| apply NoDup_singleton].
    rewrite elem_of_cons, elem_of_nil. intuition discriminate. }
  assert (Hm : max_channels (radio two_stations) <> None) by (vm_compute; discriminate).
  assert (Hi : Forall (fun r => importable two_stations r = true)
                      (channels two_stations_config))
    by (repeat constructor; vm_compute; reflexivity).
  destruct (csv_round_trip two_stations two_stations_config H Hp Ht Hla)
    as (file & errors & warnings & H1 & H2 & H3 & H4 & _).
  exists file, errors, warnings.
  split; [exact H1 |]. split; [exact H2 |]. split; [exact (H3 Hm) | exact (H4 Hi)].
Defined.

End ImportProperties.
